(** * diff-ai-frontend: the merge workflow's client logic

    A shallow embedding of the parts of the React client that carry control
    flow: the line highlighter ([src/utils/documentHighlighter.ts]), the task
    poller ([src/services/api.ts]), the goal form
    ([src/components/GoalSetting/GoalSetting.tsx]), the review step
    ([src/components/Review/Review.tsx]) and the page that owns the session
    ([src/pages/HomePage.tsx]).

    JavaScript strings are sequences of UTF-16 code units, modelled as
    [list N].  Component state set with [useState] is a record; a handler is a
    function from the state before to the state after.  Calls to the remote
    service are recorded in a log of requests, and the service's answers are
    given by an oracle over that log. *)

From stdpp Require Import base numbers list gmap sets strings pretty.
From Stdlib Require Import ZArith NArith Lia QArith_base.
From Stdlib Require Ascii.

Open Scope N_scope.

(** ** JavaScript strings *)

Module Js.

Abbreviation jsstring := (list N).

(** A literal of the source, one code unit per character. *)
Fixpoint lit (s : string) : jsstring :=
  match s with
  | EmptyString => []
  | String a s' => Ascii.N_of_ascii a :: lit s'
  end.

Arguments lit : simpl never.

(** The code units [String.prototype.trim] strips: ECMAScript's WhiteSpace
    (TAB, VT, FF, SP, NBSP, ZWNBSP and the Unicode space separators) and
    LineTerminator (LF, CR, LS, PS). *)
Definition isWhiteSpace (c : N) : bool :=
  (c =? 9) || (c =? 10) || (c =? 11) || (c =? 12) || (c =? 13) || (c =? 32)
  || (c =? 160) || (c =? 5760) || ((8192 <=? c) && (c <=? 8202))
  || (c =? 8232) || (c =? 8233) || (c =? 8239) || (c =? 8287)
  || (c =? 12288) || (c =? 65279).

Fixpoint trimStart (s : jsstring) : jsstring :=
  match s with
  | [] => []
  | c :: s' => if isWhiteSpace c then trimStart s' else s
  end.

Definition trimEnd (s : jsstring) : jsstring := rev (trimStart (rev s)).

Definition trim (s : jsstring) : jsstring := trimEnd (trimStart s).

(** [s.split(sep)] for a separator of one code unit: never empty, and the
    text after the last separator is a piece of its own. *)
Fixpoint split (sep : N) (s : jsstring) : list jsstring :=
  match s with
  | [] => [[]]
  | c :: s' =>
      if c =? sep then [] :: split sep s'
      else match split sep s' with
           | l :: ls => (c :: l) :: ls
           | [] => [[c]]
           end
  end.

(** [ls.join(sep)] *)
Fixpoint join (sep : jsstring) (ls : list jsstring) : jsstring :=
  match ls with
  | [] => []
  | l :: ls' =>
      match ls' with
      | [] => l
      | _ :: _ => l ++ sep ++ join sep ls'
      end
  end.

Fixpoint startsWith (s pat : jsstring) {struct pat} : bool :=
  match pat, s with
  | [], _ => true
  | _ :: _, [] => false
  | p :: pat', c :: s' => (c =? p) && startsWith s' pat'
  end.

(** [s.includes(pat)] *)
Fixpoint includes (s pat : jsstring) : bool :=
  startsWith s pat ||
  match s with
  | [] => false
  | _ :: s' => includes s' pat
  end.

(** [s.replace(/c/g, rep)] for a pattern of one literal character. *)
Definition replaceAll (c : N) (rep : jsstring) (s : jsstring) : jsstring :=
  flat_map (fun x => if x =? c then rep else [x]) s.

(** [a || b] on strings: the empty string is falsy, and so is a missing one. *)
Definition orElse (a : option jsstring) (b : jsstring) : jsstring :=
  match a with
  | Some (c :: s) => c :: s
  | Some [] | None => b
  end.

End Js.

Import Js.

(** ** src/utils/documentHighlighter.ts *)

Module Highlighter.

Inductive DiffLineType := added | removed | unchanged.

Record DiffLine := { type : DiffLineType; line : jsstring }.

Record DiffStats := {
  total_lines : Z;
  added_lines : Z;
  removed_lines : Z;
  unchanged_lines : Z;
  words_added : Z;
  words_removed : Z;
  change_ratio : Q
}.

Record DiffResult := {
  diff_lines : list DiffLine;
  stats : DiffStats;
  ai_summary : jsstring
}.

Definition is_added (t : DiffLineType) : bool :=
  match t with added => true | _ => false end.

(** The five replacements of [escapeHtml], in the order of the source. *)
Definition escapeHtml (unsafe : jsstring) : jsstring :=
  replaceAll 39 (lit "&#039;")
    (replaceAll 34 (lit "&quot;")
      (replaceAll 62 (lit "&gt;")
        (replaceAll 60 (lit "&lt;")
          (replaceAll 38 (lit "&amp;") unsafe)))).

(** The set filled by the first [forEach]: the trimmed text of every diff
    line of type 'added'. *)
Definition addedLinesOf (ds : list DiffLine) : gset jsstring :=
  foldl (fun addedLines d =>
           if is_added (type d) then {[ trim (line d) ]} ∪ addedLines
           else addedLines)
        ∅ ds.

Definition span_open (class : string) : jsstring :=
  lit "<span class=" ++ [34] ++ lit class ++ [34] ++ lit ">".

Definition span_close : jsstring := lit "</span>".

(** The body of the second [forEach]: what is pushed for one merged line. *)
Definition highlightLine (addedLines : gset jsstring) (line : jsstring) : jsstring :=
  let trimmedLine := trim line in
  if bool_decide (trimmedLine ∈ addedLines) then
    span_open "added-content" ++ escapeHtml line ++ span_close
  else if includes line (lit "<<<") && includes line (lit ">>>") then
    span_open "conflict-content" ++ escapeHtml line ++ span_close
  else
    escapeHtml line.

Definition highlightMergedContent
    (mergedContent : jsstring) (diffResult : option DiffResult) : jsstring :=
  match mergedContent, diffResult with
  | [], _ => mergedContent
  | _ :: _, None => mergedContent
  | _ :: _, Some d =>
      let mergedLines := split 10 mergedContent in
      let addedLines := addedLinesOf (diff_lines d) in
      let highlightedLines :=
        foldl (fun highlightedLines line =>
                 highlightedLines ++ [highlightLine addedLines line])
              [] mergedLines in
      join [10] highlightedLines
  end.

(** The three branches of the second [forEach], as the spec names them. *)
Inductive Highlight := Added | Conflict | NoHighlight.

(** Which branch the source takes for a line. *)
Definition highlightOf (addedLines : gset jsstring) (line : jsstring) : Highlight :=
  if bool_decide (trim line ∈ addedLines) then Added
  else if includes line (lit "<<<") && includes line (lit ">>>") then Conflict
  else NoHighlight.

(** What each branch pushes. *)
Definition markup (h : Highlight) (line : jsstring) : jsstring :=
  match h with
  | Added => span_open "added-content" ++ escapeHtml line ++ span_close
  | Conflict => span_open "conflict-content" ++ escapeHtml line ++ span_close
  | NoHighlight => escapeHtml line
  end.

(** The classification [highlightMergedContent] works by: each line of the
    merged text with the branch taken for it.  The guard at the head of the
    source returns an empty text as it is, without markup. *)
Definition classify (mergedContent : jsstring) (d : DiffResult)
  : list (jsstring * Highlight) :=
  match mergedContent with
  | [] => [([], NoHighlight)]
  | _ :: _ =>
      map (fun line => (line, highlightOf (addedLinesOf (diff_lines d)) line))
          (split 10 mergedContent)
  end.

End Highlighter.

(** ** src/services/api.ts

    (In this tree the text of the file follows the highlighter's, in
    [src/utils/documentHighlighter.ts].)  Numbers are taken to be integers:
    [interval], [maxAttempts] and the [attempts] counter are in [Z]. *)

Module Api.

(** What axios rejects with, or what [new Error(msg)] builds: the fields
    [handleApiError] and the components read. *)
Record JsError := {
  err_message : jsstring;
  err_response : option (Z * option jsstring);  (* status, data.detail *)
  err_request : bool
}.

Definition Error (msg : jsstring) : JsError :=
  {| err_message := msg; err_response := None; err_request := false |}.

(** An awaited promise: fulfilled with a value or rejected with an error. *)
Inductive Settled (A : Type) :=
| Resolved (value : A)
| Rejected (reason : JsError).
Arguments Resolved {A} value.
Arguments Rejected {A} reason.

Record AiGuidance := {
  g_priorities : option (list jsstring);
  g_preserve_sections : option (list jsstring);
  g_custom_rules : option (list jsstring);
  g_notes : option jsstring
}.

Record MergeRequest := {
  doc_id_a : Z;
  doc_id_b : Z;
  conflict_resolution : jsstring;
  ai_guidance : option AiGuidance
}.

(** The requests the client issues; each constructor carries all that goes
    over the wire with it. *)
Inductive Request :=
| GetTaskStatus (taskId : jsstring)
| CreateAsyncMerge (mergeRequest : MergeRequest)
| GetMergeResult (taskId : jsstring) (applyResult : bool).

Record MergeReport := {
  conflicts_resolved : option Z;
  summary : option jsstring
}.

Record MergeData := {
  merged_content : option jsstring;
  report : option MergeReport
}.

(** [response.data] of GET /diffs/task-status/{task_id} *)
Record TaskStatusData := {
  status : jsstring;
  progress : option Z;
  message : option jsstring;
  result : option MergeData;
  error : option jsstring
}.

(** [response.data] of GET /diffs/merge-result/{task_id} *)
Record MergeResultData := {
  id : option Z;
  filename : option jsstring
}.

Record AsyncMergeData := { task_id : jsstring }.

(** What lies outside the client: the requests sent so far (oldest first),
    the delays waited with [setTimeout], and the stored credential. *)
Record World := {
  sent : list Request;
  delays : list Z;
  auth_token : option jsstring
}.

Definition send (r : Request) (w : World) : World :=
  {| sent := sent w ++ [r]; delays := delays w; auth_token := auth_token w |}.

Definition sleep (ms : Z) (w : World) : World :=
  {| sent := sent w; delays := delays w ++ [ms]; auth_token := auth_token w |}.

Definition removeToken (w : World) : World :=
  {| sent := sent w; delays := delays w; auth_token := None |}.

(** The remote service, as the client sees it: the answer to a request is a
    function of everything the service has received, that request included. *)
Record Service := {
  taskStatus : list Request -> Settled TaskStatusData;
  asyncMerge : list Request -> Settled AsyncMergeData;
  mergeResult : list Request -> Settled MergeResultData
}.

Definition getTaskStatus (svc : Service) (taskId : jsstring) (w : World)
  : Settled TaskStatusData * World :=
  let w' := send (GetTaskStatus taskId) w in (taskStatus svc (sent w'), w').

Definition createAsyncMerge (svc : Service) (mergeRequest : MergeRequest) (w : World)
  : Settled AsyncMergeData * World :=
  let w' := send (CreateAsyncMerge mergeRequest) w in (asyncMerge svc (sent w'), w').

Definition getMergeResult (svc : Service) (taskId : jsstring) (applyResult : bool)
    (w : World) : Settled MergeResultData * World :=
  let w' := send (GetMergeResult taskId applyResult) w in (mergeResult svc (sent w'), w').

Definition str_eqb (a b : jsstring) : bool := bool_decide (a = b).

Definition isCompleted (response : Settled TaskStatusData) : bool :=
  match response with
  | Resolved d => str_eqb (status d) (lit "completed")
  | Rejected _ => false
  end.

Definition maxAttemptsReached : JsError :=
  Error (lit "Maximum polling attempts reached").

(** How the [try] block of [poll] ends, once the status request has settled. *)
Inductive TryEnd :=
| Return (result : TaskStatusData)   (* return result *)
| Throw (e : JsError)                (* a throw, or the rejected request *)
| Continue.                          (* falls through to attempts++ *)

Section Poll.

Context {P : Type}.
Variable svc : Service.
Variable taskId : jsstring.
(** The caller's callback acts on the caller's state [P]. *)
Variable onProgress : option (Z -> jsstring -> P -> P).
Variable interval maxAttempts : Z.

Definition reportProgress (result : TaskStatusData) (p : P) : P :=
  match onProgress, progress result with
  | Some f, Some pr => f pr (orElse (message result) [])  p
  | _, _ => p
  end.

(** The caller's state once a settled status request has been looked at. *)
Definition afterResponse (response : Settled TaskStatusData) (p : P) : P :=
  match response with
  | Resolved d => reportProgress d p
  | Rejected _ => p
  end.

Definition tryBlock (attempts : Z) (response : Settled TaskStatusData) (p : P)
  : TryEnd * P :=
  match response with
  | Rejected e => (Throw e, p)
  | Resolved result =>
      let p := reportProgress result p in
      if str_eqb (status result) (lit "completed") then (Return result, p)
      else if str_eqb (status result) (lit "failed") then
        (Throw (Error (orElse (error result) (lit "Task failed"))), p)
      else if (attempts >=? maxAttempts)%Z then (Throw maxAttemptsReached, p)
      else (Continue, p)
  end.

(** The inner [poll] closure; [attempts] is the counter it shares across
    calls.  Both [attempts++; await delay; return poll()] sequences are the
    recursive call: [return poll()] hands the inner promise on without
    awaiting it inside the [try], so the [catch] sees only what the current
    round throws.  The [catch] does not look at the error it caught.  [None]
    stands for a recursion deeper than [fuel]. *)
Fixpoint poll (fuel : nat) (attempts : Z) (w : World) (p : P)
  : option (Settled TaskStatusData * World * P) :=
  match fuel with
  | O => None
  | S fuel' =>
      let '(response, w) := getTaskStatus svc taskId w in
      match tryBlock attempts response p with
      | (Return result, p) => Some (Resolved result, w, p)
      | (Continue, p) => poll fuel' (attempts + 1)%Z (sleep interval w) p
      | (Throw _, p) =>
          (* catch (error) *)
          if (attempts >=? maxAttempts)%Z then Some (Rejected maxAttemptsReached, w, p)
          else poll fuel' (attempts + 1)%Z (sleep interval w) p
      end
  end.

(** [attempts] starts at 0; a round recurses only while
    [attempts < maxAttempts], so this fuel is never used up
    (see [poll_enough_fuel]). *)
Definition pollTaskUntilComplete (w : World) (p : P)
  : option (Settled TaskStatusData * World * P) :=
  poll (S (Z.to_nat maxAttempts)) 0%Z w p.

End Poll.

Definition handleApiError (error : JsError) (w : World) : jsstring * World :=
  match err_response error with
  | Some (status, detail) =>
      if (status =? 401)%Z then
        (lit "Authentication error. Please log in again.", removeToken w)
      else match detail with
           | Some (c :: d) => (c :: d, w)
           | _ => (lit "Server error: " ++ lit (pretty status), w)
           end
  | None =>
      if err_request error then
        (lit "No response from server. Please check your connection.", w)
      else (lit "Error: " ++ err_message error, w)
  end.

End Api.

(** ** The merge goal, as the three components declare it *)

Module Goal.

Inductive Strategy := latest | original | both | custom.

Inductive Priority := accuracy | completeness | conciseness.

#[global] Instance Priority_eq_dec : EqDecision Priority.
Proof. solve_decision. Defined.

Record MergeGoal := {
  strategy : Strategy;
  customRules : option (list jsstring);
  priorities : option (list Priority);
  preserveSections : option (list jsstring);
  notes : option jsstring
}.

(** The string each literal is at run time. *)
Definition strategy_str (s : Strategy) : jsstring :=
  match s with
  | latest => lit "latest"
  | original => lit "original"
  | both => lit "both"
  | custom => lit "custom"
  end.

Definition priority_str (p : Priority) : jsstring :=
  match p with
  | accuracy => lit "accuracy"
  | completeness => lit "completeness"
  | conciseness => lit "conciseness"
  end.

Definition is_custom (s : Strategy) : bool :=
  match s with custom => true | _ => false end.

(** [!xs || xs.length === 0] *)
Definition missing_or_empty {A} (xs : option (list A)) : bool :=
  match xs with
  | Some (_ :: _) => false
  | Some [] | None => true
  end.

(** [xs || []] *)
Definition or_nil {A} (xs : option (list A)) : list A :=
  match xs with Some l => l | None => [] end.

Definition set_strategy (v : Strategy) (g : MergeGoal) : MergeGoal :=
  {| strategy := v; customRules := customRules g; priorities := priorities g; preserveSections := preserveSections g; notes := notes g |}.
Definition set_customRules (v : option (list jsstring)) (g : MergeGoal) : MergeGoal :=
  {| strategy := strategy g; customRules := v; priorities := priorities g; preserveSections := preserveSections g; notes := notes g |}.
Definition set_priorities (v : option (list Priority)) (g : MergeGoal) : MergeGoal :=
  {| strategy := strategy g; customRules := customRules g; priorities := v; preserveSections := preserveSections g; notes := notes g |}.

End Goal.

(** ** src/components/GoalSetting/GoalSetting.tsx *)

Module GoalSetting.

Import Goal.

Definition defaultGoal : MergeGoal :=
  {| strategy := latest; customRules := Some []; priorities := Some [accuracy];
     preserveSections := None; notes := None |}.

Record State := {
  goal : MergeGoal;
  customRule : jsstring;
  sectionToPreserve : jsstring;
  activeStep : Z;
  error : option jsstring
}.

Definition set_goal (v : MergeGoal) (s : State) : State :=
  {| goal := v; customRule := customRule s; sectionToPreserve := sectionToPreserve s; activeStep := activeStep s; error := error s |}.
Definition set_customRule (v : jsstring) (s : State) : State :=
  {| goal := goal s; customRule := v; sectionToPreserve := sectionToPreserve s; activeStep := activeStep s; error := error s |}.
Definition set_sectionToPreserve (v : jsstring) (s : State) : State :=
  {| goal := goal s; customRule := customRule s; sectionToPreserve := v; activeStep := activeStep s; error := error s |}.
Definition set_activeStep (v : Z) (s : State) : State :=
  {| goal := goal s; customRule := customRule s; sectionToPreserve := sectionToPreserve s; activeStep := v; error := error s |}.
Definition set_error (v : option jsstring) (s : State) : State :=
  {| goal := goal s; customRule := customRule s; sectionToPreserve := sectionToPreserve s; activeStep := activeStep s; error := v |}.

(** [useState(initialGoal || defaultGoal)] and the other initial values. *)
Definition init (initialGoal : option MergeGoal) : State :=
  {| goal := match initialGoal with Some g => g | None => defaultGoal end;
     customRule := []; sectionToPreserve := []; activeStep := 0%Z; error := None |}.

Definition handleStrategyChange (value : Strategy) (s : State) : State :=
  set_goal (set_strategy value (goal s)) s.

Definition handlePriorityToggle (priority : Priority) (s : State) : State :=
  let currentPriorities := or_nil (priorities (goal s)) in
  let newPriorities :=
    if bool_decide (priority ∈ currentPriorities)
    then filter (fun p => p ≠ priority) currentPriorities
    else currentPriorities ++ [priority] in
  set_goal (set_priorities (Some newPriorities) (goal s)) s.

Definition handleAddCustomRule (s : State) : State :=
  match trim (customRule s) with
  | [] => s
  | _ :: _ =>
      set_customRule []
        (set_goal (set_customRules
                     (Some (or_nil (customRules (goal s)) ++ [trim (customRule s)]))
                     (goal s)) s)
  end.

(** [newRules.splice(index, 1)] at an index of the rendered list. *)
Definition handleRemoveCustomRule (index : nat) (s : State) : State :=
  set_goal (set_customRules (Some (delete index (or_nil (customRules (goal s)))))
                            (goal s)) s.

(** [onGoalSet] is the parent's callback: it acts on the parent's state [P],
    which holds whatever the parent can reach (the request log included). *)
Definition handleSubmit {P : Type} (onGoalSet : MergeGoal -> P -> P)
    (s : State) (parent : P) : State * P :=
  if is_custom (strategy (goal s)) && missing_or_empty (customRules (goal s)) then
    (set_error (Some (lit "Please add at least one custom rule when using the custom strategy")) s,
     parent)
  else if missing_or_empty (priorities (goal s)) then
    (set_error (Some (lit "Please select at least one priority")) s, parent)
  else
    (set_error None s, onGoalSet (goal s) parent).

End GoalSetting.

(** ** src/pages/HomePage.tsx *)

Module HomePage.

Import Goal.
Import Highlighter.

Record Document := {
  doc_id : option Z;
  doc_filename : jsstring;
  uploaded : option bool
}.

Record State := {
  activeStep : Z;
  documents : list Document;
  mergeGoal : option MergeGoal;
  diffResult : option DiffResult;
  mergedContent : jsstring;
  error : option jsstring;
  success : option jsstring;
  loading : bool;
  loadingMessage : jsstring;
  loadingProgress : option Z;
  isComplete : bool;
  mergeTaskId : option jsstring
}.

Definition set_activeStep (v : Z) (s : State) : State :=
  {| activeStep := v; documents := documents s; mergeGoal := mergeGoal s; diffResult := diffResult s; mergedContent := mergedContent s; error := error s; success := success s; loading := loading s; loadingMessage := loadingMessage s; loadingProgress := loadingProgress s; isComplete := isComplete s; mergeTaskId := mergeTaskId s |}.
Definition set_documents (v : list Document) (s : State) : State :=
  {| activeStep := activeStep s; documents := v; mergeGoal := mergeGoal s; diffResult := diffResult s; mergedContent := mergedContent s; error := error s; success := success s; loading := loading s; loadingMessage := loadingMessage s; loadingProgress := loadingProgress s; isComplete := isComplete s; mergeTaskId := mergeTaskId s |}.
Definition set_mergeGoal (v : option MergeGoal) (s : State) : State :=
  {| activeStep := activeStep s; documents := documents s; mergeGoal := v; diffResult := diffResult s; mergedContent := mergedContent s; error := error s; success := success s; loading := loading s; loadingMessage := loadingMessage s; loadingProgress := loadingProgress s; isComplete := isComplete s; mergeTaskId := mergeTaskId s |}.
Definition set_diffResult (v : option DiffResult) (s : State) : State :=
  {| activeStep := activeStep s; documents := documents s; mergeGoal := mergeGoal s; diffResult := v; mergedContent := mergedContent s; error := error s; success := success s; loading := loading s; loadingMessage := loadingMessage s; loadingProgress := loadingProgress s; isComplete := isComplete s; mergeTaskId := mergeTaskId s |}.
Definition set_mergedContent (v : jsstring) (s : State) : State :=
  {| activeStep := activeStep s; documents := documents s; mergeGoal := mergeGoal s; diffResult := diffResult s; mergedContent := v; error := error s; success := success s; loading := loading s; loadingMessage := loadingMessage s; loadingProgress := loadingProgress s; isComplete := isComplete s; mergeTaskId := mergeTaskId s |}.
Definition set_error (v : option jsstring) (s : State) : State :=
  {| activeStep := activeStep s; documents := documents s; mergeGoal := mergeGoal s; diffResult := diffResult s; mergedContent := mergedContent s; error := v; success := success s; loading := loading s; loadingMessage := loadingMessage s; loadingProgress := loadingProgress s; isComplete := isComplete s; mergeTaskId := mergeTaskId s |}.
Definition set_success (v : option jsstring) (s : State) : State :=
  {| activeStep := activeStep s; documents := documents s; mergeGoal := mergeGoal s; diffResult := diffResult s; mergedContent := mergedContent s; error := error s; success := v; loading := loading s; loadingMessage := loadingMessage s; loadingProgress := loadingProgress s; isComplete := isComplete s; mergeTaskId := mergeTaskId s |}.
Definition set_loading (v : bool) (s : State) : State :=
  {| activeStep := activeStep s; documents := documents s; mergeGoal := mergeGoal s; diffResult := diffResult s; mergedContent := mergedContent s; error := error s; success := success s; loading := v; loadingMessage := loadingMessage s; loadingProgress := loadingProgress s; isComplete := isComplete s; mergeTaskId := mergeTaskId s |}.
Definition set_loadingMessage (v : jsstring) (s : State) : State :=
  {| activeStep := activeStep s; documents := documents s; mergeGoal := mergeGoal s; diffResult := diffResult s; mergedContent := mergedContent s; error := error s; success := success s; loading := loading s; loadingMessage := v; loadingProgress := loadingProgress s; isComplete := isComplete s; mergeTaskId := mergeTaskId s |}.
Definition set_loadingProgress (v : option Z) (s : State) : State :=
  {| activeStep := activeStep s; documents := documents s; mergeGoal := mergeGoal s; diffResult := diffResult s; mergedContent := mergedContent s; error := error s; success := success s; loading := loading s; loadingMessage := loadingMessage s; loadingProgress := v; isComplete := isComplete s; mergeTaskId := mergeTaskId s |}.
Definition set_isComplete (v : bool) (s : State) : State :=
  {| activeStep := activeStep s; documents := documents s; mergeGoal := mergeGoal s; diffResult := diffResult s; mergedContent := mergedContent s; error := error s; success := success s; loading := loading s; loadingMessage := loadingMessage s; loadingProgress := loadingProgress s; isComplete := v; mergeTaskId := mergeTaskId s |}.
Definition set_mergeTaskId (v : option jsstring) (s : State) : State :=
  {| activeStep := activeStep s; documents := documents s; mergeGoal := mergeGoal s; diffResult := diffResult s; mergedContent := mergedContent s; error := error s; success := success s; loading := loading s; loadingMessage := loadingMessage s; loadingProgress := loadingProgress s; isComplete := isComplete s; mergeTaskId := v |}.

Definition steps : list jsstring :=
  [lit "Goal Setting"; lit "Document Upload"; lit "Diff Viewer"; lit "Review"].

Definition init : State :=
  {| activeStep := 0%Z; documents := []; mergeGoal := None; diffResult := None;
     mergedContent := []; error := None; success := None; loading := false;
     loadingMessage := []; loadingProgress := None; isComplete := false;
     mergeTaskId := None |}.

Definition handleNext (s : State) : State := set_activeStep (activeStep s + 1)%Z s.

Definition handleBack (s : State) : State := set_activeStep (activeStep s - 1)%Z s.

Definition handleGoalSet (goal : MergeGoal) (s : State) : State :=
  handleNext (set_mergeGoal (Some goal) s).

Definition handleDocumentsSelected (selectedDocs : list Document) (s : State) : State :=
  let s := set_documents selectedDocs s in
  if (2 <=? length selectedDocs)%nat then handleNext s
  else set_error (Some (lit "Please select at least two documents to continue")) s.

Definition handleProceedToMerge (diff : DiffResult) (s : State) : State :=
  match mergeGoal s with
  | None => set_error (Some (lit "Missing required data for merge operation")) s
  | Some _ =>
      if (length (documents s) <? 2)%nat then
        set_error (Some (lit "Missing required data for merge operation")) s
      else handleNext (set_diffResult (Some diff) s)
  end.

(** A template literal prints a missing value as [undefined]. *)
Definition shown (v : option jsstring) : jsstring :=
  match v with Some x => x | None => lit "undefined" end.

Definition savedMessage (filename : option jsstring) : jsstring :=
  lit "Document " ++ [34] ++ shown filename ++ [34] ++ lit " successfully merged and saved!".

(** [result.data.id] as a condition: a number other than 0. *)
Definition truthy_id (i : option Z) : bool :=
  match i with Some n => negb (n =? 0)%Z | None => false end.

Definition applyMergeResult (svc : Api.Service) (taskId : jsstring)
    (s : State) (w : Api.World) : State * Api.World :=
  let s := set_loadingProgress None
             (set_loadingMessage (lit "Finalizing document...") (set_loading true s)) in
  let '(result, w) := Api.getMergeResult svc taskId true w in
  let '(s, w) :=
    match result with
    | Api.Resolved data =>
        if truthy_id (Api.id data) then
          (set_isComplete true (set_success (Some (savedMessage (Api.filename data))) s), w)
        else
          let '(msg, w) :=
            Api.handleApiError (Api.Error (lit "Failed to save merged document")) w in
          (set_error (Some msg) s, w)
    | Api.Rejected err =>
        let '(msg, w) := Api.handleApiError err w in
        (set_error (Some msg) s, w)
    end in
  (set_loading false s, w).

(** [finalContent] is a parameter the body never reads. *)
Definition handleFinalizeMerge (svc : Api.Service)
    (finalContent : jsstring) (filename : option jsstring)
    (s : State) (w : Api.World) : State * Api.World :=
  match mergeTaskId s with
  | Some (c :: t) => applyMergeResult svc (c :: t) s w
  | Some [] | None =>
      (set_isComplete true (set_success (Some (savedMessage filename)) s), w)
  end.

Definition handleReset (s : State) : State :=
  set_isComplete false
    (set_mergeTaskId None
      (set_mergedContent []
        (set_diffResult None
          (set_mergeGoal None
            (set_documents []
              (set_activeStep 0%Z s)))))).

(** What [getStepContent] renders for a step. *)
Inductive StepView :=
| GoalSettingView (initialGoal : option MergeGoal)
| DocumentUploadView
| DiffViewerView (selectedDocuments : list Document)
| ReviewView (selectedDocuments : list Document) (diff : DiffResult)
             (goal : option MergeGoal) (mergedContent : jsstring)
| DiffMissingAlert
| UnknownStep.

Definition has_id (d : Document) : bool :=
  match doc_id d with Some _ => true | None => false end.

Definition getStepContent (s : State) (step : Z) : StepView :=
  match step with
  | 0%Z => GoalSettingView (mergeGoal s)
  | 1%Z => DocumentUploadView
  | 2%Z => DiffViewerView (List.filter has_id (documents s))
  | 3%Z =>
      match diffResult s with
      | Some d => ReviewView (List.filter has_id (documents s)) d (mergeGoal s)
                             (mergedContent s)
      | None => DiffMissingAlert
      end
  | _ => UnknownStep
  end.

(** What the page shows: the completion panel when [isComplete] is set, the
    current step otherwise. *)
Inductive PageView :=
| MergeComplete
| Stepping (view : StepView).

Definition render (s : State) : PageView :=
  if isComplete s then MergeComplete else Stepping (getStepContent s (activeStep s)).

End HomePage.

(** ** src/components/Review/Review.tsx *)

Module Review.

Import Goal.
Import Highlighter.

Record Document := { doc_id : Z; doc_filename : jsstring }.

(** The props but [onFinalizeMerge], which the handlers take as an argument. *)
Record Props := {
  selectedDocuments : list Document;
  diffResult : DiffResult;
  mergeGoal : MergeGoal;
  initialContent : option jsstring
}.

Record State := {
  finalContent : jsstring;
  isEditing : bool;
  editedContent : jsstring;
  filename : jsstring;
  loading : bool;
  loadingMessage : jsstring;
  loadingProgress : option Z;
  error : option jsstring;
  showConfirmDialog : bool;
  showPreviewDialog : bool;
  selectedFormat : jsstring;
  mergeTaskId : option jsstring;
  mergeResult : option Api.MergeData;
  conflicts : Z
}.

Definition set_finalContent (v : jsstring) (s : State) : State :=
  {| finalContent := v; isEditing := isEditing s; editedContent := editedContent s; filename := filename s; loading := loading s; loadingMessage := loadingMessage s; loadingProgress := loadingProgress s; error := error s; showConfirmDialog := showConfirmDialog s; showPreviewDialog := showPreviewDialog s; selectedFormat := selectedFormat s; mergeTaskId := mergeTaskId s; mergeResult := mergeResult s; conflicts := conflicts s |}.
Definition set_isEditing (v : bool) (s : State) : State :=
  {| finalContent := finalContent s; isEditing := v; editedContent := editedContent s; filename := filename s; loading := loading s; loadingMessage := loadingMessage s; loadingProgress := loadingProgress s; error := error s; showConfirmDialog := showConfirmDialog s; showPreviewDialog := showPreviewDialog s; selectedFormat := selectedFormat s; mergeTaskId := mergeTaskId s; mergeResult := mergeResult s; conflicts := conflicts s |}.
Definition set_editedContent (v : jsstring) (s : State) : State :=
  {| finalContent := finalContent s; isEditing := isEditing s; editedContent := v; filename := filename s; loading := loading s; loadingMessage := loadingMessage s; loadingProgress := loadingProgress s; error := error s; showConfirmDialog := showConfirmDialog s; showPreviewDialog := showPreviewDialog s; selectedFormat := selectedFormat s; mergeTaskId := mergeTaskId s; mergeResult := mergeResult s; conflicts := conflicts s |}.
Definition set_filename (v : jsstring) (s : State) : State :=
  {| finalContent := finalContent s; isEditing := isEditing s; editedContent := editedContent s; filename := v; loading := loading s; loadingMessage := loadingMessage s; loadingProgress := loadingProgress s; error := error s; showConfirmDialog := showConfirmDialog s; showPreviewDialog := showPreviewDialog s; selectedFormat := selectedFormat s; mergeTaskId := mergeTaskId s; mergeResult := mergeResult s; conflicts := conflicts s |}.
Definition set_loading (v : bool) (s : State) : State :=
  {| finalContent := finalContent s; isEditing := isEditing s; editedContent := editedContent s; filename := filename s; loading := v; loadingMessage := loadingMessage s; loadingProgress := loadingProgress s; error := error s; showConfirmDialog := showConfirmDialog s; showPreviewDialog := showPreviewDialog s; selectedFormat := selectedFormat s; mergeTaskId := mergeTaskId s; mergeResult := mergeResult s; conflicts := conflicts s |}.
Definition set_loadingMessage (v : jsstring) (s : State) : State :=
  {| finalContent := finalContent s; isEditing := isEditing s; editedContent := editedContent s; filename := filename s; loading := loading s; loadingMessage := v; loadingProgress := loadingProgress s; error := error s; showConfirmDialog := showConfirmDialog s; showPreviewDialog := showPreviewDialog s; selectedFormat := selectedFormat s; mergeTaskId := mergeTaskId s; mergeResult := mergeResult s; conflicts := conflicts s |}.
Definition set_loadingProgress (v : option Z) (s : State) : State :=
  {| finalContent := finalContent s; isEditing := isEditing s; editedContent := editedContent s; filename := filename s; loading := loading s; loadingMessage := loadingMessage s; loadingProgress := v; error := error s; showConfirmDialog := showConfirmDialog s; showPreviewDialog := showPreviewDialog s; selectedFormat := selectedFormat s; mergeTaskId := mergeTaskId s; mergeResult := mergeResult s; conflicts := conflicts s |}.
Definition set_error (v : option jsstring) (s : State) : State :=
  {| finalContent := finalContent s; isEditing := isEditing s; editedContent := editedContent s; filename := filename s; loading := loading s; loadingMessage := loadingMessage s; loadingProgress := loadingProgress s; error := v; showConfirmDialog := showConfirmDialog s; showPreviewDialog := showPreviewDialog s; selectedFormat := selectedFormat s; mergeTaskId := mergeTaskId s; mergeResult := mergeResult s; conflicts := conflicts s |}.
Definition set_showConfirmDialog (v : bool) (s : State) : State :=
  {| finalContent := finalContent s; isEditing := isEditing s; editedContent := editedContent s; filename := filename s; loading := loading s; loadingMessage := loadingMessage s; loadingProgress := loadingProgress s; error := error s; showConfirmDialog := v; showPreviewDialog := showPreviewDialog s; selectedFormat := selectedFormat s; mergeTaskId := mergeTaskId s; mergeResult := mergeResult s; conflicts := conflicts s |}.
Definition set_showPreviewDialog (v : bool) (s : State) : State :=
  {| finalContent := finalContent s; isEditing := isEditing s; editedContent := editedContent s; filename := filename s; loading := loading s; loadingMessage := loadingMessage s; loadingProgress := loadingProgress s; error := error s; showConfirmDialog := showConfirmDialog s; showPreviewDialog := v; selectedFormat := selectedFormat s; mergeTaskId := mergeTaskId s; mergeResult := mergeResult s; conflicts := conflicts s |}.
Definition set_selectedFormat (v : jsstring) (s : State) : State :=
  {| finalContent := finalContent s; isEditing := isEditing s; editedContent := editedContent s; filename := filename s; loading := loading s; loadingMessage := loadingMessage s; loadingProgress := loadingProgress s; error := error s; showConfirmDialog := showConfirmDialog s; showPreviewDialog := showPreviewDialog s; selectedFormat := v; mergeTaskId := mergeTaskId s; mergeResult := mergeResult s; conflicts := conflicts s |}.
Definition set_mergeTaskId (v : option jsstring) (s : State) : State :=
  {| finalContent := finalContent s; isEditing := isEditing s; editedContent := editedContent s; filename := filename s; loading := loading s; loadingMessage := loadingMessage s; loadingProgress := loadingProgress s; error := error s; showConfirmDialog := showConfirmDialog s; showPreviewDialog := showPreviewDialog s; selectedFormat := selectedFormat s; mergeTaskId := v; mergeResult := mergeResult s; conflicts := conflicts s |}.
Definition set_mergeResult (v : option Api.MergeData) (s : State) : State :=
  {| finalContent := finalContent s; isEditing := isEditing s; editedContent := editedContent s; filename := filename s; loading := loading s; loadingMessage := loadingMessage s; loadingProgress := loadingProgress s; error := error s; showConfirmDialog := showConfirmDialog s; showPreviewDialog := showPreviewDialog s; selectedFormat := selectedFormat s; mergeTaskId := mergeTaskId s; mergeResult := v; conflicts := conflicts s |}.
Definition set_conflicts (v : Z) (s : State) : State :=
  {| finalContent := finalContent s; isEditing := isEditing s; editedContent := editedContent s; filename := filename s; loading := loading s; loadingMessage := loadingMessage s; loadingProgress := loadingProgress s; error := error s; showConfirmDialog := showConfirmDialog s; showPreviewDialog := showPreviewDialog s; selectedFormat := selectedFormat s; mergeTaskId := mergeTaskId s; mergeResult := mergeResult s; conflicts := v |}.

Definition init (props : Props) : State :=
  let finalContent := orElse (initialContent props) [] in
  {| finalContent := finalContent;
     isEditing := false;
     editedContent := finalContent;
     filename :=
       lit "Merged_" ++
       orElse (doc_filename <$> head (selectedDocuments props)) (lit "document");
     loading := false; loadingMessage := []; loadingProgress := None;
     error := None; showConfirmDialog := false; showPreviewDialog := false;
     selectedFormat := lit "txt"; mergeTaskId := None; mergeResult := None;
     conflicts := 0%Z |}.

Definition mergeRequestOf (a b : Document) (g : MergeGoal) : Api.MergeRequest :=
  {| Api.doc_id_a := doc_id a;
     Api.doc_id_b := doc_id b;
     Api.conflict_resolution := strategy_str (strategy g);
     Api.ai_guidance :=
       Some {| Api.g_priorities := map priority_str <$> priorities g;
               Api.g_preserve_sections := preserveSections g;
               Api.g_custom_rules := customRules g;
               Api.g_notes := notes g |} |}.

Definition startAsyncMerge (svc : Api.Service) (props : Props)
    (s : State) (w : Api.World) : State * Api.World :=
  match selectedDocuments props with
  | a :: b :: _ =>
      let s := set_error None
                 (set_loadingProgress (Some 0%Z)
                   (set_loadingMessage (lit "Initializing merge process...")
                     (set_loading true s))) in
      let '(response, w) :=
        Api.createAsyncMerge svc (mergeRequestOf a b (mergeGoal props)) w in
      match response with
      | Api.Resolved data =>
          (set_loadingProgress (Some 10%Z)
             (set_loadingMessage
                (lit "Analyzing documents and applying merge strategy...")
                (set_mergeTaskId (Some (Api.task_id data)) s)), w)
      | Api.Rejected err =>
          (set_loading false
             (set_error
                (Some (lit "Failed to start merge: " ++
                       orElse (Some (Api.err_message err)) (lit "Unknown error")))
                s), w)
      end
  | _ => (set_error (Some (lit "Not enough documents selected for merge")) s, w)
  end.

(** The callback [pollMergeTask] hands to the poller. *)
Definition onProgress (progress : Z) (message : jsstring) (s : State) : State :=
  set_loadingMessage (orElse (Some message) (lit "Processing merge..."))
    (set_loadingProgress (Some progress) s).

Definition mergeFailed (err : Api.JsError) (s : State) : State :=
  set_loading false
    (set_error
       (Some (lit "Merge process failed: " ++
              orElse (Some (Api.err_message err)) (lit "Unknown error")))
       s).

(** [mergeData.report && mergeData.report.conflicts_resolved] *)
Definition conflictsOf (d : Api.MergeData) : option Z :=
  match Api.report d with
  | Some r =>
      match Api.conflicts_resolved r with
      | Some n => if (n =? 0)%Z then None else Some n
      | None => None
      end
  | None => None
  end.

(** With the poller's defaults: [interval = 1000], [maxAttempts = 120]. *)
Definition pollMergeTask (svc : Api.Service) (s : State) (w : Api.World)
  : option (State * Api.World) :=
  match mergeTaskId s with
  | Some (c :: t) =>
      match Api.pollTaskUntilComplete svc (c :: t) (Some onProgress)
              1000%Z 120%Z w s with
      | None => None
      | Some (Api.Resolved result, w, s) =>
          match Api.result result with
          | Some mergeData =>
              let s := set_mergeResult (Some mergeData) s in
              let s :=
                match Api.merged_content mergeData with
                | Some (c :: m) => set_editedContent (c :: m) (set_finalContent (c :: m) s)
                | Some [] | None => s
                end in
              let s :=
                match conflictsOf mergeData with
                | Some n => set_conflicts n s
                | None => s
                end in
              Some (set_loading false s, w)
          | None =>
              Some (mergeFailed
                      (Api.Error (lit "Merge task completed but no result was returned"))
                      s, w)
          end
      | Some (Api.Rejected err, w, s) => Some (mergeFailed err s, w)
      end
  | Some [] | None => Some (s, w)
  end.

Definition handleEditToggle (s : State) : State :=
  let s' := if isEditing s then set_finalContent (editedContent s) s
            else set_editedContent (finalContent s) s in
  set_isEditing (negb (isEditing s)) s'.

Definition handleContentChange (value : jsstring) (s : State) : State :=
  set_editedContent value s.

Definition handleFinalizeMerge (s : State) : State := set_showConfirmDialog true s.

(** [onFinalizeMerge] is the parent's callback, acting on the parent's state
    [P] and on the world. *)
Definition confirmFinalizeMerge {P : Type} (svc : Api.Service)
    (onFinalizeMerge : jsstring -> option jsstring -> P -> Api.World -> P * Api.World)
    (s : State) (parent : P) (w : Api.World) : State * P * Api.World :=
  let s1 := set_loadingProgress None
              (set_loadingMessage (lit "Finalizing merge...")
                (set_loading true (set_showConfirmDialog false s))) in
  let '(s2, parent, w) :=
    match mergeTaskId s with
    | Some (c :: t) =>
        let '(result, w) := Api.getMergeResult svc (c :: t) true w in
        match result with
        | Api.Resolved data =>
            if HomePage.truthy_id (Api.id data) then
              let '(parent, w) := onFinalizeMerge (finalContent s) (Api.filename data) parent w in
              (s1, parent, w)
            else
              let '(parent, w) := onFinalizeMerge (finalContent s) (Some (filename s)) parent w in
              (s1, parent, w)
        | Api.Rejected err =>
            (set_error
               (Some (lit "Failed to finalize merge: " ++
                      orElse (Some (Api.err_message err)) (lit "Unknown error")))
               s1, parent, w)
        end
    | Some [] | None =>
        let '(parent, w) := onFinalizeMerge (finalContent s) (Some (filename s)) parent w in
        (s1, parent, w)
    end in
  (set_loading false s2, parent, w).

(** What the content pane shows: the text field while editing, the final
    text otherwise. *)
Definition visibleContent (s : State) : jsstring :=
  if isEditing s then editedContent s else finalContent s.

(** A manual edit: 'Edit Content', type [value] over the text, 'Save
    Changes'. *)
Definition manualEdit (value : jsstring) (s : State) : State :=
  handleEditToggle (handleContentChange value (handleEditToggle s)).

End Review.

(** ** The page with its review step mounted *)

Module App.

(** [<Review onFinalizeMerge={handleFinalizeMerge} .../>] in
    [HomePage.getStepContent]: confirming in the review step runs the page's
    handler. *)
Definition confirmFinalize (svc : Api.Service)
    (review : Review.State) (home : HomePage.State) (w : Api.World)
  : Review.State * HomePage.State * Api.World :=
  Review.confirmFinalizeMerge svc (HomePage.handleFinalizeMerge svc) review home w.

(** [<GoalSetting onGoalSet={handleGoalSet} .../>] *)
Definition submitGoal (form : GoalSetting.State) (home : HomePage.State * Api.World)
  : GoalSetting.State * (HomePage.State * Api.World) :=
  GoalSetting.handleSubmit
    (fun goal '(h, w) => (HomePage.handleGoalSet goal h, w)) form home.

End App.

(** ** The highlighter as the spec words it *)

Module HighlighterSpec.

Import Highlighter.

(** The entity that stands for one character in escaped text. *)
Definition entity (c : N) : jsstring :=
  if c =? 38 then lit "&amp;"
  else if c =? 60 then lit "&lt;"
  else if c =? 62 then lit "&gt;"
  else if c =? 34 then lit "&quot;"
  else if c =? 39 then lit "&#039;"
  else [c].

(** Escaping in one pass: every character replaced by its entity. *)
Definition escape_spec (s : jsstring) : jsstring := flat_map entity s.

(** The spec's added-set: "trimming leading/trailing whitespace from every
    DiffLine with kind = Added". *)
Definition added_set_spec (d : DiffResult) : list jsstring :=
  map (fun dl => trim (line dl)) (List.filter (fun dl => is_added (type dl)) (diff_lines d)).

(** The spec's three rules for one line, in its order. *)
Definition classify_line_spec (d : DiffResult) (l : jsstring) : Highlight :=
  if bool_decide (trim l ∈ added_set_spec d) then Added
  else if includes l (lit "<<<") && includes l (lit ">>>") then Conflict
  else NoHighlight.

(** The spec's [classify]: "for each line of mergedContent (split on line
    breaks, order preserved)". *)
Definition classify_spec (mergedContent : jsstring) (d : DiffResult)
  : list (jsstring * Highlight) :=
  map (fun l => (l, classify_line_spec d l)) (split 10 mergedContent).

(** The markup of a classified text, line by line. *)
Definition render (ls : list (jsstring * Highlight)) : jsstring :=
  join [10] (map (fun lh => markup (snd lh) (fst lh)) ls).

(** Reading the highlight back from a line of the returned markup. *)
Definition readHighlight (out : jsstring) : Highlight :=
  if startsWith out (span_open "added-content") then Added
  else if startsWith out (span_open "conflict-content") then Conflict
  else NoHighlight.

(** A returned line [out] for a source line [l]: the escaped text of [l],
    bare or inside one of the two spans. *)
Definition wraps (out l : jsstring) : Prop :=
  out = escape_spec l
  \/ out = span_open "added-content" ++ escape_spec l ++ span_close
  \/ out = span_open "conflict-content" ++ escape_spec l ++ span_close.

End HighlighterSpec.

(** ** Concrete services and sessions *)

Module Scenario.

Import Api.

Definition emptyWorld : World := {| sent := []; delays := []; auth_token := None |}.

Definition statusOnly (st : jsstring) (err : option jsstring) : TaskStatusData :=
  {| status := st; progress := None; message := None; result := None; error := err |}.

Definition unreachable {A} : Settled A :=
  Rejected {| err_message := lit "Network Error"; err_response := None;
              err_request := true |}.

(** A service that answers every status request with the same data. *)
Definition alwaysStatus (d : TaskStatusData) : Service :=
  {| taskStatus := fun _ => Resolved d;
     asyncMerge := fun _ => unreachable;
     mergeResult := fun _ => unreachable |}.

(** A service that never answers. *)
Definition neverAnswers : Service :=
  {| taskStatus := fun _ => unreachable;
     asyncMerge := fun _ => unreachable;
     mergeResult := fun _ => unreachable |}.

(** The first status request gets no response, the second is answered
    'running', every later one 'completed'. *)
Definition failsOnceThenCompletes : Service :=
  {| taskStatus := fun log =>
       match log with
       | [] | [_] => unreachable
       | [_; _] => Resolved (statusOnly (lit "running") None)
       | _ => Resolved (statusOnly (lit "completed") None)
       end;
     asyncMerge := fun _ => unreachable;
     mergeResult := fun _ => unreachable |}.

(** A session of the review step: two documents, a merge task "t1" that
    completes at once with the text "A", and a service that stores the
    result as document 7 when asked to apply it. *)
Definition docA : Review.Document :=
  {| Review.doc_id := 1%Z; Review.doc_filename := lit "a.txt" |}.

Definition docB : Review.Document :=
  {| Review.doc_id := 2%Z; Review.doc_filename := lit "b.txt" |}.

Definition noDiff : Highlighter.DiffResult :=
  {| Highlighter.diff_lines := [];
     Highlighter.stats := Highlighter.Build_DiffStats 0 0 0 0 0 0 (Qmake 0 1);
     Highlighter.ai_summary := [] |}.

Definition reviewProps : Review.Props :=
  {| Review.selectedDocuments := [docA; docB];
     Review.diffResult := noDiff;
     Review.mergeGoal := GoalSetting.defaultGoal;
     Review.initialContent := None |}.

Definition mergeService : Service :=
  {| taskStatus := fun _ =>
       Resolved {| status := lit "completed"; progress := Some 100%Z;
                   message := Some (lit "done");
                   result := Some {| merged_content := Some (lit "A");
                                     report := None |};
                   error := None |};
     asyncMerge := fun _ => Resolved {| task_id := lit "t1" |};
     mergeResult := fun _ =>
       Resolved {| id := Some 7%Z; filename := Some (lit "Merged_a.txt") |} |}.

(** Mount, merge, then: Edit, type "B", Save, Finalize, Confirm. *)
Definition mergedSession : option (Review.State * World) :=
  let '(r, w) := Review.startAsyncMerge mergeService reviewProps
                   (Review.init reviewProps) emptyWorld in
  Review.pollMergeTask mergeService r w.

Definition editThenFinalize (r : Review.State) (w : World)
  : Review.State * HomePage.State * World :=
  let r := Review.manualEdit (lit "B") r in
  let r := Review.handleFinalizeMerge r in
  App.confirmFinalize mergeService r HomePage.init w.

Definition editedSession : option (Review.State * HomePage.State * World) :=
  match mergedSession with
  | Some (r, w) => Some (editThenFinalize r w)
  | None => None
  end.

(** Diff results for the highlighter. *)
Definition diffOf (ls : list Highlighter.DiffLine) : Highlighter.DiffResult :=
  {| Highlighter.diff_lines := ls;
     Highlighter.stats := Highlighter.Build_DiffStats 0 0 0 0 0 0 (Qmake 0 1);
     Highlighter.ai_summary := [] |}.

(** [{Added,"foo"},{Unchanged,"bar"}] against "bar\nfoo\nbaz". *)
Definition fooBarDiff : Highlighter.DiffResult :=
  diffOf [ {| Highlighter.type := Highlighter.added; Highlighter.line := lit "foo" |};
           {| Highlighter.type := Highlighter.unchanged; Highlighter.line := lit "bar" |} ].

Definition barFooBaz : jsstring :=
  lit "bar" ++ [10] ++ lit "foo" ++ [10] ++ lit "baz".

(** A diff whose one added line is blank. *)
Definition blankAddedDiff : Highlighter.DiffResult :=
  diffOf [ {| Highlighter.type := Highlighter.added; Highlighter.line := [] |} ].

(** A line with both conflict markers that the diff also lists as added. *)
Definition markedLine : jsstring := lit "<<< ours >>>".

Definition markedAddedDiff : Highlighter.DiffResult :=
  diffOf [ {| Highlighter.type := Highlighter.added;
              Highlighter.line := lit "  <<< ours >>>" |} ].

End Scenario.

(** ** src/components/DiffViewer/DiffViewer.tsx *)

Module DiffViewer.

Import Highlighter.

Record Document := { doc_id : Z; doc_filename : jsstring }.

Inductive ViewMode := side_by_side | unified.

(** [primaryDoc] and [secondaryDoc] are [number | '']: [None] is the empty
    string of a select with nothing chosen. *)
Record State := {
  diffResult : option DiffResult;
  loading : bool;
  error : option jsstring;
  enhancedDiff : bool;
  showLineNumbers : bool;
  viewMode : ViewMode;
  primaryDoc : option Z;
  secondaryDoc : option Z
}.

Definition set_diffResult (v : option DiffResult) (s : State) : State :=
  {| diffResult := v; loading := loading s; error := error s; enhancedDiff := enhancedDiff s; showLineNumbers := showLineNumbers s; viewMode := viewMode s; primaryDoc := primaryDoc s; secondaryDoc := secondaryDoc s |}.
Definition set_loading (v : bool) (s : State) : State :=
  {| diffResult := diffResult s; loading := v; error := error s; enhancedDiff := enhancedDiff s; showLineNumbers := showLineNumbers s; viewMode := viewMode s; primaryDoc := primaryDoc s; secondaryDoc := secondaryDoc s |}.
Definition set_error (v : option jsstring) (s : State) : State :=
  {| diffResult := diffResult s; loading := loading s; error := v; enhancedDiff := enhancedDiff s; showLineNumbers := showLineNumbers s; viewMode := viewMode s; primaryDoc := primaryDoc s; secondaryDoc := secondaryDoc s |}.
Definition set_enhancedDiff (v : bool) (s : State) : State :=
  {| diffResult := diffResult s; loading := loading s; error := error s; enhancedDiff := v; showLineNumbers := showLineNumbers s; viewMode := viewMode s; primaryDoc := primaryDoc s; secondaryDoc := secondaryDoc s |}.
Definition set_showLineNumbers (v : bool) (s : State) : State :=
  {| diffResult := diffResult s; loading := loading s; error := error s; enhancedDiff := enhancedDiff s; showLineNumbers := v; viewMode := viewMode s; primaryDoc := primaryDoc s; secondaryDoc := secondaryDoc s |}.
Definition set_viewMode (v : ViewMode) (s : State) : State :=
  {| diffResult := diffResult s; loading := loading s; error := error s; enhancedDiff := enhancedDiff s; showLineNumbers := showLineNumbers s; viewMode := v; primaryDoc := primaryDoc s; secondaryDoc := secondaryDoc s |}.
Definition set_primaryDoc (v : option Z) (s : State) : State :=
  {| diffResult := diffResult s; loading := loading s; error := error s; enhancedDiff := enhancedDiff s; showLineNumbers := showLineNumbers s; viewMode := viewMode s; primaryDoc := v; secondaryDoc := secondaryDoc s |}.
Definition set_secondaryDoc (v : option Z) (s : State) : State :=
  {| diffResult := diffResult s; loading := loading s; error := error s; enhancedDiff := enhancedDiff s; showLineNumbers := showLineNumbers s; viewMode := viewMode s; primaryDoc := primaryDoc s; secondaryDoc := v |}.

Definition init : State :=
  {| diffResult := None; loading := false; error := None; enhancedDiff := true;
     showLineNumbers := true; viewMode := unified; primaryDoc := None;
     secondaryDoc := None |}.

(** The effect that selects the two documents when exactly two are given
    and nothing is chosen yet. *)
Definition autoSelect (selectedDocuments : list Document) (s : State) : State :=
  match selectedDocuments, primaryDoc s, secondaryDoc s with
  | [a; b], None, None =>
      set_secondaryDoc (Some (doc_id b)) (set_primaryDoc (Some (doc_id a)) s)
  | _, _, _ => s
  end.

Definition handlePrimaryDocChange (value : Z) (s : State) : State :=
  let s' := set_primaryDoc (Some value) s in
  if bool_decide (Some value = secondaryDoc s)
  then set_secondaryDoc (primaryDoc s) s'
  else s'.

Definition handleSecondaryDocChange (value : Z) (s : State) : State :=
  let s' := set_secondaryDoc (Some value) s in
  if bool_decide (Some value = primaryDoc s)
  then set_primaryDoc (secondaryDoc s) s'
  else s'.

(** One call of [fetchDiff]: GET /diffs?doc_id_a&doc_id_b&enhanced. *)
Record Fetch := { docIdA : Z; docIdB : Z; enhanced : bool }.

(** The service's answers to [fetchDiff], by the shape asked for: the
    enhanced diff, or the bare list of lines under [diff]. *)
Record DiffService := {
  enhancedDiffOf : list Fetch -> Api.Settled DiffResult;
  basicDiffOf : list Fetch -> Api.Settled (list DiffLine)
}.

Definition is_removed (t : DiffLineType) : bool :=
  match t with removed => true | _ => false end.

Definition is_unchanged (t : DiffLineType) : bool :=
  match t with unchanged => true | _ => false end.

Definition countLines (f : DiffLineType -> bool) (diffLines : list DiffLine) : Z :=
  Z.of_nat (length (List.filter (fun l => f (type l)) diffLines)).

(** The enhanced shape built from a basic diff. *)
Definition fromBasicDiff (diffLines : list DiffLine) : DiffResult :=
  {| diff_lines := diffLines;
     stats := {| total_lines := Z.of_nat (length diffLines);
                 added_lines := countLines is_added diffLines;
                 removed_lines := countLines is_removed diffLines;
                 unchanged_lines := countLines is_unchanged diffLines;
                 words_added := 0;
                 words_removed := 0;
                 change_ratio := Qmake 0 1 |};
     ai_summary :=
       lit "Basic diff comparison completed. Enable enhanced diff for AI summary." |}.

(** A document id as a condition: chosen, and not 0. *)
Definition chosen (d : option Z) : option Z :=
  match d with
  | Some n => if (n =? 0)%Z then None else Some n
  | None => None
  end.

Definition compareFailed : jsstring :=
  lit "Failed to compare documents. Please try again.".

Definition handleCompareDocs (svc : DiffService) (s : State) (log : list Fetch)
  : State * list Fetch :=
  match chosen (primaryDoc s), chosen (secondaryDoc s) with
  | Some a, Some b =>
      let s1 := set_error None (set_loading true s) in
      let log := log ++ [{| docIdA := a; docIdB := b; enhanced := enhancedDiff s |}] in
      let s2 :=
        if enhancedDiff s then
          match enhancedDiffOf svc log with
          | Api.Resolved data => set_diffResult (Some data) s1
          | Api.Rejected _ => set_error (Some compareFailed) s1
          end
        else
          match basicDiffOf svc log with
          | Api.Resolved diffLines => set_diffResult (Some (fromBasicDiff diffLines)) s1
          | Api.Rejected _ => set_error (Some compareFailed) s1
          end in
      (set_loading false s2, log)
  | _, _ =>
      (set_error (Some (lit "Please select two documents to compare")) s, log)
  end.

(** The two columns of [renderSideBySideDiff]: the [forEach] that fills
    them, then the two [while] loops that pad the shorter one with [null]. *)
Definition sideBySide (diffLines : list DiffLine)
  : list (option DiffLine) * list (option DiffLine) :=
  let '(leftLines, rightLines) :=
    foldl (fun cols line =>
             match type line with
             | unchanged => (fst cols ++ [Some line], snd cols ++ [Some line])
             | removed => (fst cols ++ [Some line], snd cols ++ [None])
             | added => (fst cols ++ [None], snd cols ++ [Some line])
             end)
          ([], []) diffLines in
  let maxLines := Nat.max (length leftLines) (length rightLines) in
  (leftLines ++ replicate (maxLines - length leftLines) None,
   rightLines ++ replicate (maxLines - length rightLines) None).

(** The marker [renderUnifiedDiff] puts before a line. *)
Definition unifiedPrefix (t : DiffLineType) : jsstring :=
  match t with
  | added => lit "+ "
  | removed => lit "- "
  | unchanged => lit "  "
  end.

Definition unifiedLines (diffLines : list DiffLine) : list jsstring :=
  map (fun l => unifiedPrefix (type l) ++ line l) diffLines.

End DiffViewer.

(** ** src/components/DocumentUpload/DocumentUpload.tsx *)

Module DocumentUpload.

(** A [File] of the browser: its name and its bytes. *)
Record File := { file_name : jsstring; file_bytes : list N }.

Record Document := {
  doc_id : option Z;
  doc_filename : jsstring;
  doc_file : option File;
  doc_uploaded : option bool
}.

Record State := {
  documents : list Document;
  uploading : bool;
  uploadProgress : Z;
  error : option jsstring
}.

Definition set_documents (v : list Document) (s : State) : State :=
  {| documents := v; uploading := uploading s; uploadProgress := uploadProgress s; error := error s |}.
Definition set_uploading (v : bool) (s : State) : State :=
  {| documents := documents s; uploading := v; uploadProgress := uploadProgress s; error := error s |}.
Definition set_uploadProgress (v : Z) (s : State) : State :=
  {| documents := documents s; uploading := uploading s; uploadProgress := v; error := error s |}.
Definition set_error (v : option jsstring) (s : State) : State :=
  {| documents := documents s; uploading := uploading s; uploadProgress := uploadProgress s; error := v |}.

Definition init : State :=
  {| documents := []; uploading := false; uploadProgress := 0%Z; error := None |}.

Definition selected (file : File) : Document :=
  {| doc_id := None; doc_filename := file_name file; doc_file := Some file;
     doc_uploaded := Some false |}.

(** [handleFileSelect] and [handleDrop] add the files the same way. *)
Definition handleFileSelect (files : list File) (s : State) : State :=
  match files with
  | [] => s
  | _ :: _ => set_documents (documents s ++ map selected files) s
  end.

Definition handleDrop (files : list File) (s : State) : State :=
  handleFileSelect files s.

(** [updatedDocuments.splice(index, 1)] at an index of the rendered list. *)
Definition handleRemoveDocument (index : nat) (s : State) : State :=
  set_documents (delete index (documents s)) s.

Definition handleClearAll (s : State) : State := set_documents [] s.

Definition handleCloseError (s : State) : State := set_error None s.

(** [doc.uploaded] as a condition. *)
Definition isUploaded (d : Document) : bool :=
  match doc_uploaded d with Some true => true | _ => false end.

Definition failedMessage (failedUploads : nat) : jsstring :=
  lit "Failed to upload " ++ lit (pretty failedUploads)
  ++ lit " document(s). Please try again.".

(** What the loop of [handleUploadAll] carries from round to round: its two
    locals, the component's state, and the files sent to POST
    /documents/upload so far. *)
Record Loop := {
  uploadedDocs : list Document;
  failedUploads : nat;
  state : State;
  posted : list File
}.

Section UploadAll.

(** The service's answer to an upload, given all the files posted so far,
    this one included: the new document's id, or a failure. *)
Variable uploadDocument : list File -> Api.Settled Z.
(** [Math.round(((i + 1) / documents.length) * 100)], a floating-point
    computation, taken as given. *)
Variable percent : nat -> nat -> Z.

(** One round of the [for] loop, for index [i] of [documents].  [documents]
    is the array the handler closed over: every round copies that same array,
    so a round's [setDocuments] does not see an earlier round's. *)
Definition uploadRound (documents : list Document) (acc : Loop)
    (i : nat) (doc : Document) : Loop :=
  match isUploaded doc, doc_file doc with
  | false, Some file =>
      let files := posted acc ++ [file] in
      let acc' :=
        match uploadDocument files with
        | Api.Resolved newId =>
            {| uploadedDocs :=
                 uploadedDocs acc ++
                 [{| doc_id := Some newId; doc_filename := doc_filename doc;
                     doc_file := None; doc_uploaded := Some true |}];
               failedUploads := failedUploads acc;
               state :=
                 set_documents
                   (<[i := {| doc_id := Some newId; doc_filename := doc_filename doc;
                              doc_file := doc_file doc; doc_uploaded := Some true |}]>
                      documents)
                   (state acc);
               posted := files |}
        | Api.Rejected _ =>
            {| uploadedDocs := uploadedDocs acc;
               failedUploads := S (failedUploads acc);
               state := set_error (Some (failedMessage (S (failedUploads acc)))) (state acc);
               posted := files |}
        end in
      {| uploadedDocs := uploadedDocs acc';
         failedUploads := failedUploads acc';
         state := set_uploadProgress (percent (S i) (length documents)) (state acc');
         posted := posted acc' |}
  | _, _ => acc
  end.

(** The rounds from index [i] on. *)
Fixpoint uploadFrom (documents : list Document) (i : nat) (rest : list Document)
    (acc : Loop) : Loop :=
  match rest with
  | [] => acc
  | doc :: rest' => uploadFrom documents (S i) rest' (uploadRound documents acc i doc)
  end.

(** [onDocumentsSelected] is the parent's callback, acting on the parent's
    state [P]. *)
Definition handleUploadAll {P : Type} (onDocumentsSelected : list Document -> P -> P)
    (s : State) (parent : P) (log : list File) : State * P * list File :=
  match documents s with
  | [] => (s, parent, log)
  | _ :: _ =>
      if uploading s then (s, parent, log)
      else
        let s0 := set_uploadProgress 0%Z (set_error None (set_uploading true s)) in
        let acc := uploadFrom (documents s) 0 (documents s)
                     {| uploadedDocs := []; failedUploads := 0; state := s0;
                        posted := log |} in
        let s1 := set_uploading false (state acc) in
        match uploadedDocs acc with
        | [] => (s1, parent, posted acc)
        | _ :: _ => (s1, onDocumentsSelected (uploadedDocs acc) parent, posted acc)
        end
  end.

End UploadAll.

End DocumentUpload.

(** ** The page and the events it receives *)

Module Session.

Import Goal.
Import Highlighter.

(** What can happen to the page: its buttons, and the callbacks its steps
    run. *)
Inductive Event :=
| Next
| Back
| GoalSet (goal : MergeGoal)
| DocumentsSelected (selectedDocs : list HomePage.Document)
| ProceedToMerge (diff : DiffResult)
| FinalizeMerge (finalContent : jsstring) (filename : option jsstring)
| ResetPage
| CloseError
| CloseSuccess.

Definition step (svc : Api.Service) (ev : Event)
    (sw : HomePage.State * Api.World) : HomePage.State * Api.World :=
  let '(s, w) := sw in
  match ev with
  | Next => (HomePage.handleNext s, w)
  | Back => (HomePage.handleBack s, w)
  | GoalSet goal => (HomePage.handleGoalSet goal s, w)
  | DocumentsSelected docs => (HomePage.handleDocumentsSelected docs s, w)
  | ProceedToMerge diff => (HomePage.handleProceedToMerge diff s, w)
  | FinalizeMerge finalContent filename =>
      HomePage.handleFinalizeMerge svc finalContent filename s w
  | ResetPage => (HomePage.handleReset s, w)
  | CloseError => (HomePage.set_error None s, w)
  | CloseSuccess => (HomePage.set_success None s, w)
  end.

Definition run (svc : Api.Service) (evs : list Event)
    (sw : HomePage.State * Api.World) : HomePage.State * Api.World :=
  foldl (fun sw ev => step svc ev sw) sw evs.

(** The document the upload step hands to the page. *)
Definition toPageDocument (d : DocumentUpload.Document) : HomePage.Document :=
  {| HomePage.doc_id := DocumentUpload.doc_id d;
     HomePage.doc_filename := DocumentUpload.doc_filename d;
     HomePage.uploaded := DocumentUpload.doc_uploaded d |}.

(** [<DocumentUpload onDocumentsSelected={handleDocumentsSelected} />] *)
Definition uploadAll (uploadDocument : list DocumentUpload.File -> Api.Settled Z)
    (percent : nat -> nat -> Z)
    (form : DocumentUpload.State) (home : HomePage.State)
    (log : list DocumentUpload.File)
  : DocumentUpload.State * HomePage.State * list DocumentUpload.File :=
  DocumentUpload.handleUploadAll uploadDocument percent
    (fun docs h => HomePage.handleDocumentsSelected (map toPageDocument docs) h)
    form home log.

End Session.

(** ** Observing the poller's callback *)

Module Observe.

(** A caller that keeps every [(progress, message)] its callback is given,
    oldest first. *)
Definition recordProgress (progress : Z) (message : jsstring)
    (seen : list (Z * jsstring)) : list (Z * jsstring) :=
  seen ++ [(progress, message)].

(** What a settled status request makes the callback see, if anything. *)
Definition progressOf (response : Api.Settled Api.TaskStatusData)
  : option (Z * jsstring) :=
  match response with
  | Api.Resolved d =>
      match Api.progress d with
      | Some pr => Some (pr, orElse (Api.message d) [])
      | None => None
      end
  | Api.Rejected _ => None
  end.

(** The log of the service once [n] more status requests for [taskId] have
    been sent after [w]. *)
Definition logAfter (taskId : jsstring) (w : Api.World) (n : nat) : list Api.Request :=
  Api.sent w ++ repeat (Api.GetTaskStatus taskId) n.

(** The request that applies the result of the task held, if one is held
    ([if (mergeTaskId)]: neither null nor the empty string). *)
Definition applyRequest (mergeTaskId : option jsstring) : list Api.Request :=
  match mergeTaskId with
  | Some (c :: t) => [Api.GetMergeResult (c :: t) true]
  | Some [] | None => []
  end.

(** What the poller's callback of the review step leaves alone. *)
Definition reviewKept (s0 s : Review.State) : Prop :=
  Review.finalContent s = Review.finalContent s0
  /\ Review.editedContent s = Review.editedContent s0
  /\ Review.isEditing s = Review.isEditing s0
  /\ Review.filename s = Review.filename s0
  /\ Review.error s = Review.error s0
  /\ Review.mergeTaskId s = Review.mergeTaskId s0
  /\ Review.mergeResult s = Review.mergeResult s0
  /\ Review.conflicts s = Review.conflicts s0
  /\ Review.loading s = Review.loading s0.

(** How often a code unit occurs in a text. *)
Definition countOf (c : N) (s : jsstring) : nat :=
  length (List.filter (N.eqb c) s).

Definition isHighlighted (h : Highlighter.Highlight) : bool :=
  match h with Highlighter.NoHighlight => false | _ => true end.

(** The files [handleUploadAll] has to send: those of the documents not yet
    marked uploaded. *)
Definition pendingFiles (ds : list DocumentUpload.Document)
  : list DocumentUpload.File :=
  omap (fun d => if DocumentUpload.isUploaded d then None
                 else DocumentUpload.doc_file d) ds.

(** A document as [handleUploadAll] hands it to the parent. *)
Definition handedOver (d : DocumentUpload.Document) : Prop :=
  (exists newId, DocumentUpload.doc_id d = Some newId)
  /\ DocumentUpload.doc_uploaded d = Some true
  /\ DocumentUpload.doc_file d = None.


End Observe.

(** ** src/components/EnhancedDocumentPreview/EnhancedDocumentPreview.tsx *)

Module Preview.

Import Highlighter.

Record State := {
  activeTab : Z;
  highlightedContent : jsstring;
  copySuccess : bool
}.

Definition init : State :=
  {| activeTab := 0%Z; highlightedContent := []; copySuccess := false |}.

(** The effect on [content] and [diffResult]. *)
Definition syncHighlight (content : jsstring) (diffResult : option DiffResult)
    (s : State) : State :=
  match diffResult with
  | Some d =>
      {| activeTab := activeTab s;
         highlightedContent := highlightMergedContent content (Some d);
         copySuccess := copySuccess s |}
  | None => s
  end.

Definition handleTabChange (newValue : Z) (s : State) : State :=
  {| activeTab := newValue; highlightedContent := highlightedContent s;
     copySuccess := copySuccess s |}.

(** What the body shows: markup set as HTML, or the text as it is. *)
Inductive Body :=
| Html (markup : jsstring)     (* dangerouslySetInnerHTML *)
| Raw (content : jsstring).

Definition body (content : jsstring) (diffResult : option DiffResult)
    (s : State) : Body :=
  match diffResult with
  | Some _ => if (activeTab s =? 0)%Z then Html (highlightedContent s) else Raw content
  | None => Raw content
  end.

End Preview.

(** ** What the rendered page lets through *)

Module Guard.

Import HomePage.

(** The [disabled] condition of the 'Continue' button. *)
Definition continueDisabled (s : State) : bool :=
  ((activeStep s =? 0)%Z && negb (bool_decide (is_Some (mergeGoal s))))
  || ((activeStep s =? 1)%Z && (length (documents s) <? 2)%nat)
  || ((activeStep s =? 2)%Z && negb (bool_decide (is_Some (diffResult s))))
  || loading s.

(** Whether the page as rendered in state [s] can receive the event: the
    completion panel offers only the reset; otherwise each button is there
    under its own condition and each step's callback comes from the step
    that [getStepContent] mounts.  A callback of a step that is no longer
    mounted (an upload still in flight after 'Back') is not let through
    here; runs with such late callbacks are outside [run] below. *)
Definition enabled (s : State) (ev : Session.Event) : bool :=
  match ev with
  | Session.ResetPage => isComplete s
  | Session.CloseSuccess => true
  | Session.Next =>
      negb (isComplete s) && (activeStep s <? 3)%Z && negb (continueDisabled s)
  | Session.Back =>
      negb (isComplete s) && negb ((activeStep s =? 0)%Z || loading s)
  | Session.GoalSet _ => negb (isComplete s) && (activeStep s =? 0)%Z
  | Session.DocumentsSelected _ => negb (isComplete s) && (activeStep s =? 1)%Z
  | Session.ProceedToMerge _ => negb (isComplete s) && (activeStep s =? 2)%Z
  | Session.FinalizeMerge _ _ =>
      negb (isComplete s) && (activeStep s =? 3)%Z
      && bool_decide (is_Some (diffResult s))
  | Session.CloseError =>
      negb (isComplete s)
      && match error s with Some (_ :: _) => true | _ => false end
  end.

(** A run in which every event is one the page lets through. *)
Fixpoint run (svc : Api.Service) (evs : list Session.Event)
    (sw : State * Api.World) : option (State * Api.World) :=
  match evs with
  | [] => Some sw
  | ev :: evs' =>
      if enabled (fst sw) ev then run svc evs' (Session.step svc ev sw) else None
  end.

(** What the steps reached so far have filled in. *)
Definition filled (s : State) : Prop :=
  (0 <= activeStep s <= 3)%Z
  /\ ((1 <= activeStep s)%Z -> is_Some (mergeGoal s))
  /\ ((2 <= activeStep s)%Z -> (2 <= length (documents s))%nat)
  /\ ((3 <= activeStep s)%Z -> is_Some (diffResult s)).

End Guard.

(** * Properties *)

(** ** The poller *)

Section PollFacts.

Import Api.

Context {P : Type}.
Variable svc : Service.
Variable taskId : jsstring.
Variable onProgress : option (Z -> jsstring -> P -> P).
Variable interval maxAttempts : Z.

Local Abbreviation poll := (poll svc taskId onProgress interval maxAttempts).
Local Abbreviation req := (GetTaskStatus taskId).
Local Abbreviation afterResponse := (afterResponse onProgress).

Lemma tryBlock_state attempts response p :
  snd (tryBlock onProgress maxAttempts attempts response p) = afterResponse response p.
Proof.
  destruct response as [d|e]; simpl; [|reflexivity].
  repeat case_match; reflexivity.
Qed.

Lemma tryBlock_not_completed attempts response p :
  isCompleted response = false ->
  (attempts < maxAttempts)%Z ->
  (exists e, fst (tryBlock onProgress maxAttempts attempts response p) = Throw e)
  \/ fst (tryBlock onProgress maxAttempts attempts response p) = Continue.
Proof.
  intros Hc Hlt. destruct response as [d|e]; simpl in *.
  - rewrite Hc. destruct (str_eqb (status d) (lit "failed")); [left; eauto|].
    destruct (Z.geb_spec attempts maxAttempts); [lia|]. right; reflexivity.
  - left; eauto.
Qed.

Lemma tryBlock_budget_spent attempts response p :
  isCompleted response = false ->
  (maxAttempts <= attempts)%Z ->
  exists e, fst (tryBlock onProgress maxAttempts attempts response p) = Throw e.
Proof.
  intros Hc Hge. destruct response as [d|e]; simpl in *; [|eauto].
  rewrite Hc. destruct (str_eqb (status d) (lit "failed")); [eauto|].
  destruct (Z.geb_spec attempts maxAttempts); [eauto|lia].
Qed.

(** One round whose response is anything but 'completed', with budget left:
    the counter goes up by one, one delay is waited, and polling goes on. *)
Lemma poll_round_retries fuel attempts w p :
  isCompleted (taskStatus svc (sent (send req w))) = false ->
  (attempts < maxAttempts)%Z ->
  poll (S fuel) attempts w p
  = poll fuel (attempts + 1)%Z (sleep interval (send req w))
         (afterResponse (taskStatus svc (sent (send req w))) p).
Proof.
  intros Hc Hlt. simpl.
  pose proof (tryBlock_state attempts (taskStatus svc (sent (send req w))) p) as Hs.
  destruct (tryBlock_not_completed attempts _ p Hc Hlt) as [[e He]|He];
    destruct (tryBlock onProgress maxAttempts attempts _ p) as [t p'];
    simpl in He, Hs; subst t p'; [|reflexivity].
  destruct (Z.geb_spec attempts maxAttempts); [lia|reflexivity].
Qed.

(** The same round with the budget used up: the loop gives up. *)
Lemma poll_round_gives_up fuel attempts w p :
  isCompleted (taskStatus svc (sent (send req w))) = false ->
  (maxAttempts <= attempts)%Z ->
  poll (S fuel) attempts w p
  = Some (Rejected maxAttemptsReached, send req w,
          afterResponse (taskStatus svc (sent (send req w))) p).
Proof.
  intros Hc Hge. simpl.
  pose proof (tryBlock_state attempts (taskStatus svc (sent (send req w))) p) as Hs.
  destruct (tryBlock_budget_spent attempts _ p Hc Hge) as [e He].
  destruct (tryBlock onProgress maxAttempts attempts _ p) as [t p'];
    simpl in He, Hs; subst t p'.
  destruct (Z.geb_spec attempts maxAttempts); [reflexivity|lia].
Qed.

(** A round that sees 'completed' resolves with that response. *)
Lemma poll_round_completed fuel attempts w p d :
  taskStatus svc (sent (send req w)) = Resolved d ->
  status d = lit "completed" ->
  poll (S fuel) attempts w p
  = Some (Resolved d, send req w, reportProgress onProgress d p).
Proof.
  intros Hr Hs. simpl in *. rewrite Hr. simpl. rewrite Hs. reflexivity.
Qed.

(** The loop is total: the fuel of [pollTaskUntilComplete] is enough. *)
Lemma poll_enough_fuel fuel : forall attempts w p,
  (Z.to_nat (maxAttempts - attempts) < fuel)%nat ->
  exists r, poll fuel attempts w p = Some r.
Proof.
  induction fuel as [|fuel IH]; intros attempts w p Hf; [lia|].
  destruct (isCompleted (taskStatus svc (sent (send req w)))) eqn:Hc.
  - destruct (taskStatus svc (sent (send req w))) as [d|e] eqn:Hr; [|discriminate].
    simpl in Hc. apply bool_decide_eq_true in Hc.
    rewrite (poll_round_completed _ _ _ _ _ Hr Hc). eauto.
  - destruct (Z.lt_ge_cases attempts maxAttempts) as [Hlt|Hge].
    + rewrite (poll_round_retries _ _ _ _ Hc Hlt). apply IH. lia.
    + rewrite (poll_round_gives_up _ _ _ _ Hc Hge). eauto.
Qed.

(** The only reason the loop ever rejects with. *)
Lemma poll_rejects_only_with_timeout fuel : forall attempts w p e w' p',
  poll fuel attempts w p = Some (Rejected e, w', p') -> e = maxAttemptsReached.
Proof.
  induction fuel as [|fuel IH]; intros attempts w p e w' p' H; [discriminate|].
  simpl in H.
  destruct (tryBlock onProgress maxAttempts attempts _ p) as [[d|e0|] p1].
  - discriminate.
  - destruct (attempts >=? maxAttempts)%Z; [congruence|eauto].
  - eauto.
Qed.

(** Every round sends one status request for the task, and nothing else. *)
Lemma poll_sends_status_requests fuel : forall attempts w p r w' p',
  poll fuel attempts w p = Some (r, w', p') ->
  exists n, (0 < n)%nat /\ sent w' = sent w ++ repeat req n
            /\ delays w' = delays w ++ repeat interval (n - 1)
            /\ auth_token w' = auth_token w.
Proof.
  induction fuel as [|fuel IH]; intros attempts w p r w' p' H; [discriminate|].
  simpl in H.
  assert (Hnext : forall p1,
    poll fuel (attempts + 1)%Z (sleep interval (send req w)) p1 = Some (r, w', p') ->
    exists n, (0 < n)%nat /\ sent w' = sent w ++ repeat req n
              /\ delays w' = delays w ++ repeat interval (n - 1)
              /\ auth_token w' = auth_token w).
  { intros p1 H1. apply IH in H1 as (n & Hn & Hs & Hd & Ha). simpl in *.
    exists (S n). split; [lia|]. rewrite Hs, Hd, Ha.
    replace (S n - 1)%nat with (S (n - 1)) by lia. simpl.
    rewrite <- !app_assoc. auto. }
  assert (Hstop : forall x p1, Some (x, send req w, p1) = Some (r, w', p') ->
    exists n, (0 < n)%nat /\ sent w' = sent w ++ repeat req n
              /\ delays w' = delays w ++ repeat interval (n - 1)
              /\ auth_token w' = auth_token w).
  { intros x p1 H1. inversion H1; subst. exists 1%nat. simpl.
    rewrite app_nil_r. auto with lia. }
  destruct (tryBlock onProgress maxAttempts attempts _ p) as [[d|e0|] p1]; eauto.
  destruct (attempts >=? maxAttempts)%Z; eauto.
Qed.

(** With no response ever 'completed', the loop rejects with the timeout
    after one request more than the budget still holds. *)
Lemma poll_never_completed_run (n : nat) : forall attempts w p,
  (forall log, isCompleted (taskStatus svc log) = false) ->
  n = Z.to_nat (maxAttempts - attempts) ->
  exists p', poll (S n) attempts w p
             = Some (Rejected maxAttemptsReached,
                     {| sent := sent w ++ repeat req (S n);
                        delays := delays w ++ repeat interval n;
                        auth_token := auth_token w |}, p').
Proof.
  induction n as [|n IH]; intros attempts w p Hnc Hn.
  - rewrite poll_round_gives_up by (auto; lia). simpl.
    rewrite app_nil_r. eexists. reflexivity.
  - rewrite poll_round_retries by (auto; lia).
    destruct (IH (attempts + 1)%Z (sleep interval (send req w))
                 (afterResponse (taskStatus svc (sent (send req w))) p) Hnc)
      as [p' Hp']; [lia|].
    rewrite Hp'. exists p'. simpl. rewrite <- !app_assoc. reflexivity.
Qed.

End PollFacts.

Lemma lit_failed_not_completed : lit "failed" <> lit "completed".
Proof. discriminate. Qed.

Lemma lit_pending_in_progress :
  lit "pending" <> lit "completed" /\ lit "pending" <> lit "failed".
Proof. split; discriminate. Qed.

Lemma lit_running_in_progress :
  lit "running" <> lit "completed" /\ lit "running" <> lit "failed".
Proof. split; discriminate. Qed.

(** C1 (the code departs from the claim): a first response with
    status 'failed' does not end the loop.  With a positive [maxAttempts] the
    error thrown for it is caught by the loop's own [catch], so at least a
    second status request is sent for the task; and whenever the loop does
    reject, the reason is 'Maximum polling attempts reached', never the
    reason the server gave. *)
Theorem poll_failed_status_is_retried :
  forall (P : Type) svc taskId onProgress interval maxAttempts w (p : P) d,
    Api.taskStatus svc (Api.sent (Api.send (Api.GetTaskStatus taskId) w))
      = Api.Resolved d ->
    Api.status d = lit "failed" ->
    (0 < maxAttempts)%Z ->
    exists r w' p',
      Api.pollTaskUntilComplete svc taskId onProgress interval maxAttempts w p
        = Some (r, w', p')
      /\ (exists n, (2 <= n)%nat
                    /\ Api.sent w' = Api.sent w ++ repeat (Api.GetTaskStatus taskId) n)
      /\ (forall e, r = Api.Rejected e -> e = Api.maxAttemptsReached).
Proof.
  intros P svc taskId onProgress interval maxAttempts w p d Hr Hs Hpos.
  unfold Api.pollTaskUntilComplete.
  assert (Hc : Api.isCompleted
                 (Api.taskStatus svc (Api.sent (Api.send (Api.GetTaskStatus taskId) w)))
               = false).
  { rewrite Hr. simpl. rewrite Hs. apply bool_decide_eq_false.
    exact lit_failed_not_completed. }
  rewrite poll_round_retries by (auto; lia).
  destruct (poll_enough_fuel svc taskId onProgress interval maxAttempts
              (Z.to_nat maxAttempts) (0 + 1)%Z
              (Api.sleep interval (Api.send (Api.GetTaskStatus taskId) w))
              (Api.afterResponse onProgress
                 (Api.taskStatus svc
                    (Api.sent (Api.send (Api.GetTaskStatus taskId) w))) p))
    as [[[r w'] p'] Hrun]; [lia|].
  exists r, w', p'. split; [exact Hrun|]. split.
  - apply poll_sends_status_requests in Hrun as (n & Hn & Hsent & _).
    exists (S n). split; [lia|]. rewrite Hsent. simpl.
    rewrite <- app_assoc. reflexivity.
  - intros e ->. eapply poll_rejects_only_with_timeout. exact Hrun.
Qed.

Lemma poll_failed_status_is_retried_witness :
  exists r w' p',
    Api.pollTaskUntilComplete
      (Scenario.alwaysStatus (Scenario.statusOnly (lit "failed") (Some (lit "x"))))
      (lit "t1") None 1000%Z 120%Z Scenario.emptyWorld tt
    = Some (r, w', p')
    /\ (exists n, (2 <= n)%nat
                  /\ Api.sent w'
                     = Api.sent Scenario.emptyWorld
                       ++ repeat (Api.GetTaskStatus (lit "t1")) n)
    /\ (forall e, r = Api.Rejected e -> e = Api.maxAttemptsReached).
Proof.
  apply (poll_failed_status_is_retried unit
           (Scenario.alwaysStatus (Scenario.statusOnly (lit "failed") (Some (lit "x"))))
           (lit "t1") None 1000%Z 120%Z Scenario.emptyWorld tt
           (Scenario.statusOnly (lit "failed") (Some (lit "x"))));
    [reflexivity | reflexivity | lia].
Defined.

(** The run C1 speaks of, with the poller's defaults: the task answers
    'failed' with error "x" every time; 121 requests go out and the promise
    rejects with the timeout message. *)
Example poll_always_failed_run :
  Api.pollTaskUntilComplete
    (Scenario.alwaysStatus (Scenario.statusOnly (lit "failed") (Some (lit "x"))))
    (lit "t1") (None : option (Z -> jsstring -> unit -> unit)) 1000%Z 120%Z
    Scenario.emptyWorld tt
  = Some (Api.Rejected (Api.Error (lit "Maximum polling attempts reached")),
          {| Api.sent := repeat (Api.GetTaskStatus (lit "t1")) 121;
             Api.delays := repeat 1000%Z 120;
             Api.auth_token := None |}, tt).
Proof. vm_compute. reflexivity. Qed.

(** C3 (the code departs from the claim): when every status response
    reports 'pending' or 'running', the loop rejects with 'Maximum polling
    attempts reached' after [maxAttempts + 1] status requests (one, when
    [maxAttempts] is negative), with [maxAttempts] delays of [interval]
    between them: one request more than the claim's [maxAttempts]. *)
Theorem poll_running_times_out_after_one_more_request :
  forall (P : Type) svc taskId onProgress interval maxAttempts w (p : P),
    (forall log, exists d,
        Api.taskStatus svc log = Api.Resolved d
        /\ (Api.status d = lit "pending" \/ Api.status d = lit "running")) ->
    exists p',
      Api.pollTaskUntilComplete svc taskId onProgress interval maxAttempts w p
      = Some (Api.Rejected Api.maxAttemptsReached,
              {| Api.sent := Api.sent w
                             ++ repeat (Api.GetTaskStatus taskId)
                                       (S (Z.to_nat maxAttempts));
                 Api.delays := Api.delays w ++ repeat interval (Z.to_nat maxAttempts);
                 Api.auth_token := Api.auth_token w |}, p').
Proof.
  intros P svc taskId onProgress interval maxAttempts w p Hrun.
  unfold Api.pollTaskUntilComplete.
  apply poll_never_completed_run.
  - intros log. destruct (Hrun log) as (d & -> & Hs). simpl.
    apply bool_decide_eq_false.
    destruct Hs as [-> | ->];
      [apply lit_pending_in_progress | apply lit_running_in_progress].
  - f_equal. lia.
Qed.

Lemma poll_running_times_out_after_one_more_request_witness :
  exists p',
    Api.pollTaskUntilComplete
      (Scenario.alwaysStatus (Scenario.statusOnly (lit "running") None))
      (lit "t1") None 1000%Z 3%Z Scenario.emptyWorld tt
    = Some (Api.Rejected Api.maxAttemptsReached,
            {| Api.sent := Api.sent Scenario.emptyWorld
                           ++ repeat (Api.GetTaskStatus (lit "t1")) (S (Z.to_nat 3));
               Api.delays := Api.delays Scenario.emptyWorld
                             ++ repeat 1000%Z (Z.to_nat 3);
               Api.auth_token := Api.auth_token Scenario.emptyWorld |}, p').
Proof.
  apply (poll_running_times_out_after_one_more_request unit
           (Scenario.alwaysStatus (Scenario.statusOnly (lit "running") None))
           (lit "t1") None 1000%Z 3%Z Scenario.emptyWorld tt).
  intros log. exists (Scenario.statusOnly (lit "running") None).
  split; [reflexivity | right; reflexivity].
Defined.

(** The run C3 speaks of with [maxAttempts = 3]: four requests. *)
Example poll_always_running_run :
  Api.pollTaskUntilComplete
    (Scenario.alwaysStatus (Scenario.statusOnly (lit "running") None))
    (lit "t1") (None : option (Z -> jsstring -> unit -> unit)) 1000%Z 3%Z
    Scenario.emptyWorld tt
  = Some (Api.Rejected (Api.Error (lit "Maximum polling attempts reached")),
          {| Api.sent := repeat (Api.GetTaskStatus (lit "t1")) 4;
             Api.delays := [1000; 1000; 1000]%Z;
             Api.auth_token := None |}, tt).
Proof. vm_compute. reflexivity. Qed.

(** With the budget used up, a failed status request ends the loop with the
    timeout. *)
Lemma poll_request_failure_after_budget :
  forall (P : Type) svc taskId onProgress interval maxAttempts fuel attempts w
         (p : P) e,
    Api.taskStatus svc (Api.sent (Api.send (Api.GetTaskStatus taskId) w))
      = Api.Rejected e ->
    (maxAttempts <= attempts)%Z ->
    Api.poll svc taskId onProgress interval maxAttempts (S fuel) attempts w p
    = Some (Api.Rejected Api.maxAttemptsReached,
            Api.send (Api.GetTaskStatus taskId) w, p).
Proof.
  intros P svc taskId onProgress interval maxAttempts fuel attempts w p e Hr Hge.
  rewrite poll_round_gives_up by (auto; rewrite Hr; reflexivity).
  rewrite Hr. reflexivity.
Qed.

(** Whatever the mix of failed requests and responses still in progress, the
    loop gives up after [maxAttempts + 1] requests in all. *)
Lemma poll_mixed_rounds_share_budget :
  forall (P : Type) svc taskId onProgress interval maxAttempts w (p : P),
    (forall log,
        (exists e, Api.taskStatus svc log = Api.Rejected e)
        \/ (exists d, Api.taskStatus svc log = Api.Resolved d
                      /\ Api.status d <> lit "completed")) ->
    exists p',
      Api.pollTaskUntilComplete svc taskId onProgress interval maxAttempts w p
      = Some (Api.Rejected Api.maxAttemptsReached,
              {| Api.sent := Api.sent w
                             ++ repeat (Api.GetTaskStatus taskId)
                                       (S (Z.to_nat maxAttempts));
                 Api.delays := Api.delays w ++ repeat interval (Z.to_nat maxAttempts);
                 Api.auth_token := Api.auth_token w |}, p').
Proof.
  intros P svc taskId onProgress interval maxAttempts w p Hmix.
  unfold Api.pollTaskUntilComplete.
  apply poll_never_completed_run; [|f_equal; lia].
  intros log. destruct (Hmix log) as [[e ->] | (d & -> & Hd)]; simpl.
  - reflexivity.
  - apply bool_decide_eq_false. exact Hd.
Qed.

(** The poller always settles: the loop ends within its budget, whatever the
    service answers. *)
Theorem pollTaskUntilComplete_settles :
  forall (P : Type) svc taskId onProgress interval maxAttempts w (p : P),
    exists r, Api.pollTaskUntilComplete svc taskId onProgress interval maxAttempts w p
              = Some r.
Proof.
  intros P svc taskId onProgress interval maxAttempts w p.
  unfold Api.pollTaskUntilComplete. apply poll_enough_fuel. lia.
Qed.

(** The poller rejects with one reason only, 'Maximum polling attempts
    reached'; a reason given by the service never comes through. *)
Theorem pollTaskUntilComplete_rejects_with_timeout_only :
  forall (P : Type) svc taskId onProgress interval maxAttempts w (p : P),
    match Api.pollTaskUntilComplete svc taskId onProgress interval maxAttempts w p with
    | Some (Api.Rejected e, _, _) => e = Api.maxAttemptsReached
    | _ => True
    end.
Proof.
  intros P svc taskId onProgress interval maxAttempts w p.
  destruct (Api.pollTaskUntilComplete svc taskId onProgress interval maxAttempts w p)
    as [[[[d|e] w'] p']|] eqn:Hrun; [exact I| |exact I].
  eapply poll_rejects_only_with_timeout. exact Hrun.
Qed.

(** A service that never answers exhausts the same budget as a task that
    never finishes: 121 requests with the defaults. *)
Example poll_unreachable_run :
  Api.pollTaskUntilComplete Scenario.neverAnswers (lit "t1")
    (None : option (Z -> jsstring -> unit -> unit)) 1000%Z 120%Z
    Scenario.emptyWorld tt
  = Some (Api.Rejected (Api.Error (lit "Maximum polling attempts reached")),
          {| Api.sent := repeat (Api.GetTaskStatus (lit "t1")) 121;
             Api.delays := repeat 1000%Z 120;
             Api.auth_token := None |}, tt).
Proof. vm_compute. reflexivity. Qed.

(** ** The goal form *)


(** C8: a goal with the custom strategy and no custom rule, and a goal with
    no priority, are turned down by [handleSubmit]: an error message is set,
    the callback [onGoalSet] is not run (the parent's state, whatever it is,
    stays as it was), and with the page as the parent neither the page's
    state nor the log of requests changes. *)
Theorem handleSubmit_rejects_invalid_goal :
  forall (s : GoalSetting.State),
    (Goal.strategy (GoalSetting.goal s) = Goal.custom
     /\ (Goal.customRules (GoalSetting.goal s) = Some []
         \/ Goal.customRules (GoalSetting.goal s) = None))
    \/ (Goal.priorities (GoalSetting.goal s) = Some []
        \/ Goal.priorities (GoalSetting.goal s) = None) ->
    exists msg,
      (forall (P : Type) (onGoalSet : Goal.MergeGoal -> P -> P) (parent : P),
          GoalSetting.handleSubmit onGoalSet s parent
          = (GoalSetting.set_error (Some msg) s, parent))
      /\ (forall (log : list Goal.MergeGoal),
             snd (GoalSetting.handleSubmit cons s log) = log)
      /\ (forall (home : HomePage.State) (w : Api.World),
             App.submitGoal s (home, w)
             = (GoalSetting.set_error (Some msg) s, (home, w))).
Proof.
  intros s H.
  assert (Hgen : exists msg,
    forall (P : Type) (onGoalSet : Goal.MergeGoal -> P -> P) (parent : P),
      GoalSetting.handleSubmit onGoalSet s parent
      = (GoalSetting.set_error (Some msg) s, parent)).
  { unfold GoalSetting.handleSubmit.
    destruct H as [[Hs Hc] | Hp].
    - rewrite Hs. simpl.
      destruct Hc as [-> | ->]; simpl; eexists; intros; reflexivity.
    - destruct (Goal.is_custom (Goal.strategy (GoalSetting.goal s))
                && Goal.missing_or_empty (Goal.customRules (GoalSetting.goal s))).
      + eexists; intros; reflexivity.
      + destruct Hp as [-> | ->]; simpl; eexists; intros; reflexivity. }
  destruct Hgen as [msg Hmsg]. exists msg. split; [exact Hmsg|]. split.
  - intros log. rewrite Hmsg. reflexivity.
  - intros home w. unfold App.submitGoal. apply Hmsg.
Qed.

(** The default goal with the strategy switched to 'custom': no rule yet. *)
Lemma handleSubmit_rejects_invalid_goal_witness :
  exists msg,
    (forall (P : Type) (onGoalSet : Goal.MergeGoal -> P -> P) (parent : P),
        GoalSetting.handleSubmit onGoalSet
          (GoalSetting.handleStrategyChange Goal.custom (GoalSetting.init None)) parent
        = (GoalSetting.set_error (Some msg)
             (GoalSetting.handleStrategyChange Goal.custom (GoalSetting.init None)),
           parent))
    /\ (forall (log : list Goal.MergeGoal),
           snd (GoalSetting.handleSubmit cons
                  (GoalSetting.handleStrategyChange Goal.custom (GoalSetting.init None))
                  log) = log)
    /\ (forall (home : HomePage.State) (w : Api.World),
           App.submitGoal
             (GoalSetting.handleStrategyChange Goal.custom (GoalSetting.init None))
             (home, w)
           = (GoalSetting.set_error (Some msg)
                (GoalSetting.handleStrategyChange Goal.custom (GoalSetting.init None)),
              (home, w))).
Proof.
  apply (handleSubmit_rejects_invalid_goal
           (GoalSetting.handleStrategyChange Goal.custom (GoalSetting.init None))).
  left. split; [reflexivity | left; reflexivity].
Defined.

(** Un-ticking the only priority of the default goal leaves none: the form
    then shows 'Please select at least one priority' and the page stays on
    its first step with nothing sent. *)
Example handleSubmit_no_priority_run :
  App.submitGoal
    (GoalSetting.handlePriorityToggle Goal.accuracy (GoalSetting.init None))
    (HomePage.init, Scenario.emptyWorld)
  = (GoalSetting.set_error (Some (lit "Please select at least one priority"))
       (GoalSetting.handlePriorityToggle Goal.accuracy (GoalSetting.init None)),
     (HomePage.init, Scenario.emptyWorld)).
Proof. vm_compute. reflexivity. Qed.

(** The default goal itself is accepted and moves the page to step 1. *)
Example handleSubmit_default_goal_run :
  App.submitGoal (GoalSetting.init None) (HomePage.init, Scenario.emptyWorld)
  = (GoalSetting.init None,
     (HomePage.handleGoalSet GoalSetting.defaultGoal HomePage.init,
      Scenario.emptyWorld)).
Proof. vm_compute. reflexivity. Qed.

(** ** The page *)

(** C9: [handleReset], run from any state of the page and so from the
    completed one, leaves the page on step 0 ('Goal Setting') with no
    documents, no goal, no diff result, no task id, an empty merged content
    and the complete flag off; what is rendered next is the goal form. *)
Theorem handleReset_returns_to_goal_setting :
  forall (s : HomePage.State),
    HomePage.activeStep (HomePage.handleReset s) = 0%Z
    /\ HomePage.steps !! Z.to_nat (HomePage.activeStep (HomePage.handleReset s))
       = Some (lit "Goal Setting")
    /\ HomePage.documents (HomePage.handleReset s) = []
    /\ HomePage.mergeGoal (HomePage.handleReset s) = None
    /\ HomePage.diffResult (HomePage.handleReset s) = None
    /\ HomePage.mergeTaskId (HomePage.handleReset s) = None
    /\ HomePage.mergedContent (HomePage.handleReset s) = []
    /\ HomePage.isComplete (HomePage.handleReset s) = false
    /\ HomePage.render (HomePage.handleReset s)
       = HomePage.Stepping (HomePage.GoalSettingView None).
Proof.
  intros s. unfold HomePage.handleReset, HomePage.render.
  repeat split.
Qed.

(** What [handleReset] leaves alone: the messages and the loading state. *)
Lemma handleReset_keeps_messages :
  forall (s : HomePage.State),
    HomePage.error (HomePage.handleReset s) = HomePage.error s
    /\ HomePage.success (HomePage.handleReset s) = HomePage.success s
    /\ HomePage.loading (HomePage.handleReset s) = HomePage.loading s.
Proof. intros s. repeat split. Qed.

(** ** Finalizing *)

(** The page's handler does not read the content it is handed. *)
Lemma home_handleFinalizeMerge_ignores_content :
  forall svc (c1 c2 : jsstring) filename (home : HomePage.State) (w : Api.World),
    HomePage.handleFinalizeMerge svc c1 filename home w
    = HomePage.handleFinalizeMerge svc c2 filename home w.
Proof. reflexivity. Qed.

(** Of the review step's state, finalizing reads the task id and the file
    name, and hands the final text to a callback that drops it: two review
    states that agree on the first two leave the same page and the same
    world. *)
Lemma confirmFinalize_reads_task_and_filename :
  forall svc (r1 r2 : Review.State) (home : HomePage.State) (w : Api.World),
    Review.mergeTaskId r1 = Review.mergeTaskId r2 ->
    Review.filename r1 = Review.filename r2 ->
    snd (fst (App.confirmFinalize svc r1 home w))
      = snd (fst (App.confirmFinalize svc r2 home w))
    /\ snd (App.confirmFinalize svc r1 home w)
       = snd (App.confirmFinalize svc r2 home w).
Proof.
  intros svc r1 r2 home w Ht Hf.
  unfold App.confirmFinalize, Review.confirmFinalizeMerge. rewrite Ht, Hf.
  destruct (Review.mergeTaskId r2) as [[|c t]|]; simpl.
  - destruct (HomePage.handleFinalizeMerge svc _ _ home w); auto.
  - destruct (Api.mergeResult svc _) as [data|err]; simpl; [|auto].
    rewrite (home_handleFinalizeMerge_ignores_content svc
               (Review.finalContent r1) (Review.finalContent r2)).
    rewrite (home_handleFinalizeMerge_ignores_content svc
               (Review.finalContent r1) (Review.finalContent r2)
               (Some (Review.filename r2))).
    destruct (HomePage.truthy_id (Api.id data));
      destruct (HomePage.handleFinalizeMerge svc _ _ home _); auto.
  - destruct (HomePage.handleFinalizeMerge svc _ _ home w); auto.
Qed.

Lemma manualEdit_shows_value :
  forall (value : jsstring) (s : Review.State),
    Review.isEditing s = false ->
    Review.visibleContent (Review.manualEdit value s) = value
    /\ Review.finalContent (Review.manualEdit value s) = value
    /\ Review.mergeTaskId (Review.manualEdit value s) = Review.mergeTaskId s
    /\ Review.filename (Review.manualEdit value s) = Review.filename s.
Proof.
  intros value s He.
  unfold Review.manualEdit, Review.handleEditToggle, Review.handleContentChange,
    Review.visibleContent.
  rewrite He. simpl. auto.
Qed.

(** C2 (the code departs from the claim): after a manual edit the review
    step shows the edited text, yet finalizing does not depend on it.  The
    page's state and the world after [confirmFinalize] are those of the
    session without the edit; so whatever a service stores, as a function of
    the requests it received, is the same with and without the edit, and
    cannot be the edited text whenever that differs from what it stores for
    the unedited session. *)
Theorem finalize_after_manual_edit_ignores_the_edit :
  forall svc (review : Review.State) (home : HomePage.State) (w : Api.World)
         (value : jsstring),
    Review.isEditing review = false ->
    Review.visibleContent (Review.manualEdit value review) = value
    /\ snd (fst (App.confirmFinalize svc (Review.manualEdit value review) home w))
       = snd (fst (App.confirmFinalize svc review home w))
    /\ snd (App.confirmFinalize svc (Review.manualEdit value review) home w)
       = snd (App.confirmFinalize svc review home w)
    /\ (forall (D : Type) (stored : list Api.Request -> D),
          stored (Api.sent (snd (App.confirmFinalize svc
                                   (Review.manualEdit value review) home w)))
          = stored (Api.sent (snd (App.confirmFinalize svc review home w)))).
Proof.
  intros svc review home w value He.
  destruct (manualEdit_shows_value value review He) as (Hv & _ & Ht & Hf).
  destruct (confirmFinalize_reads_task_and_filename svc
              (Review.manualEdit value review) review home w Ht Hf) as [Hp Hw].
  split; [exact Hv|]. split; [exact Hp|]. split; [exact Hw|].
  intros D stored. rewrite Hw. reflexivity.
Qed.

Lemma finalize_after_manual_edit_ignores_the_edit_witness :
  Review.visibleContent (Review.manualEdit (lit "B") (Review.init Scenario.reviewProps))
    = lit "B"
  /\ snd (fst (App.confirmFinalize Scenario.mergeService
                 (Review.manualEdit (lit "B") (Review.init Scenario.reviewProps))
                 HomePage.init Scenario.emptyWorld))
     = snd (fst (App.confirmFinalize Scenario.mergeService
                   (Review.init Scenario.reviewProps)
                   HomePage.init Scenario.emptyWorld)).
Proof.
  pose proof (finalize_after_manual_edit_ignores_the_edit Scenario.mergeService
                (Review.init Scenario.reviewProps) HomePage.init
                Scenario.emptyWorld (lit "B") eq_refl) as H.
  exact (conj (proj1 H) (proj1 (proj2 H))).
Defined.

Lemma home_handleFinalizeMerge_sent svc c f (home : HomePage.State) (w : Api.World) :
  Api.sent (snd (HomePage.handleFinalizeMerge svc c f home w))
  = Api.sent w ++ Observe.applyRequest (HomePage.mergeTaskId home).
Proof.
  unfold HomePage.handleFinalizeMerge, Observe.applyRequest.
  destruct (HomePage.mergeTaskId home) as [[|c0 t]|];
    try (simpl; rewrite app_nil_r; reflexivity).
  unfold HomePage.applyMergeResult. simpl.
  destruct (Api.mergeResult svc _) as [data|err]; simpl.
  - destruct (HomePage.truthy_id (Api.id data)); simpl; reflexivity.
  - unfold Api.handleApiError.
    destruct (Api.err_response err) as [[st [[|? ?]|]]|]; simpl;
      repeat case_match; simplify_eq; reflexivity.
Qed.

(** The requests finalizing adds to the log, all of them: the review step
    asks for its task's result to be applied when it holds a task id; the
    page's handler runs unless that request was rejected, and asks the same
    for the page's task when the page holds one.  Each request names a task
    and carries no text. *)
Lemma finalize_sends_only_apply_requests :
  forall svc (review : Review.State) (home : HomePage.State) (w : Api.World),
    Api.sent (snd (App.confirmFinalize svc review home w))
    = Api.sent w
      ++ match Review.mergeTaskId review with
         | Some (c :: t) =>
             Api.GetMergeResult (c :: t) true
             :: match Api.mergeResult svc
                        (Api.sent w ++ [Api.GetMergeResult (c :: t) true]) with
                | Api.Resolved _ => Observe.applyRequest (HomePage.mergeTaskId home)
                | Api.Rejected _ => []
                end
         | Some [] | None => Observe.applyRequest (HomePage.mergeTaskId home)
         end.
Proof.
  intros svc review home w.
  unfold App.confirmFinalize, Review.confirmFinalizeMerge.
  destruct (Review.mergeTaskId review) as [[|c t]|].
  - pose proof (home_handleFinalizeMerge_sent svc (Review.finalContent review)
                  (Some (Review.filename review)) home w) as Hs.
    destruct (HomePage.handleFinalizeMerge svc _ _ home w) as [h w1]. exact Hs.
  - simpl.
    destruct (Api.mergeResult svc _) as [data|err].
    + destruct (HomePage.truthy_id (Api.id data)).
      * pose proof (home_handleFinalizeMerge_sent svc (Review.finalContent review)
                      (Api.filename data) home
                      (Api.send (Api.GetMergeResult (c :: t) true) w)) as Hs.
        destruct (HomePage.handleFinalizeMerge svc _ _ home _) as [h w2].
        simpl in *. rewrite Hs, <- app_assoc. reflexivity.
      * pose proof (home_handleFinalizeMerge_sent svc (Review.finalContent review)
                      (Some (Review.filename review)) home
                      (Api.send (Api.GetMergeResult (c :: t) true) w)) as Hs.
        destruct (HomePage.handleFinalizeMerge svc _ _ home _) as [h w2].
        simpl in *. rewrite Hs, <- app_assoc. reflexivity.
    + reflexivity.
  - pose proof (home_handleFinalizeMerge_sent svc (Review.finalContent review)
                  (Some (Review.filename review)) home w) as Hs.
    destruct (HomePage.handleFinalizeMerge svc _ _ home w) as [h w1]. exact Hs.
Qed.

(** The session of C2: the task's text "A" is edited to "B" and saved; the
    review step shows "B"; confirming sends one request, to apply task "t1",
    after the two that ran the merge; the page reports the document saved and
    the session complete. *)
Example finalize_after_edit_run :
  exists r h w,
    Scenario.editedSession = Some (r, h, w)
    /\ Review.visibleContent r = lit "B"
    /\ Review.finalContent r = lit "B"
    /\ Api.sent w
       = [Api.CreateAsyncMerge
            (Review.mergeRequestOf Scenario.docA Scenario.docB GoalSetting.defaultGoal);
          Api.GetTaskStatus (lit "t1");
          Api.GetMergeResult (lit "t1") true]
    /\ HomePage.isComplete h = true
    /\ HomePage.success h = Some (HomePage.savedMessage (Some (lit "Merged_a.txt"))).
Proof.
  do 3 eexists. split; [vm_compute; reflexivity|].
  repeat split; vm_compute; reflexivity.
Qed.

(** ** JavaScript strings *)

Section JsFacts.

Implicit Types (s l pat : jsstring) (ls : list jsstring) (c sep : N).

Lemma split_nonempty sep s : split sep s <> [].
Proof.
  destruct s as [|c s]; simpl; [discriminate|].
  destruct (c =? sep); [discriminate|].
  destruct (split sep s); discriminate.
Qed.

Lemma split_no_sep sep l : sep ∉ l -> split sep l = [l].
Proof.
  induction l as [|c l IH]; intros Hn; [reflexivity|].
  apply not_elem_of_cons in Hn as [Hc Hl]. simpl.
  destruct (N.eqb_spec c sep) as [->|_]; [done|].
  rewrite (IH Hl). reflexivity.
Qed.

Lemma split_app_sep sep l s :
  sep ∉ l -> split sep (l ++ sep :: s) = l :: split sep s.
Proof.
  induction l as [|c l IH]; intros Hn; simpl.
  - rewrite N.eqb_refl. reflexivity.
  - apply not_elem_of_cons in Hn as [Hc Hl].
    destruct (N.eqb_spec c sep) as [->|_]; [done|].
    rewrite (IH Hl). reflexivity.
Qed.

(** The pieces of a split hold no separator. *)
Lemma split_pieces sep s : Forall (fun l => sep ∉ l) (split sep s).
Proof.
  induction s as [|c s IH]; simpl.
  - repeat constructor. apply not_elem_of_nil.
  - destruct (N.eqb_spec c sep) as [->|Hc].
    + constructor; [apply not_elem_of_nil | exact IH].
    + destruct (split sep s) as [|l ls].
      { constructor; [|constructor]. intros Hin.
        apply list_elem_of_singleton in Hin. congruence. }
      inversion IH; subst. constructor; [|assumption].
      apply not_elem_of_cons. split; [congruence | assumption].
Qed.

Lemma join_cons_cons (glue : jsstring) l l' ls :
  join glue (l :: l' :: ls) = l ++ glue ++ join glue (l' :: ls).
Proof. reflexivity. Qed.

(** Splitting what was joined gives the pieces back, when no piece holds
    the separator. *)
Lemma split_join sep ls :
  ls <> [] -> Forall (fun l => sep ∉ l) ls -> split sep (join [sep] ls) = ls.
Proof.
  induction ls as [|l ls IH]; intros Hne Hall; [done|].
  inversion Hall as [|? ? Hl Hls]; subst.
  destruct ls as [|l' ls].
  - simpl. apply split_no_sep. exact Hl.
  - rewrite join_cons_cons.
    change ([sep] ++ join [sep] (l' :: ls)) with (sep :: join [sep] (l' :: ls)).
    rewrite split_app_sep by exact Hl.
    rewrite IH; [reflexivity | discriminate | exact Hls].
Qed.

(** Joining the pieces of a split gives the text back. *)
Lemma join_split sep s : join [sep] (split sep s) = s.
Proof.
  induction s as [|c s IH]; [reflexivity|]. simpl.
  destruct (N.eqb_spec c sep) as [->|Hc].
  - pose proof (split_nonempty sep s) as Hne.
    destruct (split sep s) as [|l ls] eqn:E; [done|].
    change (join [sep] ([] :: l :: ls)) with (sep :: join [sep] (l :: ls)).
    rewrite IH. reflexivity.
  - pose proof (split_nonempty sep s) as Hne.
    destruct (split sep s) as [|l ls] eqn:E; [done|].
    destruct ls as [|l' ls]; simpl in *; rewrite <- IH; reflexivity.
Qed.

Lemma startsWith_iff s pat :
  startsWith s pat = true <-> exists post, s = pat ++ post.
Proof.
  revert s. induction pat as [|p pat IH]; intros s; simpl.
  - split; eauto.
  - destruct s as [|c s].
    + split; [discriminate | intros [post H]; discriminate].
    + rewrite andb_true_iff, N.eqb_eq, IH. split.
      * intros [-> [post ->]]. eauto.
      * intros [post H]. injection H as -> ->. eauto.
Qed.

(** [includes] finds exactly the texts that hold the pattern somewhere. *)
Lemma includes_iff s pat :
  includes s pat = true <-> exists pre post, s = pre ++ pat ++ post.
Proof.
  induction s as [|c s IH]; simpl.
  - rewrite orb_false_r, startsWith_iff. split.
    + intros [post H]. exists [], post. exact H.
    + intros (pre & post & H). symmetry in H.
      apply app_eq_nil in H as [-> H]. exists post. symmetry. exact H.
  - rewrite orb_true_iff, startsWith_iff, IH. split.
    + intros [[post H] | (pre & post & H)].
      * exists [], post. exact H.
      * exists (c :: pre), post. rewrite H. reflexivity.
    + intros (pre & post & H). destruct pre as [|c' pre].
      * left. exists post. exact H.
      * right. injection H as -> ->. eauto.
Qed.

Lemma startsWith_app pat post : startsWith (pat ++ post) pat = true.
Proof. apply startsWith_iff. eauto. Qed.

Lemma replaceAll_app c rep s1 s2 :
  replaceAll c rep (s1 ++ s2) = replaceAll c rep s1 ++ replaceAll c rep s2.
Proof. unfold replaceAll. apply flat_map_app. Qed.

Lemma trimStart_no_leading_space s c s' :
  trimStart s = c :: s' -> isWhiteSpace c = false.
Proof.
  induction s as [|x s IH]; simpl; [discriminate|].
  destruct (isWhiteSpace x) eqn:E; [exact IH|].
  intros H. injection H as -> _. exact E.
Qed.

(** Trimmed text starts with no white space. *)
Lemma trim_no_leading_space s c s' : trim s = c :: s' -> isWhiteSpace c = false.
Proof.
  unfold trim, trimEnd. intros H.
  assert (Hsuf : forall t, exists k, trimStart t = drop k t).
  { induction t as [|x t [k Hk]]; simpl; [exists 0%nat; reflexivity|].
    destruct (isWhiteSpace x); [exists (S k); exact Hk | exists 0%nat; reflexivity]. }
  destruct (Hsuf (rev (trimStart s))) as [k Hk]. rewrite Hk in H.
  destruct (trimStart s) as [|y t] eqn:E.
  - simpl in H. rewrite drop_nil in H. discriminate.
  - assert (Hy : isWhiteSpace y = false) by (eapply trimStart_no_leading_space; eauto).
    assert (Heq : y :: t = (c :: s') ++ rev (take k (rev (y :: t)))).
    { rewrite <- H, <- rev_app_distr, take_drop. symmetry. apply rev_involutive. }
    injection Heq as -> _. exact Hy.
Qed.

End JsFacts.

Example trim_example :
  trim (lit "  foo " ++ [9; 13]) = lit "foo" /\ trim (lit " a b ") = lit "a b".
Proof. split; vm_compute; reflexivity. Qed.

Example split_example :
  split 10 (lit "bar" ++ [10] ++ lit "foo" ++ [10]) = [lit "bar"; lit "foo"; []].
Proof. vm_compute. reflexivity. Qed.

(** ** The highlighter *)

Section HighlighterFacts.

Import Highlighter HighlighterSpec.

Implicit Types (s l m : jsstring) (d : DiffResult) (h : Highlight).

(** A [forEach] that pushes is a [map]. *)
Lemma foldl_push {A B : Type} (f : A -> B) (xs : list A) (acc : list B) :
  foldl (fun acc x => acc ++ [f x]) acc xs = acc ++ map f xs.
Proof.
  revert acc. induction xs as [|x xs IH]; intros acc; simpl.
  - rewrite app_nil_r. reflexivity.
  - rewrite IH, <- app_assoc. reflexivity.
Qed.

Lemma elem_of_foldl_added (ds : list DiffLine) : forall (acc : gset jsstring) s,
  s ∈ foldl (fun addedLines x =>
               if is_added (type x) then {[ trim (line x) ]} ∪ addedLines
               else addedLines) acc ds
  <-> s ∈ acc \/ exists dl, dl ∈ ds /\ type dl = added /\ trim (line dl) = s.
Proof.
  induction ds as [|d0 ds IH]; intros acc s; simpl.
  - split; [auto|]. intros [H | (dl & Hin & _)]; [exact H|].
    apply elem_of_nil in Hin. destruct Hin.
  - rewrite IH. split.
    + intros [H | (dl & Hin & Ht & Hl)].
      * destruct (type d0) eqn:Et; simpl in H; auto.
        apply elem_of_union in H as [H | H]; [|auto].
        apply elem_of_singleton in H. right. exists d0.
        split; [apply list_elem_of_here | auto].
      * right. exists dl. split; [apply list_elem_of_further; exact Hin | auto].
    + intros [H | (dl & Hin & Ht & Hl)].
      * left. destruct (is_added (type d0)); [apply elem_of_union; auto | exact H].
      * apply elem_of_cons in Hin as [-> | Hin].
        -- left. rewrite Ht. simpl. apply elem_of_union. left.
           apply elem_of_singleton. auto.
        -- right. eauto.
Qed.

(** The set the source builds holds the trimmed texts of the added lines. *)
Lemma elem_of_addedLinesOf (ds : list DiffLine) s :
  s ∈ addedLinesOf ds
  <-> exists dl, dl ∈ ds /\ type dl = added /\ trim (line dl) = s.
Proof.
  unfold addedLinesOf. rewrite elem_of_foldl_added. split; [|auto].
  intros [H | H]; [|exact H]. apply not_elem_of_empty in H. destruct H.
Qed.

Lemma elem_of_added_set_spec d s :
  s ∈ added_set_spec d
  <-> exists dl, dl ∈ diff_lines d /\ type dl = added /\ trim (line dl) = s.
Proof.
  unfold added_set_spec. rewrite list_elem_of_In, in_map_iff. split.
  - intros (dl & Hl & Hin). apply filter_In in Hin as [Hin Ht].
    exists dl. rewrite list_elem_of_In. destruct (type dl); try discriminate. auto.
  - intros (dl & Hin & Ht & Hl). exists dl. split; [exact Hl|].
    apply filter_In. rewrite <- list_elem_of_In, Ht. auto.
Qed.

Lemma highlightOf_spec d l :
  highlightOf (addedLinesOf (diff_lines d)) l = classify_line_spec d l.
Proof.
  unfold highlightOf, classify_line_spec.
  rewrite (bool_decide_ext (trim l ∈ addedLinesOf (diff_lines d))
                           (trim l ∈ added_set_spec d)); [reflexivity|].
  rewrite elem_of_addedLinesOf, elem_of_added_set_spec. reflexivity.
Qed.

Lemma highlightLine_markup (A : gset jsstring) l :
  highlightLine A l = markup (highlightOf A l) l.
Proof.
  unfold highlightLine, highlightOf.
  destruct (bool_decide (trim l ∈ A)); [reflexivity|].
  destruct (includes l (lit "<<<") && includes l (lit ">>>")); reflexivity.
Qed.

(** The text returned is the markup of the classification, joined. *)
Lemma highlightMergedContent_render m d :
  highlightMergedContent m (Some d) = render (classify m d).
Proof.
  destruct m as [|c m]; [reflexivity|].
  unfold highlightMergedContent, render, classify.
  rewrite foldl_push, app_nil_l, map_map. f_equal.
  apply map_ext. intros l. apply highlightLine_markup.
Qed.

Lemma escapeHtml_app s1 s2 : escapeHtml (s1 ++ s2) = escapeHtml s1 ++ escapeHtml s2.
Proof. unfold escapeHtml. rewrite !replaceAll_app. reflexivity. Qed.

Lemma escapeHtml_single (c : N) : escapeHtml [c] = entity c.
Proof.
  unfold entity.
  destruct (N.eqb_spec c 38) as [->|H38]; [reflexivity|].
  destruct (N.eqb_spec c 60) as [->|H60]; [reflexivity|].
  destruct (N.eqb_spec c 62) as [->|H62]; [reflexivity|].
  destruct (N.eqb_spec c 34) as [->|H34]; [reflexivity|].
  destruct (N.eqb_spec c 39) as [->|H39]; [reflexivity|].
  unfold escapeHtml, replaceAll. simpl.
  apply N.eqb_neq in H38, H60, H62, H34, H39.
  rewrite H38. simpl. rewrite H60. simpl. rewrite H62. simpl.
  rewrite H34. simpl. rewrite H39. reflexivity.
Qed.

(** The five replacements in a row do what one pass over the text does. *)
Lemma escapeHtml_spec s : escapeHtml s = escape_spec s.
Proof.
  induction s as [|c s IH]; [reflexivity|].
  change (c :: s) with ([c] ++ s).
  rewrite escapeHtml_app, escapeHtml_single, IH. reflexivity.
Qed.

Lemma entity_chars (c x : N) :
  x ∈ entity c ->
  x <> 60 /\ x <> 62 /\ x <> 34 /\ x <> 39 /\ (x = 10 -> c = 10).
Proof.
  unfold entity. intros H.
  destruct (N.eqb_spec c 38); [|destruct (N.eqb_spec c 60);
    [|destruct (N.eqb_spec c 62); [|destruct (N.eqb_spec c 34);
      [|destruct (N.eqb_spec c 39)]]]];
    apply list_elem_of_In in H; cbv in H;
    repeat (destruct H as [H | H]; [subst x; repeat split; try discriminate; try congruence|]);
    try destruct H.
  all: intros ->; try discriminate; congruence.
Qed.

(** Escaped text holds no [<], [>], double quote or single quote, and no
    line break the source text did not hold. *)
Lemma escapeHtml_chars s (x : N) :
  x ∈ escapeHtml s ->
  x <> 60 /\ x <> 62 /\ x <> 34 /\ x <> 39 /\ (x = 10 -> 10 ∈ s).
Proof.
  rewrite escapeHtml_spec. unfold escape_spec.
  rewrite list_elem_of_In, in_flat_map. intros (c & Hc & Hx).
  apply list_elem_of_In in Hx. apply entity_chars in Hx as (?&?&?&?&Hnl).
  repeat split; auto. intros ->. rewrite <- (Hnl eq_refl).
  apply list_elem_of_In. exact Hc.
Qed.

Lemma span_no_newline : forall class : string,
  class = "added-content"%string \/ class = "conflict-content"%string ->
  (10 ∉ span_open class) /\ (10 ∉ span_close).
Proof.
  intros class [-> | ->]; split; intros H; apply list_elem_of_In in H; cbv in H;
    repeat (destruct H as [H | H]; [discriminate|]); destruct H.
Qed.

Lemma markup_no_newline h l : 10 ∉ l -> 10 ∉ markup h l.
Proof.
  intros Hl H.
  assert (He : 10 ∉ escapeHtml l).
  { intros Hin. apply escapeHtml_chars in Hin as (_&_&_&_&Hnl). auto. }
  destruct (span_no_newline "added-content" (or_introl eq_refl)) as [Ha Hc].
  destruct (span_no_newline "conflict-content" (or_intror eq_refl)) as [Hb _].
  destruct h; unfold markup in H; rewrite ?elem_of_app in H; tauto.
Qed.

(** The lines of the returned text are the marked-up lines of the merged
    text, one for one. *)
Lemma highlightMergedContent_lines m d :
  m <> [] ->
  split 10 (highlightMergedContent m (Some d))
  = map (fun l => markup (highlightOf (addedLinesOf (diff_lines d)) l) l) (split 10 m).
Proof.
  intros Hm. rewrite highlightMergedContent_render. unfold render, classify.
  destruct m as [|c m]; [done|]. rewrite map_map. simpl fst. simpl snd.
  apply split_join.
  - intros Hnil. apply map_eq_nil in Hnil. exact (split_nonempty _ _ Hnil).
  - apply Forall_map. eapply Forall_impl; [apply split_pieces|].
    intros l Hl. simpl. apply markup_no_newline. exact Hl.
Qed.

(** The highlight can be read back from a returned line. *)
Lemma readHighlight_markup h l : readHighlight (markup h l) = h.
Proof.
  unfold readHighlight. destruct h; unfold markup.
  - rewrite startsWith_app. reflexivity.
  - replace (startsWith (span_open "conflict-content" ++ escapeHtml l ++ span_close)
                      (span_open "added-content")) with false by reflexivity.
    rewrite startsWith_app. reflexivity.
  - assert (Hno : forall class post, escapeHtml l <> span_open class ++ post).
    { intros class post Heq.
      assert (Hin : 60 ∈ escapeHtml l) by (rewrite Heq; apply list_elem_of_here).
      apply escapeHtml_chars in Hin as [Hin _]. congruence. }
    destruct (startsWith (escapeHtml l) (span_open "added-content")) eqn:Ea.
    { apply startsWith_iff in Ea as [post Ea]. destruct (Hno _ _ Ea). }
    destruct (startsWith (escapeHtml l) (span_open "conflict-content")) eqn:Ec.
    { apply startsWith_iff in Ec as [post Ec]. destruct (Hno _ _ Ec). }
    reflexivity.
Qed.

(** What [classify] says is what the returned text shows, line by line. *)
Lemma classify_observable m d :
  map readHighlight (split 10 (highlightMergedContent m (Some d)))
  = map snd (classify m d).
Proof.
  destruct m as [|c m]; [reflexivity|].
  rewrite highlightMergedContent_lines by discriminate.
  unfold classify. rewrite !map_map. apply map_ext. intros l.
  apply readHighlight_markup.
Qed.

End HighlighterFacts.

(** C4 as stated fails: the line [<<< ours >>>] holds both markers and its
    trimmed text is in the added-set, and the source marks it as added, not
    as a conflict. *)
Lemma marked_line_in_added_set_is_added :
  includes Scenario.markedLine (lit "<<<") = true
  /\ includes Scenario.markedLine (lit ">>>") = true
  /\ trim Scenario.markedLine
     ∈ Highlighter.addedLinesOf (Highlighter.diff_lines Scenario.markedAddedDiff)
  /\ Highlighter.classify Scenario.markedLine Scenario.markedAddedDiff
     = [(Scenario.markedLine, Highlighter.Added)]
  /\ Highlighter.classify Scenario.markedLine Scenario.markedAddedDiff
     <> [(Scenario.markedLine, Highlighter.Conflict)]
  /\ Highlighter.highlightMergedContent Scenario.markedLine
       (Some Scenario.markedAddedDiff)
     = Highlighter.span_open "added-content"
       ++ lit "&lt;&lt;&lt; ours &gt;&gt;&gt;" ++ Highlighter.span_close.
Proof.
  assert (Hc : Highlighter.classify Scenario.markedLine Scenario.markedAddedDiff
               = [(Scenario.markedLine, Highlighter.Added)])
    by (vm_compute; reflexivity).
  split; [vm_compute; reflexivity|]. split; [vm_compute; reflexivity|]. split.
  { apply elem_of_addedLinesOf. eexists. split; [apply list_elem_of_here|].
    split; [reflexivity | vm_compute; reflexivity]. }
  split; [exact Hc|]. split; [rewrite Hc; discriminate|].
  vm_compute. reflexivity.
Qed.

(** C4, amended: a line of the merged text that holds both conflict markers
    and whose trimmed text is the trimmed text of an added diff line is
    classified [Added] at its position: the added check comes first. *)
Theorem classify_added_wins_over_conflict :
  forall (m : jsstring) (d : Highlighter.DiffResult) (i : nat) (l : jsstring),
    split 10 m !! i = Some l ->
    includes l (lit "<<<") = true ->
    includes l (lit ">>>") = true ->
    (exists dl, dl ∈ Highlighter.diff_lines d
                /\ Highlighter.type dl = Highlighter.added
                /\ trim (Highlighter.line dl) = trim l) ->
    Highlighter.classify m d !! i = Some (l, Highlighter.Added).
Proof.
  intros m d i l Hi Hs He Hadd. unfold Highlighter.classify.
  destruct m as [|c m].
  - destruct i as [|i]; [|discriminate]. injection Hi as <-. discriminate.
  - rewrite list_lookup_fmap, Hi. simpl. unfold Highlighter.highlightOf.
    rewrite bool_decide_eq_true_2; [reflexivity|].
    apply elem_of_addedLinesOf. exact Hadd.
Qed.

Lemma classify_added_wins_over_conflict_witness :
  Highlighter.classify Scenario.markedLine Scenario.markedAddedDiff !! 0%nat
  = Some (Scenario.markedLine, Highlighter.Added).
Proof.
  apply (classify_added_wins_over_conflict Scenario.markedLine
           Scenario.markedAddedDiff 0 Scenario.markedLine).
  - vm_compute. reflexivity.
  - vm_compute. reflexivity.
  - vm_compute. reflexivity.
  - eexists. split; [apply list_elem_of_here|].
    split; [reflexivity | vm_compute; reflexivity].
Defined.

(** C5 as stated fails on the empty text: its one (empty) line has its
    trimmed text in the added-set of a diff with a blank added line, so the
    rules give [Added] and the markup of an added line; the source returns
    the empty text untouched. *)
Lemma empty_text_with_blank_added_line :
  Highlighter.highlightMergedContent [] (Some Scenario.blankAddedDiff) = []
  /\ HighlighterSpec.classify_spec [] Scenario.blankAddedDiff
     = [([], Highlighter.Added)]
  /\ HighlighterSpec.render (HighlighterSpec.classify_spec [] Scenario.blankAddedDiff)
     = Highlighter.span_open "added-content" ++ Highlighter.span_close
  /\ Highlighter.classify [] Scenario.blankAddedDiff
     <> HighlighterSpec.classify_spec [] Scenario.blankAddedDiff
  /\ Highlighter.highlightMergedContent [] (Some Scenario.blankAddedDiff)
     <> HighlighterSpec.render
          (HighlighterSpec.classify_spec [] Scenario.blankAddedDiff).
Proof.
  assert (Hs : HighlighterSpec.classify_spec [] Scenario.blankAddedDiff
               = [([], Highlighter.Added)]) by (vm_compute; reflexivity).
  split; [reflexivity|]. split; [exact Hs|]. rewrite Hs.
  split; [vm_compute; reflexivity|]. split; [discriminate|].
  vm_compute. discriminate.
Qed.

(** C5, amended: for a merged text that is not empty, the source classifies
    each line (split on line breaks, in order) by the spec's three rules,
    and the text it returns is the markup of that classification; for
    [{Added,"foo"},{Unchanged,"bar"}] and "bar\nfoo\nbaz" this is
    [None, Added, None]. *)
Theorem classify_follows_spec_rules :
  forall (m : jsstring) (d : Highlighter.DiffResult),
    m <> [] ->
    Highlighter.classify m d = HighlighterSpec.classify_spec m d
    /\ Highlighter.highlightMergedContent m (Some d)
       = HighlighterSpec.render (HighlighterSpec.classify_spec m d)
    /\ map snd (Highlighter.classify Scenario.barFooBaz Scenario.fooBarDiff)
       = [Highlighter.NoHighlight; Highlighter.Added; Highlighter.NoHighlight].
Proof.
  intros m d Hm.
  assert (Hc : Highlighter.classify m d = HighlighterSpec.classify_spec m d).
  { destruct m as [|c m]; [done|].
    unfold Highlighter.classify, HighlighterSpec.classify_spec.
    apply map_ext. intros l. rewrite highlightOf_spec. reflexivity. }
  split; [exact Hc|]. split.
  - rewrite <- Hc. apply highlightMergedContent_render.
  - vm_compute. reflexivity.
Qed.

Lemma classify_follows_spec_rules_witness :
  Highlighter.classify Scenario.barFooBaz Scenario.fooBarDiff
  = HighlighterSpec.classify_spec Scenario.barFooBaz Scenario.fooBarDiff.
Proof.
  apply (proj1 (classify_follows_spec_rules Scenario.barFooBaz Scenario.fooBarDiff
                  ltac:(discriminate))).
Defined.

(** The text returned for the example of C5. *)
Example highlight_bar_foo_baz :
  Highlighter.highlightMergedContent Scenario.barFooBaz (Some Scenario.fooBarDiff)
  = lit "bar" ++ [10]
    ++ Highlighter.span_open "added-content" ++ lit "foo" ++ Highlighter.span_close
    ++ [10] ++ lit "baz".
Proof. vm_compute. reflexivity. Qed.

(** C6: the classification has one entry per line of the merged text, in
    the order of the lines; the returned text has as many lines as the merged
    text, whatever the diff (or none), and its lines show that
    classification in that order.  The result is a function of the two
    arguments alone (the set and the list the source fills are local to a
    call), so equal arguments give equal results. *)
Theorem classify_one_entry_per_line :
  forall (m : jsstring) (d : Highlighter.DiffResult),
    map fst (Highlighter.classify m d) = split 10 m
    /\ length (Highlighter.classify m d) = length (split 10 m)
    /\ (forall dopt : option Highlighter.DiffResult,
           length (split 10 (Highlighter.highlightMergedContent m dopt))
           = length (split 10 m))
    /\ map HighlighterSpec.readHighlight
           (split 10 (Highlighter.highlightMergedContent m (Some d)))
       = map snd (Highlighter.classify m d)
    /\ (forall r1 r2,
           r1 = Highlighter.highlightMergedContent m (Some d) ->
           r2 = Highlighter.highlightMergedContent m (Some d) ->
           r1 = r2).
Proof.
  intros m d.
  assert (Hfst : map fst (Highlighter.classify m d) = split 10 m).
  { unfold Highlighter.classify. destruct m as [|c m]; [reflexivity|].
    rewrite map_map. simpl. apply map_id. }
  split; [exact Hfst|]. split.
  { rewrite <- Hfst, length_map. reflexivity. }
  split.
  { intros [d'|]; [|destruct m; reflexivity].
    destruct m as [|c m]; [reflexivity|].
    rewrite highlightMergedContent_lines by discriminate.
    apply length_map. }
  split; [apply classify_observable|].
  intros r1 r2 -> ->. reflexivity.
Qed.

(** C10: for a merged text that is not empty, every line of the returned
    text is the escaped source line of the same position, bare or inside one
    of the two spans; the escaped line is the source line with [&], [<],
    [>], the double quote and the single quote each replaced by its entity
    (the five replacements in a row amount to that one pass); and escaped
    text holds none of [<], [>], double quote, single quote. *)
Theorem highlightMergedContent_escapes_lines :
  forall (m : jsstring) (d : Highlighter.DiffResult),
    m <> [] ->
    Forall2 HighlighterSpec.wraps
      (split 10 (Highlighter.highlightMergedContent m (Some d))) (split 10 m)
    /\ (forall l, Highlighter.escapeHtml l = HighlighterSpec.escape_spec l)
    /\ (forall l (x : N),
           x ∈ HighlighterSpec.escape_spec l ->
           x <> 60 /\ x <> 62 /\ x <> 34 /\ x <> 39).
Proof.
  intros m d Hm. split; [|split].
  - rewrite highlightMergedContent_lines by exact Hm.
    apply Forall2_fmap_l, Forall_Forall2_diag, Forall_forall.
    intros l _. unfold compose, HighlighterSpec.wraps, Highlighter.markup.
    rewrite <- escapeHtml_spec.
    destruct (Highlighter.highlightOf _ l); auto.
  - apply escapeHtml_spec.
  - intros l x Hx. rewrite <- escapeHtml_spec in Hx.
    apply escapeHtml_chars in Hx as (?&?&?&?&_). auto.
Qed.

Lemma highlightMergedContent_escapes_lines_witness :
  Forall2 HighlighterSpec.wraps
    (split 10 (Highlighter.highlightMergedContent
                 (lit "if a<b && c>" ++ [34] ++ lit "d'" ++ [34])
                 (Some Scenario.fooBarDiff)))
    (split 10 (lit "if a<b && c>" ++ [34] ++ lit "d'" ++ [34])).
Proof.
  apply (proj1 (highlightMergedContent_escapes_lines
                  (lit "if a<b && c>" ++ [34] ++ lit "d'" ++ [34])
                  Scenario.fooBarDiff ltac:(discriminate))).
Defined.

(** The text returned for the line of the witness. *)
Example highlight_escapes_example :
  Highlighter.highlightMergedContent
    (lit "if a<b && c>" ++ [34] ++ lit "d'" ++ [34]) (Some Scenario.fooBarDiff)
  = lit "if a&lt;b &amp;&amp; c&gt;&quot;d&#039;&quot;".
Proof. vm_compute. reflexivity. Qed.

(** ** More on the poller *)

Lemma foldl_pointwise {A B : Type} (f g : A -> B -> A) (xs : list B) : forall a,
  (forall q x, f q x = g q x) -> foldl f a xs = foldl g a xs.
Proof.
  induction xs as [|x xs IH]; intros a Hfg; [reflexivity|].
  simpl. rewrite Hfg. apply IH. exact Hfg.
Qed.

Section PollRuns.

Import Api.

Context {P : Type}.
Variable svc : Service.
Variable taskId : jsstring.
Variable onProgress : option (Z -> jsstring -> P -> P).
Variable interval maxAttempts : Z.

Local Abbreviation poll := (poll svc taskId onProgress interval maxAttempts).
Local Abbreviation req := (GetTaskStatus taskId).

Lemma logAfter_send w n :
  Observe.logAfter taskId (sleep interval (send req w)) n
  = Observe.logAfter taskId w (S n).
Proof. unfold Observe.logAfter. simpl. rewrite <- app_assoc. reflexivity. Qed.

Lemma logAfter_one w : sent (send req w) = Observe.logAfter taskId w 1.
Proof. reflexivity. Qed.

(** Where a run stands after [k] rounds that saw nothing 'completed'. *)
Lemma poll_skips_rounds (k : nat) : forall fuel attempts w p,
  (attempts + Z.of_nat k <= maxAttempts)%Z ->
  (forall j, (j < k)%nat ->
             isCompleted (taskStatus svc (Observe.logAfter taskId w (S j))) = false) ->
  exists p',
    poll (k + S fuel) attempts w p
    = poll (S fuel) (attempts + Z.of_nat k)%Z
        {| sent := Observe.logAfter taskId w k;
           delays := delays w ++ repeat interval k;
           auth_token := auth_token w |} p'.
Proof.
  induction k as [|k IH]; intros fuel attempts w p Hk Hnc.
  - exists p. simpl Nat.add. unfold Observe.logAfter. simpl repeat.
    rewrite !app_nil_r, Z.add_0_r. destruct w; reflexivity.
  - change (S k + S fuel)%nat with (S (k + S fuel)).
    rewrite poll_round_retries; [| rewrite logAfter_one; apply Hnc; lia | lia].
    destruct (IH fuel (attempts + 1)%Z (sleep interval (send req w))
                (afterResponse onProgress (taskStatus svc (sent (send req w))) p))
      as [p' Hp'].
    + lia.
    + intros j Hj. rewrite logAfter_send. apply Hnc. lia.
    + exists p'. rewrite Hp'. rewrite logAfter_send. simpl delays. simpl auth_token.
      replace (attempts + 1 + Z.of_nat k)%Z with (attempts + Z.of_nat (S k))%Z by lia.
      rewrite <- app_assoc. reflexivity.
Qed.

(** What the caller's state is after a run: the responses of the requests
    sent, looked at in the order they came. *)
Lemma poll_state_trace fuel : forall attempts w p r w' p',
  poll fuel attempts w p = Some (r, w', p') ->
  exists n,
    sent w' = Observe.logAfter taskId w n
    /\ p' = foldl (fun q j =>
                     afterResponse onProgress
                       (taskStatus svc (Observe.logAfter taskId w (S j))) q)
                  p (seq 0 n).
Proof.
  induction fuel as [|fuel IH]; intros attempts w p r w' p' H; [discriminate|].
  simpl in H.
  pose proof (tryBlock_state onProgress maxAttempts attempts
                (taskStatus svc (sent w ++ [req])) p) as Hs.
  assert (Hstop : forall x, Some (x, send req w,
                     afterResponse onProgress (taskStatus svc (sent w ++ [req])) p)
                            = Some (r, w', p') ->
    exists n, sent w' = Observe.logAfter taskId w n
      /\ p' = foldl (fun q j =>
                       afterResponse onProgress
                         (taskStatus svc (Observe.logAfter taskId w (S j))) q)
                    p (seq 0 n)).
  { intros x Hx. inversion Hx; subst. exists 1%nat. split; reflexivity. }
  assert (Hnext :
    poll fuel (attempts + 1)%Z (sleep interval (send req w))
      (afterResponse onProgress (taskStatus svc (sent w ++ [req])) p)
    = Some (r, w', p') ->
    exists n, sent w' = Observe.logAfter taskId w n
      /\ p' = foldl (fun q j =>
                       afterResponse onProgress
                         (taskStatus svc (Observe.logAfter taskId w (S j))) q)
                    p (seq 0 n)).
  { intros H1. apply IH in H1 as (n & Hsent & Hp). exists (S n).
    rewrite logAfter_send in Hsent. split; [exact Hsent|].
    rewrite Hp. simpl seq. simpl foldl. rewrite <- seq_shift, foldl_fmap.
    apply foldl_pointwise. intros q j. rewrite logAfter_send. reflexivity. }
  destruct (tryBlock onProgress maxAttempts attempts _ p) as [[d|e0|] p1];
    simpl in Hs; subst p1; eauto.
  destruct (attempts >=? maxAttempts)%Z; eauto.
Qed.


End PollRuns.



(** A run with one failed request in it: the first request gets no response,
    the second is answered 'running', the third 'completed'.  The failure
    cost one round and one delay, like the response in progress after it. *)
Example poll_fails_once_then_completes_run :
  Api.pollTaskUntilComplete Scenario.failsOnceThenCompletes (lit "t1")
    (None : option (Z -> jsstring -> unit -> unit)) 1000%Z 120%Z
    Scenario.emptyWorld tt
  = Some (Api.Resolved (Scenario.statusOnly (lit "completed") None),
          {| Api.sent := repeat (Api.GetTaskStatus (lit "t1")) 3;
             Api.delays := [1000; 1000]%Z;
             Api.auth_token := None |}, tt).
Proof. vm_compute. reflexivity. Qed.

(** The poller resolves with the first 'completed' response when it comes
    within the budget: if the responses to the first [k] requests are not
    'completed', [k <= maxAttempts], and request [k + 1] is answered
    'completed', the promise resolves with that answer after exactly
    [k + 1] requests and [k] delays. *)
Theorem poll_resolves_with_first_completed :
  forall (P : Type) svc taskId onProgress interval maxAttempts w (p : P)
         (k : nat) d,
    (Z.of_nat k <= maxAttempts)%Z ->
    (forall j, (j < k)%nat ->
       Api.isCompleted (Api.taskStatus svc (Observe.logAfter taskId w (S j))) = false) ->
    Api.taskStatus svc (Observe.logAfter taskId w (S k)) = Api.Resolved d ->
    Api.status d = lit "completed" ->
    exists p',
      Api.pollTaskUntilComplete svc taskId onProgress interval maxAttempts w p
      = Some (Api.Resolved d,
              {| Api.sent := Observe.logAfter taskId w (S k);
                 Api.delays := Api.delays w ++ repeat interval k;
                 Api.auth_token := Api.auth_token w |}, p').
Proof.
  intros P svc taskId onProgress interval maxAttempts w p k d Hk Hnc Hr Hs.
  unfold Api.pollTaskUntilComplete.
  replace (S (Z.to_nat maxAttempts)) with (k + S (Z.to_nat maxAttempts - k))%nat by lia.
  destruct (poll_skips_rounds svc taskId onProgress interval maxAttempts k
              (Z.to_nat maxAttempts - k) 0%Z w p) as [p' Hp']; [lia | exact Hnc |].
  rewrite Hp'. eexists.
  rewrite (poll_round_completed svc taskId onProgress interval maxAttempts _ _ _ _ d).
  - unfold Api.send, Observe.logAfter. simpl.
    rewrite <- app_assoc, <- repeat_cons. reflexivity.
  - simpl. unfold Observe.logAfter in *. rewrite <- app_assoc, <- repeat_cons. exact Hr.
  - exact Hs.
Qed.

Lemma poll_resolves_with_first_completed_witness :
  exists p',
    Api.pollTaskUntilComplete Scenario.mergeService (lit "t1") None 1000%Z 120%Z
      Scenario.emptyWorld tt
    = Some (Api.Resolved
              {| Api.status := lit "completed"; Api.progress := Some 100%Z;
                 Api.message := Some (lit "done");
                 Api.result := Some {| Api.merged_content := Some (lit "A");
                                       Api.report := None |};
                 Api.error := None |},
            {| Api.sent := Observe.logAfter (lit "t1") Scenario.emptyWorld 1;
               Api.delays := Api.delays Scenario.emptyWorld ++ repeat 1000%Z 0;
               Api.auth_token := Api.auth_token Scenario.emptyWorld |}, p').
Proof.
  apply (poll_resolves_with_first_completed unit Scenario.mergeService (lit "t1")
           None 1000%Z 120%Z Scenario.emptyWorld tt 0).
  - lia.
  - intros j Hj. lia.
  - reflexivity.
  - reflexivity.
Defined.

(** The progress callback is run once for each response that carries a
    progress value, in the order the responses come, with the response's
    message or the empty string: a caller that records what it is given ends
    with exactly those pairs, for as many requests as the run sent. *)
Theorem poll_reports_progress_in_order :
  forall svc taskId interval maxAttempts (w : Api.World),
    exists r w' n,
      Api.pollTaskUntilComplete svc taskId (Some Observe.recordProgress)
        interval maxAttempts w []
      = Some (r, w',
              omap (fun j => Observe.progressOf
                               (Api.taskStatus svc (Observe.logAfter taskId w (S j))))
                   (seq 0 n))
      /\ Api.sent w' = Observe.logAfter taskId w n.
Proof.
  intros svc taskId interval maxAttempts w.
  destruct (poll_enough_fuel svc taskId (Some Observe.recordProgress) interval
              maxAttempts (S (Z.to_nat maxAttempts)) 0%Z w [])
    as [[[r w'] p'] Hrun]; [lia|].
  unfold Api.pollTaskUntilComplete. rewrite Hrun.
  apply poll_state_trace in Hrun as (n & Hsent & Hp).
  exists r, w', n. split; [|exact Hsent]. f_equal. f_equal. rewrite Hp.
  assert (Hgen : forall (js : list nat) (seen : list (Z * jsstring)),
    foldl (fun q j =>
             Api.afterResponse (Some Observe.recordProgress)
               (Api.taskStatus svc (Observe.logAfter taskId w (S j))) q) seen js
    = seen ++ omap (fun j => Observe.progressOf
                               (Api.taskStatus svc (Observe.logAfter taskId w (S j))))
                   js).
  { induction js as [|j js IH]; intros seen; simpl.
    - rewrite app_nil_r. reflexivity.
    - rewrite IH. unfold Api.afterResponse, Api.reportProgress, Observe.progressOf.
      destruct (Api.taskStatus svc _) as [d|e]; [|reflexivity].
      destruct (Api.progress d); [|reflexivity].
      unfold Observe.recordProgress. rewrite <- app_assoc. reflexivity. }
  apply Hgen.
Qed.

(** The poller resolves only with a response whose status is 'completed'. *)
Lemma poll_resolves_only_completed :
  forall (P : Type) svc taskId onProgress interval maxAttempts fuel attempts w
         (p : P) d w' p',
    Api.poll svc taskId onProgress interval maxAttempts fuel attempts w p
      = Some (Api.Resolved d, w', p') ->
    Api.status d = lit "completed".
Proof.
  intros P svc taskId onProgress interval maxAttempts fuel.
  induction fuel as [|fuel IH]; intros attempts w p d w' p' H; [discriminate|].
  simpl in H. unfold Api.tryBlock in H.
  destruct (Api.taskStatus svc _) as [d0|e0].
  - destruct (Api.str_eqb (Api.status d0) (lit "completed")) eqn:Ec.
    + inversion H; subst. apply bool_decide_eq_true in Ec. exact Ec.
    + destruct (Api.str_eqb (Api.status d0) (lit "failed")).
      * destruct (attempts >=? maxAttempts)%Z; [discriminate|eauto].
      * destruct (attempts >=? maxAttempts)%Z; [discriminate|eauto].
  - destruct (attempts >=? maxAttempts)%Z; [discriminate|eauto].
Qed.

(** [handleApiError] always has something to show, never touches the
    requests or the delays, and removes the stored credential exactly when
    the error carries a response with status 401. *)
Theorem handleApiError_clears_credential_on_401_only :
  forall (e : Api.JsError) (w : Api.World),
    fst (Api.handleApiError e w) <> []
    /\ Api.sent (snd (Api.handleApiError e w)) = Api.sent w
    /\ Api.delays (snd (Api.handleApiError e w)) = Api.delays w
    /\ ((exists detail, Api.err_response e = Some (401%Z, detail)) ->
        Api.auth_token (snd (Api.handleApiError e w)) = None
        /\ fst (Api.handleApiError e w)
           = lit "Authentication error. Please log in again.")
    /\ ((forall detail, Api.err_response e <> Some (401%Z, detail)) ->
        snd (Api.handleApiError e w) = w).
Proof.
  intros e w. unfold Api.handleApiError.
  destruct (Api.err_response e) as [[st detail]|].
  - destruct (Z.eqb_spec st 401) as [->|Hne].
    + split; [discriminate|]. split; [reflexivity|]. split; [reflexivity|].
      split; [intros _; split; reflexivity|].
      intros Hno. exfalso. eapply Hno. reflexivity.
    + assert (Hmsg : fst (match detail with
                          | Some (c :: d) => (c :: d, w)
                          | _ => (lit "Server error: " ++ lit (pretty st), w)
                          end) <> []
                     /\ snd (match detail with
                             | Some (c :: d) => (c :: d, w)
                             | _ => (lit "Server error: " ++ lit (pretty st), w)
                             end) = w).
      { destruct detail as [[|c d]|]; split; try reflexivity; discriminate. }
      destruct Hmsg as [Hm Hw]. rewrite Hw.
      split; [exact Hm|]. split; [reflexivity|]. split; [reflexivity|].
      split; [|reflexivity]. intros [detail' Hd]. congruence.
  - assert (Hnone : forall x : jsstring * Api.World,
              fst x <> [] -> snd x = w ->
              fst x <> [] /\ Api.sent (snd x) = Api.sent w
              /\ Api.delays (snd x) = Api.delays w
              /\ ((exists detail : option jsstring, None = Some (401%Z, detail)) ->
                  Api.auth_token (snd x) = None
                  /\ fst x = lit "Authentication error. Please log in again.")
              /\ ((forall detail : option jsstring, None <> Some (401%Z, detail)) ->
                  snd x = w)).
    { intros x Hx Hw. rewrite Hw.
      split; [exact Hx|]. split; [reflexivity|]. split; [reflexivity|].
      split; [|reflexivity]. intros [detail' Hd]. discriminate. }
    destruct (Api.err_request e); apply Hnone; try reflexivity; discriminate.
Qed.

(** ** More on the goal form *)

Lemma cons_neq_self {A : Type} (x : A) (l : list A) : l <> x :: l.
Proof. intros H. apply (f_equal length) in H. simpl in H. lia. Qed.

(** [handleSubmit] hands the goal to [onGoalSet], once, exactly when the goal
    is valid: the strategy is not 'custom' or there is a custom rule, and
    there is a priority; and exactly then the form's error is cleared. *)
Theorem handleSubmit_forwards_exactly_valid_goals :
  forall (s : GoalSetting.State) (log : list Goal.MergeGoal),
    (snd (GoalSetting.handleSubmit cons s log) = GoalSetting.goal s :: log
     <-> ((Goal.strategy (GoalSetting.goal s) <> Goal.custom
           \/ exists c cs, Goal.customRules (GoalSetting.goal s) = Some (c :: cs))
          /\ exists q qs, Goal.priorities (GoalSetting.goal s) = Some (q :: qs)))
    /\ (snd (GoalSetting.handleSubmit cons s log) = GoalSetting.goal s :: log
        \/ snd (GoalSetting.handleSubmit cons s log) = log)
    /\ (GoalSetting.error (fst (GoalSetting.handleSubmit cons s log)) = None
        <-> snd (GoalSetting.handleSubmit cons s log) = GoalSetting.goal s :: log).
Proof.
  intros s log. unfold GoalSetting.handleSubmit.
  pose proof (cons_neq_self (GoalSetting.goal s) log) as Hneq.
  destruct (Goal.strategy (GoalSetting.goal s)) eqn:Es;
    destruct (Goal.customRules (GoalSetting.goal s)) as [[|c cs]|] eqn:Ec;
    destruct (Goal.priorities (GoalSetting.goal s)) as [[|q qs]|] eqn:Ep;
    simpl.
  all: split; [split; intros H | split; [|split; intros H]].
  all: try (left; reflexivity); try (right; reflexivity); try reflexivity.
  all: try (exfalso; exact (Hneq H)); try discriminate.
  all: try match goal with
           | H : _ /\ _ |- _ =>
               destruct H as [[H1 | (c0 & cs0 & H1)] (q0 & qs0 & H2)]; congruence
           end.
  all: try (split; [left; discriminate | eauto]).
  all: try (split; [right; eauto | eauto]).
Qed.

(** [handlePriorityToggle] flips whether the toggled priority is selected
    and leaves every other priority, the strategy and the rules as they
    were; a list without repeats stays without repeats. *)
Theorem handlePriorityToggle_flips_one_priority :
  forall (p q : Goal.Priority) (s : GoalSetting.State),
    (q ∈ Goal.or_nil (Goal.priorities
                        (GoalSetting.goal (GoalSetting.handlePriorityToggle p s)))
     <-> (if bool_decide (q = p)
          then q ∉ Goal.or_nil (Goal.priorities (GoalSetting.goal s))
          else q ∈ Goal.or_nil (Goal.priorities (GoalSetting.goal s))))
    /\ (NoDup (Goal.or_nil (Goal.priorities (GoalSetting.goal s))) ->
        NoDup (Goal.or_nil (Goal.priorities
                              (GoalSetting.goal (GoalSetting.handlePriorityToggle p s)))))
    /\ Goal.strategy (GoalSetting.goal (GoalSetting.handlePriorityToggle p s))
       = Goal.strategy (GoalSetting.goal s)
    /\ Goal.customRules (GoalSetting.goal (GoalSetting.handlePriorityToggle p s))
       = Goal.customRules (GoalSetting.goal s).
Proof.
  intros p q s. unfold GoalSetting.handlePriorityToggle. simpl.
  set (old := Goal.or_nil (Goal.priorities (GoalSetting.goal s))).
  split; [|split; [|split; reflexivity]].
  - destruct (bool_decide (p ∈ old)) eqn:Ein.
    + apply bool_decide_eq_true in Ein. rewrite list_elem_of_filter.
      destruct (bool_decide (q = p)) eqn:Eq.
      * apply bool_decide_eq_true in Eq. subst q. split; [intros [H _]; done | done].
      * apply bool_decide_eq_false in Eq. split; [intros [_ H]; exact H | auto].
    + apply bool_decide_eq_false in Ein. rewrite elem_of_app, list_elem_of_singleton.
      destruct (bool_decide (q = p)) eqn:Eq.
      * apply bool_decide_eq_true in Eq. subst q. split; [intros _; exact Ein | auto].
      * apply bool_decide_eq_false in Eq. split; [intros [H | H]; [exact H | done] | auto].
  - intros Hnd. destruct (bool_decide (p ∈ old)) eqn:Ein.
    + apply NoDup_filter. exact Hnd.
    + apply bool_decide_eq_false in Ein. apply NoDup_app. split; [exact Hnd|].
      split; [|apply NoDup_singleton].
      intros x Hx Hx'. apply list_elem_of_singleton in Hx'. subst x. done.
Qed.



(** A blank rule text is not added. *)
Lemma blank_rule_is_not_added :
  forall (s : GoalSetting.State),
    trim (GoalSetting.customRule s) = [] -> GoalSetting.handleAddCustomRule s = s.
Proof.
  intros s H. unfold GoalSetting.handleAddCustomRule. rewrite H. reflexivity.
Qed.

(** ** More on the page *)

(** [handleDocumentsSelected] always replaces the page's documents; with
    fewer than two it stays on its step and shows an error, with two or more
    it moves one step on and leaves the error as it was. *)
Theorem handleDocumentsSelected_needs_two_documents :
  forall (docs : list HomePage.Document) (s : HomePage.State),
    HomePage.documents (HomePage.handleDocumentsSelected docs s) = docs
    /\ ((length docs < 2)%nat ->
        HomePage.activeStep (HomePage.handleDocumentsSelected docs s)
          = HomePage.activeStep s
        /\ HomePage.error (HomePage.handleDocumentsSelected docs s)
           = Some (lit "Please select at least two documents to continue"))
    /\ ((2 <= length docs)%nat ->
        HomePage.activeStep (HomePage.handleDocumentsSelected docs s)
          = (HomePage.activeStep s + 1)%Z
        /\ HomePage.error (HomePage.handleDocumentsSelected docs s)
           = HomePage.error s).
Proof.
  intros docs s. unfold HomePage.handleDocumentsSelected.
  destruct (Nat.leb_spec 2 (length docs)) as [Hge | Hlt].
  - split; [reflexivity|]. split; [lia | intros _; split; reflexivity].
  - split; [reflexivity|]. split; [intros _; split; reflexivity | lia].
Qed.

Lemma run_cons svc ev evs sw :
  Session.run svc (ev :: evs) sw = Session.run svc evs (Session.step svc ev sw).
Proof. reflexivity. Qed.

(** The page itself never comes to hold a task id or a merged content, and
    never sends a request: whatever events reach it from its first state,
    [mergeTaskId] stays null, [mergedContent] stays empty and the world is
    as it was.  So its [handleFinalizeMerge] always takes the branch that
    completes without asking the service, and the review step is always
    mounted with an empty [mergedContent]. *)
Theorem page_never_holds_task_id :
  forall svc (evs : list Session.Event) (w : Api.World),
    HomePage.mergeTaskId (fst (Session.run svc evs (HomePage.init, w))) = None
    /\ HomePage.mergedContent (fst (Session.run svc evs (HomePage.init, w))) = []
    /\ snd (Session.run svc evs (HomePage.init, w)) = w.
Proof.
  intros svc evs w.
  assert (Hinv : forall evs s,
    HomePage.mergeTaskId s = None -> HomePage.mergedContent s = [] ->
    HomePage.mergeTaskId (fst (Session.run svc evs (s, w))) = None
    /\ HomePage.mergedContent (fst (Session.run svc evs (s, w))) = []
    /\ snd (Session.run svc evs (s, w)) = w).
  { clear evs. induction evs as [|ev evs IH]; intros s Ht Hm; [auto|].
    rewrite run_cons.
    assert (Hstep : exists s', Session.step svc ev (s, w) = (s', w)
                               /\ HomePage.mergeTaskId s' = None
                               /\ HomePage.mergedContent s' = []).
    { destruct ev; simpl; try (eexists; split; [reflexivity|]; split; assumption).
      - eexists. split; [reflexivity|]. unfold HomePage.handleDocumentsSelected.
        destruct (2 <=? length selectedDocs)%nat; split; assumption.
      - eexists. split; [reflexivity|]. unfold HomePage.handleProceedToMerge.
        destruct (HomePage.mergeGoal s); [|split; assumption].
        destruct (length (HomePage.documents s) <? 2)%nat; split; assumption.
      - unfold HomePage.handleFinalizeMerge. rewrite Ht.
        eexists. split; [reflexivity|]. split; assumption.
      - eexists. split; [reflexivity|]. split; reflexivity. }
    destruct Hstep as (s' & -> & Ht' & Hm'). apply IH; assumption. }
  apply Hinv; reflexivity.
Qed.

(** No event but the reset moves the page by more than one step. *)
Theorem page_moves_one_step_at_a_time :
  forall svc (ev : Session.Event) (s : HomePage.State) (w : Api.World),
    ev <> Session.ResetPage ->
    (HomePage.activeStep s - 1
     <= HomePage.activeStep (fst (Session.step svc ev (s, w)))
     <= HomePage.activeStep s + 1)%Z.
Proof.
  intros svc ev s w Hev. destruct ev; simpl; try lia; try done.
  - unfold HomePage.handleDocumentsSelected.
    destruct (2 <=? length selectedDocs)%nat; simpl; lia.
  - unfold HomePage.handleProceedToMerge.
    destruct (HomePage.mergeGoal s); [|simpl; lia].
    destruct (length (HomePage.documents s) <? 2)%nat; simpl; lia.
  - unfold HomePage.handleFinalizeMerge.
    destruct (HomePage.mergeTaskId s) as [[|c t]|]; simpl; try lia.
    unfold HomePage.applyMergeResult. simpl.
    destruct (Api.mergeResult svc _) as [data|err]; simpl.
    + destruct (HomePage.truthy_id (Api.id data)); simpl; lia.
    + destruct (Api.handleApiError err _); simpl; lia.
Qed.

Lemma page_moves_one_step_at_a_time_witness :
  (HomePage.activeStep HomePage.init - 1
   <= HomePage.activeStep
        (fst (Session.step Scenario.mergeService
                (Session.GoalSet GoalSetting.defaultGoal)
                (HomePage.init, Scenario.emptyWorld)))
   <= HomePage.activeStep HomePage.init + 1)%Z.
Proof.
  apply (page_moves_one_step_at_a_time Scenario.mergeService
           (Session.GoalSet GoalSetting.defaultGoal) HomePage.init Scenario.emptyWorld).
  discriminate.
Defined.

(** ** More on finalizing and on the review step *)

(** With no task id in the page and one in the review step, confirming
    sends exactly one request, to apply the task's result.  If it resolves, with a document id or without,
    the page is marked complete and reports the document saved, under the
    service's file name when an id came back and under the review step's
    otherwise; if it is rejected the page is untouched and the review step
    shows the failure.  Either way the review step's overlay is hidden. *)
Theorem confirmFinalize_completes_whenever_apply_resolves :
  forall svc (review : Review.State) (home : HomePage.State) (w : Api.World) c t,
    HomePage.mergeTaskId home = None ->
    Review.mergeTaskId review = Some (c :: t) ->
    Api.sent (snd (App.confirmFinalize svc review home w))
      = Api.sent w ++ [Api.GetMergeResult (c :: t) true]
    /\ Review.loading (fst (fst (App.confirmFinalize svc review home w))) = false
    /\ match Api.mergeResult svc (Api.sent w ++ [Api.GetMergeResult (c :: t) true]) with
       | Api.Resolved data =>
           HomePage.isComplete (snd (fst (App.confirmFinalize svc review home w))) = true
           /\ HomePage.success (snd (fst (App.confirmFinalize svc review home w)))
              = Some (HomePage.savedMessage
                        (if HomePage.truthy_id (Api.id data) then Api.filename data
                         else Some (Review.filename review)))
           /\ Review.error (fst (fst (App.confirmFinalize svc review home w)))
              = Review.error review
       | Api.Rejected err =>
           snd (fst (App.confirmFinalize svc review home w)) = home
           /\ Review.error (fst (fst (App.confirmFinalize svc review home w)))
              = Some (lit "Failed to finalize merge: "
                      ++ orElse (Some (Api.err_message err)) (lit "Unknown error"))
       end.
Proof.
  intros svc review home w c t Hh Hr.
  unfold App.confirmFinalize, Review.confirmFinalizeMerge, HomePage.handleFinalizeMerge.
  rewrite Hr, Hh. simpl.
  destruct (Api.mergeResult svc _) as [data|err]; simpl.
  - destruct (HomePage.truthy_id (Api.id data)); simpl; auto.
  - auto.
Qed.

Lemma confirmFinalize_completes_whenever_apply_resolves_witness :
  Api.sent (snd (App.confirmFinalize Scenario.mergeService
                   (Review.set_mergeTaskId (Some (lit "t1"))
                      (Review.init Scenario.reviewProps))
                   HomePage.init Scenario.emptyWorld))
  = Api.sent Scenario.emptyWorld ++ [Api.GetMergeResult (lit "t1") true].
Proof.
  apply (proj1 (confirmFinalize_completes_whenever_apply_resolves
                  Scenario.mergeService
                  (Review.set_mergeTaskId (Some (lit "t1"))
                     (Review.init Scenario.reviewProps))
                  HomePage.init Scenario.emptyWorld _ _ eq_refl eq_refl)).
Defined.

Lemma reviewKept_refl s : Observe.reviewKept s s.
Proof. repeat split. Qed.

Lemma poll_keeps_review_state svc taskId interval maxAttempts fuel :
  forall attempts w (s : Review.State) r w' s',
    Api.poll svc taskId (Some Review.onProgress) interval maxAttempts fuel attempts w s
      = Some (r, w', s') ->
    Observe.reviewKept s s'.
Proof.
  intros attempts w s r w' s' H.
  apply poll_state_trace in H as (n & _ & ->).
  assert (Hgen : forall (js : list nat) q, Observe.reviewKept s q ->
    Observe.reviewKept s
      (foldl (fun q j =>
                Api.afterResponse (Some Review.onProgress)
                  (Api.taskStatus svc (Observe.logAfter taskId w (S j))) q) q js)).
  { induction js as [|j js IH]; intros q Hq; [exact Hq|]. simpl. apply IH.
    unfold Api.afterResponse, Api.reportProgress.
    destruct (Api.taskStatus svc _) as [d|e]; [|exact Hq].
    destruct (Api.progress d); [|exact Hq]. exact Hq. }
  apply Hgen, reviewKept_refl.
Qed.

(** The merge, start to end, when all goes well: with two documents, a
    task id from the service and a first status response that is
    'completed' with a merged text that is not empty, the review step ends
    with that text as its final and edited content, the overlay hidden, no
    error, and two requests sent. *)
Theorem completed_merge_becomes_final_content :
  forall svc (props : Review.Props) (w : Api.World) a b rest c t d md c0 m,
    Review.selectedDocuments props = a :: b :: rest ->
    Api.asyncMerge svc
      (Api.sent w ++ [Api.CreateAsyncMerge
                        (Review.mergeRequestOf a b (Review.mergeGoal props))])
      = Api.Resolved {| Api.task_id := c :: t |} ->
    Api.taskStatus svc
      (Api.sent w ++ [Api.CreateAsyncMerge
                        (Review.mergeRequestOf a b (Review.mergeGoal props))]
       ++ [Api.GetTaskStatus (c :: t)])
      = Api.Resolved d ->
    Api.status d = lit "completed" ->
    Api.result d = Some md ->
    Api.merged_content md = Some (c0 :: m) ->
    exists s' w',
      Review.pollMergeTask svc
        (fst (Review.startAsyncMerge svc props (Review.init props) w))
        (snd (Review.startAsyncMerge svc props (Review.init props) w))
      = Some (s', w')
      /\ Review.finalContent s' = c0 :: m
      /\ Review.editedContent s' = c0 :: m
      /\ Review.mergeResult s' = Some md
      /\ Review.loading s' = false
      /\ Review.error s' = None
      /\ Api.sent w'
         = Api.sent w ++ [Api.CreateAsyncMerge
                            (Review.mergeRequestOf a b (Review.mergeGoal props));
                          Api.GetTaskStatus (c :: t)].
Proof.
  intros svc props w a b rest c t d md c0 m Hdocs Hmerge Hstatus Hs Hres Hcontent.
  unfold Review.startAsyncMerge. rewrite Hdocs. simpl. rewrite Hmerge. simpl.
  unfold Review.pollMergeTask. simpl Review.mergeTaskId.
  unfold Api.pollTaskUntilComplete.
  erewrite poll_round_completed; [| simpl; rewrite <- app_assoc; exact Hstatus | exact Hs].
  rewrite Hres, Hcontent. do 2 eexists. split; [reflexivity|].
  unfold Review.conflictsOf, Api.reportProgress, Review.onProgress.
  destruct (Api.progress d); destruct (Api.report md) as [r|];
    try destruct (Api.conflicts_resolved r) as [n|];
    try destruct (n =? 0)%Z; simpl; rewrite <- ?app_assoc; repeat split.
Qed.

Lemma completed_merge_becomes_final_content_witness :
  exists s' w',
    Review.pollMergeTask Scenario.mergeService
      (fst (Review.startAsyncMerge Scenario.mergeService Scenario.reviewProps
              (Review.init Scenario.reviewProps) Scenario.emptyWorld))
      (snd (Review.startAsyncMerge Scenario.mergeService Scenario.reviewProps
              (Review.init Scenario.reviewProps) Scenario.emptyWorld))
    = Some (s', w')
    /\ Review.finalContent s' = lit "A"
    /\ Review.editedContent s' = lit "A"
    /\ Review.mergeResult s'
       = Some {| Api.merged_content := Some (lit "A"); Api.report := None |}
    /\ Review.loading s' = false
    /\ Review.error s' = None
    /\ Api.sent w'
       = Api.sent Scenario.emptyWorld
         ++ [Api.CreateAsyncMerge
               (Review.mergeRequestOf Scenario.docA Scenario.docB
                  (Review.mergeGoal Scenario.reviewProps));
             Api.GetTaskStatus (lit "t1")].
Proof.
  apply (completed_merge_becomes_final_content Scenario.mergeService
           Scenario.reviewProps Scenario.emptyWorld Scenario.docA Scenario.docB []
           _ _ _ _ _ _ eq_refl eq_refl eq_refl eq_refl eq_refl eq_refl).
Defined.

(** When the task never completes (it stays pending, it fails, or the
    service cannot be reached) the review step ends the poll with the
    overlay hidden and the one message 'Merge process failed: Maximum polling
    attempts reached', its content untouched, after 121 status requests. *)
Theorem unfinished_merge_shows_timeout :
  forall svc (s : Review.State) (w : Api.World) c t,
    Review.mergeTaskId s = Some (c :: t) ->
    (forall log, Api.isCompleted (Api.taskStatus svc log) = false) ->
    exists s' w',
      Review.pollMergeTask svc s w = Some (s', w')
      /\ Review.error s'
         = Some (lit "Merge process failed: Maximum polling attempts reached")
      /\ Review.loading s' = false
      /\ Review.finalContent s' = Review.finalContent s
      /\ Api.sent w' = Api.sent w ++ repeat (Api.GetTaskStatus (c :: t)) 121.
Proof.
  intros svc s w c t Ht Hnc. unfold Review.pollMergeTask. rewrite Ht.
  unfold Api.pollTaskUntilComplete.
  destruct (poll_never_completed_run svc (c :: t) (Some Review.onProgress)
              1000%Z 120%Z (Z.to_nat 120) 0%Z w s Hnc eq_refl) as [s1 Hrun].
  rewrite Hrun.
  apply poll_keeps_review_state in Hrun as (Hf & _).
  do 2 eexists. split; [reflexivity|]. simpl. auto.
Qed.

Lemma unfinished_merge_shows_timeout_witness :
  exists s' w',
    Review.pollMergeTask
      (Scenario.alwaysStatus (Scenario.statusOnly (lit "failed") (Some (lit "x"))))
      (Review.set_mergeTaskId (Some (lit "t1")) (Review.init Scenario.reviewProps))
      Scenario.emptyWorld
    = Some (s', w')
    /\ Review.error s'
       = Some (lit "Merge process failed: Maximum polling attempts reached")
    /\ Review.loading s' = false
    /\ Review.finalContent s'
       = Review.finalContent
           (Review.set_mergeTaskId (Some (lit "t1")) (Review.init Scenario.reviewProps))
    /\ Api.sent w'
       = Api.sent Scenario.emptyWorld ++ repeat (Api.GetTaskStatus (lit "t1")) 121.
Proof.
  apply (unfinished_merge_shows_timeout
           (Scenario.alwaysStatus (Scenario.statusOnly (lit "failed") (Some (lit "x"))))
           (Review.set_mergeTaskId (Some (lit "t1")) (Review.init Scenario.reviewProps))
           Scenario.emptyWorld _ _ eq_refl).
  intros log. reflexivity.
Defined.

(** A task that completes with a result that holds no merged text (none, or
    the empty string) raises no error: the result is recorded, the overlay is
    hidden, and the content and the error are what they were.  A task that
    completes with no result at all does raise one. *)
Theorem completed_merge_without_text_raises_no_error :
  forall svc (s : Review.State) (w : Api.World) c t d,
    Review.mergeTaskId s = Some (c :: t) ->
    Api.taskStatus svc (Api.sent w ++ [Api.GetTaskStatus (c :: t)]) = Api.Resolved d ->
    Api.status d = lit "completed" ->
    exists s' w',
      Review.pollMergeTask svc s w = Some (s', w')
      /\ Review.loading s' = false
      /\ (forall md,
             Api.result d = Some md ->
             Api.merged_content md = None \/ Api.merged_content md = Some [] ->
             Review.finalContent s' = Review.finalContent s
             /\ Review.error s' = Review.error s
             /\ Review.mergeResult s' = Some md)
      /\ (Api.result d = None ->
          Review.finalContent s' = Review.finalContent s
          /\ Review.error s'
             = Some (lit "Merge process failed: Merge task completed but no result was returned")).
Proof.
  intros svc s w c t d Ht Hr Hs. unfold Review.pollMergeTask. rewrite Ht.
  unfold Api.pollTaskUntilComplete.
  erewrite poll_round_completed; [| exact Hr | exact Hs].
  assert (Hkept : Observe.reviewKept s (Api.reportProgress (Some Review.onProgress) d s)).
  { unfold Api.reportProgress. destruct (Api.progress d); repeat split. }
  destruct Hkept as (Hf & _ & _ & _ & He & _).
  set (s1 := Api.reportProgress (Some Review.onProgress) d s) in *.
  destruct (Api.result d) as [md|] eqn:Hres.
  - do 2 eexists. split; [reflexivity|]. split; [reflexivity|].
    split; [|discriminate].
    intros md' Hmd Hc. injection Hmd as <-.
    assert (Hsame : match Api.merged_content md with
                    | Some (c0 :: m) =>
                        Review.set_editedContent (c0 :: m)
                          (Review.set_finalContent (c0 :: m)
                             (Review.set_mergeResult (Some md) s1))
                    | _ => Review.set_mergeResult (Some md) s1
                    end = Review.set_mergeResult (Some md) s1).
    { destruct Hc as [-> | ->]; reflexivity. }
    rewrite Hsame.
    destruct (Review.conflictsOf md); simpl; auto.
  - do 2 eexists. split; [reflexivity|]. split; [reflexivity|].
    split; [discriminate|]. intros _. split; [exact Hf | reflexivity].
Qed.

Lemma completed_merge_without_text_raises_no_error_witness :
  exists s' w',
    Review.pollMergeTask
      (Scenario.alwaysStatus (Scenario.statusOnly (lit "completed") None))
      (Review.set_mergeTaskId (Some (lit "t1")) (Review.init Scenario.reviewProps))
      Scenario.emptyWorld
    = Some (s', w')
    /\ Review.loading s' = false.
Proof.
  destruct (completed_merge_without_text_raises_no_error
              (Scenario.alwaysStatus (Scenario.statusOnly (lit "completed") None))
              (Review.set_mergeTaskId (Some (lit "t1")) (Review.init Scenario.reviewProps))
              Scenario.emptyWorld _ _ _ eq_refl eq_refl eq_refl)
    as (s' & w' & Hrun & Hl & _).
  exists s', w'. split; [exact Hrun | exact Hl].
Defined.

(** ** The diff viewer *)

(** The two selects never show the same document: if they differ (or both
    are empty) before a change, they differ after it, and the changed select
    holds the chosen document; choosing in one select the document of the
    other swaps the two. *)
Theorem doc_selects_stay_distinct :
  forall (v : Z) (s : DiffViewer.State),
    (DiffViewer.primaryDoc s = DiffViewer.secondaryDoc s ->
     DiffViewer.primaryDoc s = None) ->
    DiffViewer.primaryDoc (DiffViewer.handlePrimaryDocChange v s) = Some v
    /\ DiffViewer.primaryDoc (DiffViewer.handlePrimaryDocChange v s)
       <> DiffViewer.secondaryDoc (DiffViewer.handlePrimaryDocChange v s)
    /\ DiffViewer.secondaryDoc (DiffViewer.handleSecondaryDocChange v s) = Some v
    /\ DiffViewer.primaryDoc (DiffViewer.handleSecondaryDocChange v s)
       <> DiffViewer.secondaryDoc (DiffViewer.handleSecondaryDocChange v s)
    /\ (DiffViewer.secondaryDoc s = Some v ->
        DiffViewer.secondaryDoc (DiffViewer.handlePrimaryDocChange v s)
        = DiffViewer.primaryDoc s)
    /\ (DiffViewer.primaryDoc s = Some v ->
        DiffViewer.primaryDoc (DiffViewer.handleSecondaryDocChange v s)
        = DiffViewer.secondaryDoc s).
Proof.
  intros v s Hinv.
  unfold DiffViewer.handlePrimaryDocChange, DiffViewer.handleSecondaryDocChange.
  destruct (DiffViewer.primaryDoc s) as [p|] eqn:Ep;
    destruct (DiffViewer.secondaryDoc s) as [q|] eqn:Eq;
    repeat case_bool_decide; simpl; rewrite ?Ep, ?Eq; simplify_eq.
  all: try (specialize (Hinv eq_refl); discriminate).
  all: split; [reflexivity|]; split; [congruence|]; split; [reflexivity|].
  all: split; [congruence|]; split; congruence.
Qed.

Lemma doc_selects_stay_distinct_witness :
  DiffViewer.primaryDoc
    (DiffViewer.handlePrimaryDocChange 2%Z
       (DiffViewer.autoSelect
          [ {| DiffViewer.doc_id := 1%Z; DiffViewer.doc_filename := lit "a.txt" |};
            {| DiffViewer.doc_id := 2%Z; DiffViewer.doc_filename := lit "b.txt" |} ]
          DiffViewer.init))
  = Some 2%Z.
Proof.
  apply (proj1 (doc_selects_stay_distinct 2%Z
                  (DiffViewer.autoSelect
                     [ {| DiffViewer.doc_id := 1%Z; DiffViewer.doc_filename := lit "a.txt" |};
                       {| DiffViewer.doc_id := 2%Z; DiffViewer.doc_filename := lit "b.txt" |} ]
                     DiffViewer.init)
                  ltac:(discriminate))).
Defined.

(** The statistics built for a basic diff add up: every line is counted
    once, as added, removed or unchanged, and the lines themselves are kept
    as they came. *)
Theorem basic_diff_stats_add_up :
  forall (diffLines : list Highlighter.DiffLine),
    Highlighter.total_lines (Highlighter.stats (DiffViewer.fromBasicDiff diffLines))
    = (Highlighter.added_lines (Highlighter.stats (DiffViewer.fromBasicDiff diffLines))
       + Highlighter.removed_lines (Highlighter.stats (DiffViewer.fromBasicDiff diffLines))
       + Highlighter.unchanged_lines
           (Highlighter.stats (DiffViewer.fromBasicDiff diffLines)))%Z
    /\ Highlighter.diff_lines (DiffViewer.fromBasicDiff diffLines) = diffLines
    /\ Highlighter.addedLinesOf
         (Highlighter.diff_lines (DiffViewer.fromBasicDiff diffLines))
       = Highlighter.addedLinesOf diffLines.
Proof.
  intros diffLines. split; [|split; reflexivity].
  unfold DiffViewer.fromBasicDiff, DiffViewer.countLines. simpl.
  induction diffLines as [|l ls IH]; [reflexivity|].
  simpl length at 1. simpl List.filter.
  destruct (Highlighter.type l); simpl; lia.
Qed.

Lemma sideBySide_fold (ds : list Highlighter.DiffLine) :
  forall cols : list (option Highlighter.DiffLine) * list (option Highlighter.DiffLine),
    foldl (fun cols line =>
             match Highlighter.type line with
             | Highlighter.unchanged => (fst cols ++ [Some line], snd cols ++ [Some line])
             | Highlighter.removed => (fst cols ++ [Some line], snd cols ++ [None])
             | Highlighter.added => (fst cols ++ [None], snd cols ++ [Some line])
             end) cols ds
    = (fst cols ++ map (fun l => if Highlighter.is_added (Highlighter.type l)
                                 then None else Some l) ds,
       snd cols ++ map (fun l => if DiffViewer.is_removed (Highlighter.type l)
                                 then None else Some l) ds).
Proof.
  induction ds as [|l ls IH]; intros [left right]; simpl.
  - rewrite !app_nil_r. reflexivity.
  - rewrite IH. destruct (Highlighter.type l); simpl; rewrite <- !app_assoc; reflexivity.
Qed.

(** The two columns of the side-by-side view have one row per diff line, so
    the padding loops never add a row: the left column shows every line but
    the added ones, the right column every line but the removed ones, each
    on the row of its index, with an empty cell otherwise. *)
Theorem sideBySide_rows_align :
  forall (ds : list Highlighter.DiffLine),
    fst (DiffViewer.sideBySide ds)
      = map (fun l => if Highlighter.is_added (Highlighter.type l)
                      then None else Some l) ds
    /\ snd (DiffViewer.sideBySide ds)
       = map (fun l => if DiffViewer.is_removed (Highlighter.type l)
                       then None else Some l) ds
    /\ length (fst (DiffViewer.sideBySide ds)) = length ds
    /\ length (snd (DiffViewer.sideBySide ds)) = length ds.
Proof.
  intros ds. unfold DiffViewer.sideBySide. rewrite sideBySide_fold. simpl.
  rewrite !length_map, Nat.max_id, Nat.sub_diag. simpl. rewrite !app_nil_r.
  rewrite !length_map. auto.
Qed.

(** [handleCompareDocs] asks the service only when both selects hold a
    document id other than 0, and then exactly once, for the pair chosen and
    in the mode switched on; it ends with the spinner off.  When the request
    resolves, no error is shown and the diff result is the answer (an
    enhanced diff as it came, a basic one put into the enhanced shape).  When
    the request fails, the error is shown and the diff result of an earlier
    comparison stays in place. *)
Theorem handleCompareDocs_asks_once_for_chosen_pair :
  forall svc (s : DiffViewer.State) (log : list DiffViewer.Fetch),
    (DiffViewer.chosen (DiffViewer.primaryDoc s) = None
     \/ DiffViewer.chosen (DiffViewer.secondaryDoc s) = None ->
     DiffViewer.handleCompareDocs svc s log
     = (DiffViewer.set_error (Some (lit "Please select two documents to compare")) s,
        log))
    /\ (forall a b,
           DiffViewer.chosen (DiffViewer.primaryDoc s) = Some a ->
           DiffViewer.chosen (DiffViewer.secondaryDoc s) = Some b ->
           snd (DiffViewer.handleCompareDocs svc s log)
           = log ++ [{| DiffViewer.docIdA := a; DiffViewer.docIdB := b;
                        DiffViewer.enhanced := DiffViewer.enhancedDiff s |}]
           /\ DiffViewer.loading (fst (DiffViewer.handleCompareDocs svc s log)) = false
           /\ (forall data,
                  DiffViewer.enhancedDiff s = true ->
                  DiffViewer.enhancedDiffOf svc
                    (snd (DiffViewer.handleCompareDocs svc s log)) = Api.Resolved data ->
                  DiffViewer.error (fst (DiffViewer.handleCompareDocs svc s log)) = None
                  /\ DiffViewer.diffResult (fst (DiffViewer.handleCompareDocs svc s log))
                     = Some data)
           /\ (forall diffLines,
                  DiffViewer.enhancedDiff s = false ->
                  DiffViewer.basicDiffOf svc
                    (snd (DiffViewer.handleCompareDocs svc s log))
                  = Api.Resolved diffLines ->
                  DiffViewer.error (fst (DiffViewer.handleCompareDocs svc s log)) = None
                  /\ DiffViewer.diffResult (fst (DiffViewer.handleCompareDocs svc s log))
                     = Some (DiffViewer.fromBasicDiff diffLines))
           /\ ((if DiffViewer.enhancedDiff s
                then exists e, DiffViewer.enhancedDiffOf svc
                                 (snd (DiffViewer.handleCompareDocs svc s log))
                               = Api.Rejected e
                else exists e, DiffViewer.basicDiffOf svc
                                 (snd (DiffViewer.handleCompareDocs svc s log))
                               = Api.Rejected e) ->
               DiffViewer.error (fst (DiffViewer.handleCompareDocs svc s log))
               = Some DiffViewer.compareFailed
               /\ DiffViewer.diffResult (fst (DiffViewer.handleCompareDocs svc s log))
                  = DiffViewer.diffResult s)).
Proof.
  intros svc s log. unfold DiffViewer.handleCompareDocs. split.
  - intros [H | H]; rewrite H; [reflexivity|].
    destruct (DiffViewer.chosen (DiffViewer.primaryDoc s)); reflexivity.
  - intros a b Ha Hb. rewrite Ha, Hb. simpl.
    split; [reflexivity|].
    destruct (DiffViewer.enhancedDiff s).
    + destruct (DiffViewer.enhancedDiffOf svc _) as [data0|e0]; simpl.
      * split; [reflexivity|]. split; [intros data _ [= <-]; auto|].
        split; [intros ? [=]|]. intros [e [=]].
      * split; [reflexivity|]. split; [intros data _ [=]|].
        split; [intros ? [=]|]. auto.
    + destruct (DiffViewer.basicDiffOf svc _) as [lines0|e0]; simpl.
      * split; [reflexivity|]. split; [intros ? [=]|].
        split; [intros diffLines _ [= <-]; auto|]. intros [e [=]].
      * split; [reflexivity|]. split; [intros ? [=]|].
        split; [intros diffLines _ [=]|]. auto.
Qed.

(** A document whose id is 0 counts as not chosen. *)
Example handleCompareDocs_id_zero :
  forall svc,
    DiffViewer.handleCompareDocs svc
      (DiffViewer.set_secondaryDoc (Some 5%Z)
         (DiffViewer.set_primaryDoc (Some 0%Z) DiffViewer.init)) []
    = (DiffViewer.set_error (Some (lit "Please select two documents to compare"))
         (DiffViewer.set_secondaryDoc (Some 5%Z)
            (DiffViewer.set_primaryDoc (Some 0%Z) DiffViewer.init)), []).
Proof. intros svc. reflexivity. Qed.

(** ** More on the highlighter *)

Section HighlighterMore.

Import Highlighter HighlighterSpec.

Lemma countOf_app c (a b : jsstring) :
  Observe.countOf c (a ++ b) = (Observe.countOf c a + Observe.countOf c b)%nat.
Proof. unfold Observe.countOf. rewrite List.filter_app, length_app. reflexivity. Qed.

Lemma countOf_absent c (a : jsstring) :
  (forall x, x ∈ a -> x <> c) -> Observe.countOf c a = 0%nat.
Proof.
  unfold Observe.countOf. induction a as [|x a IH]; intros H; [reflexivity|].
  simpl. destruct (N.eqb_spec c x) as [->|_].
  - exfalso. apply (H x); [apply list_elem_of_here | reflexivity].
  - apply IH. intros y Hy. apply H. apply list_elem_of_further. exact Hy.
Qed.

Lemma countOf_join c (ls : list jsstring) :
  c <> 10 ->
  Observe.countOf c (join [10] ls) = foldr (fun l n => (Observe.countOf c l + n)%nat) 0%nat ls.
Proof.
  intros Hc. induction ls as [|l ls IH]; [reflexivity|].
  destruct ls as [|l' ls].
  - simpl. lia.
  - rewrite join_cons_cons, !countOf_app, IH.
    assert (H10 : Observe.countOf c [10] = 0%nat).
    { unfold Observe.countOf. simpl. destruct (N.eqb_spec c 10); [done | reflexivity]. }
    rewrite H10. reflexivity.
Qed.

Lemma countOf_markup (c : N) h (l : jsstring) :
  c = 60 \/ c = 62 ->
  Observe.countOf c (markup h l) = if Observe.isHighlighted h then 2%nat else 0%nat.
Proof.
  intros Hc.
  assert (He : Observe.countOf c (escapeHtml l) = 0%nat).
  { apply countOf_absent. intros x Hx. apply escapeHtml_chars in Hx as (?&?&_).
    destruct Hc; congruence. }
  destruct h; unfold markup; rewrite ?countOf_app, ?He;
    destruct Hc as [-> | ->]; reflexivity.
Qed.

Lemma span_tags_count (c : N) (m : jsstring) (d : DiffResult) :
  c = 60 \/ c = 62 ->
  Observe.countOf c (highlightMergedContent m (Some d))
  = (2 * length (List.filter (fun lh => Observe.isHighlighted (snd lh))
                             (classify m d)))%nat.
Proof.
  intros Hc. rewrite highlightMergedContent_render. unfold render.
  rewrite countOf_join by (destruct Hc; subst; discriminate).
  induction (classify m d) as [|[l h] ls IH]; [reflexivity|].
  simpl. rewrite IH, countOf_markup by exact Hc.
  destruct (Observe.isHighlighted h); simpl; lia.
Qed.

(** The only [<] and [>] of the returned markup are those of the span tags:
    each occurs twice for every highlighted line and nowhere else, whatever
    the merged text holds. *)
Theorem markup_has_only_span_tags :
  forall (m : jsstring) (d : DiffResult),
    Observe.countOf 60 (highlightMergedContent m (Some d))
      = (2 * length (List.filter (fun lh => Observe.isHighlighted (snd lh))
                                 (classify m d)))%nat
    /\ Observe.countOf 62 (highlightMergedContent m (Some d))
       = (2 * length (List.filter (fun lh => Observe.isHighlighted (snd lh))
                                  (classify m d)))%nat.
Proof.
  intros m d. split; apply span_tags_count; auto.
Qed.

Lemma entity_nonempty (c : N) : entity c <> [].
Proof. unfold entity. repeat case_match; discriminate. Qed.

Lemma entity_head (x : N) :
  (entity x = [x] /\ x <> 38)
  \/ (x = 38 /\ entity x = lit "&amp;")
  \/ (x = 60 /\ entity x = lit "&lt;")
  \/ (x = 62 /\ entity x = lit "&gt;")
  \/ (x = 34 /\ entity x = lit "&quot;")
  \/ (x = 39 /\ entity x = lit "&#039;").
Proof.
  unfold entity.
  destruct (N.eqb_spec x 38) as [->|H38]; [auto|].
  destruct (N.eqb_spec x 60) as [->|H60]; [auto 10|].
  destruct (N.eqb_spec x 62) as [->|H62]; [auto 10|].
  destruct (N.eqb_spec x 34) as [->|H34]; [auto 10|].
  destruct (N.eqb_spec x 39) as [->|H39]; [auto 10|].
  auto.
Qed.

Lemma entity_prefix_inj (x y : N) (a b : jsstring) :
  entity x ++ a = entity y ++ b -> x = y /\ a = b.
Proof.
  intros H.
  destruct (entity_head x) as [[Ex Hx] | Hx], (entity_head y) as [[Ey Hy] | Hy].
  - rewrite Ex, Ey in H. injection H as -> ->. auto.
  - rewrite Ex in H.
    destruct Hy as [[-> Ey] | [[-> Ey] | [[-> Ey] | [[-> Ey] | [-> Ey]]]]];
      rewrite Ey in H; cbv in H; injection H as H _; subst x; done.
  - rewrite Ey in H.
    destruct Hx as [[-> Ex] | [[-> Ex] | [[-> Ex] | [[-> Ex] | [-> Ex]]]]];
      rewrite Ex in H; cbv in H; injection H as H _; subst y; done.
  - destruct Hx as [[-> Ex] | [[-> Ex] | [[-> Ex] | [[-> Ex] | [-> Ex]]]]];
      destruct Hy as [[-> Ey] | [[-> Ey] | [[-> Ey] | [[-> Ey] | [-> Ey]]]]];
      rewrite ?Ex, ?Ey in H; cbv in H; try congruence;
      (split; [reflexivity | congruence]).
Qed.

(** Escaping loses nothing: two texts have the same escaped form only when
    they are the same text. *)
Theorem escapeHtml_injective :
  forall (a b : jsstring), escapeHtml a = escapeHtml b <-> a = b.
Proof.
  intros a b. split; [|intros ->; reflexivity].
  rewrite !escapeHtml_spec. unfold escape_spec. revert b.
  induction a as [|x a IH]; intros [|y b] H; simpl in H.
  - reflexivity.
  - symmetry in H. apply app_eq_nil in H as [H _]. destruct (entity_nonempty _ H).
  - apply app_eq_nil in H as [H _]. destruct (entity_nonempty _ H).
  - apply entity_prefix_inj in H as [-> H]. f_equal. apply IH. exact H.
Qed.

(** The returned markup depends on the diff only through the trimmed texts
    of its added lines, as a set: the removed and unchanged lines, the order
    and the repeats of the added ones, the statistics and the summary make no
    difference. *)
Theorem highlight_depends_on_added_texts_only :
  forall (m : jsstring) (d d' : DiffResult),
    (forall x, x ∈ added_set_spec d <-> x ∈ added_set_spec d') ->
    highlightMergedContent m (Some d) = highlightMergedContent m (Some d').
Proof.
  intros m d d' Hsame. rewrite !highlightMergedContent_render. f_equal.
  unfold classify. destruct m as [|c m]; [reflexivity|].
  apply map_ext. intros l. rewrite !highlightOf_spec.
  unfold classify_line_spec.
  rewrite (bool_decide_ext _ _ (Hsame (trim l))). reflexivity.
Qed.

Lemma highlight_depends_on_added_texts_only_witness :
  highlightMergedContent Scenario.barFooBaz (Some Scenario.fooBarDiff)
  = highlightMergedContent Scenario.barFooBaz
      (Some (DiffViewer.fromBasicDiff
               [ {| type := added; line := lit " foo" |};
                 {| type := removed; line := lit "baz" |};
                 {| type := added; line := lit "foo  " |} ])).
Proof.
  apply (highlight_depends_on_added_texts_only Scenario.barFooBaz Scenario.fooBarDiff).
  intros x. rewrite !elem_of_added_set_spec. split.
  - intros (dl & Hin & Ht & <-).
    apply elem_of_cons in Hin as [-> | Hin]; [|apply list_elem_of_singleton in Hin;
                                                subst dl; discriminate].
    eexists. split; [apply list_elem_of_here|]. split; reflexivity.
  - intros (dl & Hin & Ht & <-).
    exists {| type := added; line := lit "foo" |}.
    split; [apply list_elem_of_here|]. split; [reflexivity|].
    repeat (apply elem_of_cons in Hin as [-> | Hin]); try discriminate;
      [reflexivity | reflexivity | apply elem_of_nil in Hin; destruct Hin].
Defined.

Lemma escapeHtml_join (ls : list jsstring) :
  escapeHtml (join [10] ls) = join [10] (map escapeHtml ls).
Proof.
  induction ls as [|l ls IH]; [reflexivity|].
  destruct ls as [|l' ls]; [reflexivity|].
  rewrite join_cons_cons, !escapeHtml_app, IH.
  change (escapeHtml [10]) with [10%N]. reflexivity.
Qed.

(** With no added line in the diff and no line holding [<<<], nothing is
    highlighted and the returned text is the merged text escaped as a whole,
    line breaks kept. *)
Theorem plain_text_is_escaped_whole :
  forall (m : jsstring) (d : DiffResult),
    Forall (fun dl => type dl <> added) (diff_lines d) ->
    (forall l, l ∈ split 10 m -> includes l (lit "<<<") = false) ->
    highlightMergedContent m (Some d) = escapeHtml m.
Proof.
  intros m d Hno Hplain. rewrite highlightMergedContent_render.
  unfold render, classify. destruct m as [|c m]; [reflexivity|].
  rewrite <- (join_split 10 (c :: m)) at 2. rewrite escapeHtml_join, map_map.
  f_equal. apply map_ext_in. intros l Hl. simpl.
  unfold highlightOf. rewrite bool_decide_eq_false_2.
  - rewrite (Hplain l) by (apply list_elem_of_In; exact Hl). reflexivity.
  - rewrite elem_of_addedLinesOf. intros (dl & Hin & Ht & _).
    rewrite Forall_forall in Hno. exact (Hno dl Hin Ht).
Qed.

Lemma plain_text_is_escaped_whole_witness :
  highlightMergedContent (lit "a<b" ++ [10] ++ lit "c&d")
    (Some (Scenario.diffOf [ {| type := removed; line := lit "a<b" |} ]))
  = escapeHtml (lit "a<b" ++ [10] ++ lit "c&d").
Proof.
  apply (plain_text_is_escaped_whole (lit "a<b" ++ [10] ++ lit "c&d")
           (Scenario.diffOf [ {| type := removed; line := lit "a<b" |} ])).
  - repeat constructor. discriminate.
  - intros l Hl. vm_compute in Hl.
    repeat (apply elem_of_cons in Hl as [-> | Hl]); try reflexivity.
    apply elem_of_nil in Hl. destruct Hl.
Defined.

End HighlighterMore.

(** ** The upload step *)

Section UploadFacts.

Import DocumentUpload.

Variable uploadDocument : list File -> Api.Settled Z.
Variable percent : nat -> nat -> Z.

Local Abbreviation uploadRound := (uploadRound uploadDocument percent).
Local Abbreviation uploadFrom := (uploadFrom uploadDocument percent).

Lemma pendingFiles_cons (doc : Document) (rest : list Document) :
  Observe.pendingFiles (doc :: rest)
  = Observe.pendingFiles [doc] ++ Observe.pendingFiles rest.
Proof.
  unfold Observe.pendingFiles. simpl.
  destruct (isUploaded doc); [reflexivity|]. destruct (doc_file doc); reflexivity.
Qed.

(** What one round does to the loop's locals and to the files posted. *)
Lemma uploadRound_effect documents acc i doc :
  posted (uploadRound documents acc i doc)
    = posted acc ++ Observe.pendingFiles [doc]
  /\ (length (uploadedDocs (uploadRound documents acc i doc))
      + failedUploads (uploadRound documents acc i doc)
      = length (uploadedDocs acc) + failedUploads acc
        + length (Observe.pendingFiles [doc]))%nat
  /\ (Forall Observe.handedOver (uploadedDocs acc) ->
      Forall Observe.handedOver (uploadedDocs (uploadRound documents acc i doc)))
  /\ uploading (state (uploadRound documents acc i doc)) = uploading (state acc)
  /\ ((forall log, exists newId, uploadDocument log = Api.Resolved newId) ->
      failedUploads (uploadRound documents acc i doc) = failedUploads acc
      /\ error (state (uploadRound documents acc i doc)) = error (state acc)).
Proof.
  unfold DocumentUpload.uploadRound, Observe.pendingFiles. simpl.
  destruct (isUploaded doc).
  { rewrite app_nil_r. repeat split; auto; lia. }
  destruct (doc_file doc) as [file|].
  2: { rewrite app_nil_r. repeat split; auto; lia. }
  destruct (uploadDocument (posted acc ++ [file])) as [newId|err] eqn:Er; simpl.
  - split; [reflexivity|]. split; [rewrite length_app; simpl; lia|].
    split; [|split; [reflexivity | auto]].
    intros Hall. apply Forall_app. split; [exact Hall|].
    repeat constructor. eauto.
  - split; [reflexivity|]. split; [lia|]. split; [auto|]. split; [reflexivity|].
    intros Hok. destruct (Hok (posted acc ++ [file])) as [newId Hn]. congruence.
Qed.

Lemma uploadFrom_effect documents (rest : list Document) : forall i acc,
  posted (uploadFrom documents i rest acc) = posted acc ++ Observe.pendingFiles rest
  /\ (length (uploadedDocs (uploadFrom documents i rest acc))
      + failedUploads (uploadFrom documents i rest acc)
      = length (uploadedDocs acc) + failedUploads acc
        + length (Observe.pendingFiles rest))%nat
  /\ (Forall Observe.handedOver (uploadedDocs acc) ->
      Forall Observe.handedOver (uploadedDocs (uploadFrom documents i rest acc)))
  /\ uploading (state (uploadFrom documents i rest acc)) = uploading (state acc)
  /\ ((forall log, exists newId, uploadDocument log = Api.Resolved newId) ->
      failedUploads (uploadFrom documents i rest acc) = failedUploads acc
      /\ error (state (uploadFrom documents i rest acc)) = error (state acc)).
Proof.
  induction rest as [|doc rest IH]; intros i acc.
  - simpl. rewrite app_nil_r. unfold Observe.pendingFiles. simpl.
    repeat split; auto; lia.
  - simpl DocumentUpload.uploadFrom. rewrite pendingFiles_cons.
    destruct (uploadRound_effect documents acc i doc) as (Hp & Hc & Hh & Hu & Hok).
    destruct (IH (S i) (uploadRound documents acc i doc)) as (Hp' & Hc' & Hh' & Hu' & Hok').
    split; [rewrite Hp', Hp, app_assoc; reflexivity|].
    split; [rewrite Hc', Hc, length_app; lia|].
    split; [auto|]. split; [congruence|].
    intros Hall. destruct (Hok Hall), (Hok' Hall). split; congruence.
Qed.


(** [handleUploadAll] posts the files of the documents not yet uploaded, one
    request each, in the order of the list, and nothing else; while an upload
    is running it posts nothing. *)
Theorem handleUploadAll_posts_pending_files_in_order :
  forall (P : Type) (onDocumentsSelected : list Document -> P -> P)
         (s : State) (parent : P) (log : list File),
    snd (handleUploadAll uploadDocument percent onDocumentsSelected s parent log)
    = log ++ (if uploading s then [] else Observe.pendingFiles (documents s)).
Proof.
  intros P cb s parent log. unfold handleUploadAll.
  destruct (documents s) as [|d ds] eqn:Ed.
  - destruct (uploading s); simpl; rewrite app_nil_r; reflexivity.
  - destruct (uploading s); [simpl; rewrite app_nil_r; reflexivity|].
    match goal with
    | |- context [DocumentUpload.uploadFrom _ _ ?docs ?i ?rest ?acc] =>
        destruct (uploadFrom_effect docs rest i acc) as (Hp & _);
        destruct (uploadedDocs (DocumentUpload.uploadFrom uploadDocument percent
                                  docs i rest acc)); simpl; exact Hp
    end.
Qed.

(** The parent's callback is run at most once, never with an empty list, and
    only with documents that carry an id, are marked uploaded and hold no
    file; there are no more of them than there were files to post. *)
Theorem handleUploadAll_hands_over_uploaded_documents :
  forall (s : State) (calls : list (list Document)) (log : list File),
    snd (fst (handleUploadAll uploadDocument percent cons s calls log)) = calls
    \/ exists docs,
         snd (fst (handleUploadAll uploadDocument percent cons s calls log))
           = docs :: calls
         /\ docs <> []
         /\ Forall Observe.handedOver docs
         /\ (length docs <= length (Observe.pendingFiles (documents s)))%nat.
Proof.
  intros s calls log. unfold handleUploadAll.
  destruct (documents s) as [|d ds] eqn:Ed; [left; reflexivity|].
  destruct (uploading s); [left; reflexivity|].
  match goal with
  | |- context [DocumentUpload.uploadFrom _ _ ?docs ?i ?rest ?acc] =>
      destruct (uploadFrom_effect docs rest i acc) as (_ & Hc & Hh & _);
      destruct (uploadedDocs (DocumentUpload.uploadFrom uploadDocument percent
                                docs i rest acc)) as [|u us] eqn:Eu
  end.
  - left. reflexivity.
  - right. exists (u :: us). split; [reflexivity|]. split; [discriminate|].
    split; [apply Hh; constructor|]. simpl in Hc. simpl. lia.
Qed.


End UploadFacts.

(** With fewer than two files to post, the page stays on its step whatever
    the service answers: the upload step hands over only the documents of
    the current run, and the page asks for two. *)
Theorem upload_of_fewer_than_two_does_not_advance :
  forall uploadDocument percent (form : DocumentUpload.State)
         (home : HomePage.State) (log : list DocumentUpload.File),
    (length (Observe.pendingFiles (DocumentUpload.documents form)) < 2)%nat ->
    HomePage.activeStep
      (snd (fst (Session.uploadAll uploadDocument percent form home log)))
    = HomePage.activeStep home.
Proof.
  intros upl pct form home log Hlt.
  unfold Session.uploadAll, DocumentUpload.handleUploadAll.
  destruct (DocumentUpload.documents form) as [|d ds] eqn:Ed; [reflexivity|].
  destruct (DocumentUpload.uploading form); [reflexivity|].
  match goal with
  | |- context [DocumentUpload.uploadFrom _ _ ?docs ?i ?rest ?acc] =>
      destruct (uploadFrom_effect upl pct docs rest i acc) as (_ & Hc & _);
      destruct (DocumentUpload.uploadedDocs
                  (DocumentUpload.uploadFrom upl pct docs i rest acc))
        as [|u us] eqn:Eu
  end.
  - reflexivity.
  - destruct us as [|u' us]; [reflexivity|].
    remember (Observe.pendingFiles (d :: ds)) as files. simpl in Hc. lia.
Qed.

Lemma upload_of_fewer_than_two_does_not_advance_witness :
  HomePage.activeStep
    (snd (fst (Session.uploadAll (fun _ => Api.Resolved 7%Z) (fun _ _ => 100%Z)
                 (DocumentUpload.handleFileSelect
                    [ {| DocumentUpload.file_name := lit "a.txt";
                         DocumentUpload.file_bytes := [] |} ]
                    DocumentUpload.init)
                 HomePage.init [])))
  = HomePage.activeStep HomePage.init.
Proof.
  apply (upload_of_fewer_than_two_does_not_advance
           (fun _ => Api.Resolved 7%Z) (fun _ _ => 100%Z)
           (DocumentUpload.handleFileSelect
              [ {| DocumentUpload.file_name := lit "a.txt";
                   DocumentUpload.file_bytes := [] |} ]
              DocumentUpload.init)
           HomePage.init []).
  vm_compute. lia.
Defined.



(** Two files, both accepted: afterwards the list of the upload step shows
    the first as still pending and only the second as uploaded. *)
Example upload_two_shows_one_uploaded :
  map DocumentUpload.isUploaded
    (DocumentUpload.documents
       (fst (fst (Session.uploadAll (fun _ => Api.Resolved 7%Z) (fun _ _ => 100%Z)
                    (DocumentUpload.handleFileSelect
                       [ {| DocumentUpload.file_name := lit "a.txt";
                            DocumentUpload.file_bytes := [] |};
                         {| DocumentUpload.file_name := lit "b.txt";
                            DocumentUpload.file_bytes := [] |} ]
                       DocumentUpload.init)
                    HomePage.init []))))
  = [false; true].
Proof. vm_compute. reflexivity. Qed.

(** ** The preview and the page's guards *)

(** Once its effect has run, the preview sets HTML exactly when there is a
    diff result and the first tab is the active one, and what it sets is the
    highlighter's markup for the content shown: its only [<] and [>] are
    those of the span tags, two of each per highlighted line.  Without a
    diff result, or on any other tab, the content is shown as text. *)
Theorem preview_sets_only_highlighter_markup :
  forall (content : jsstring) (diffResult : option Highlighter.DiffResult)
         (s : Preview.State),
    (forall markup,
        Preview.body content diffResult (Preview.syncHighlight content diffResult s)
        = Preview.Html markup
        <-> Preview.activeTab s = 0%Z
            /\ exists d, diffResult = Some d
                         /\ markup = Highlighter.highlightMergedContent content (Some d))
    /\ (forall text,
           Preview.body content diffResult (Preview.syncHighlight content diffResult s)
           = Preview.Raw text
           <-> text = content /\ (diffResult = None \/ Preview.activeTab s <> 0%Z))
    /\ (forall markup d,
           Preview.body content diffResult (Preview.syncHighlight content diffResult s)
           = Preview.Html markup ->
           diffResult = Some d ->
           Observe.countOf 60 markup
           = (2 * length (List.filter (fun lh => Observe.isHighlighted (snd lh))
                                      (Highlighter.classify content d)))%nat
           /\ Observe.countOf 62 markup = Observe.countOf 60 markup).
Proof.
  intros content diffResult s.
  assert (Hbody :
    Preview.body content diffResult (Preview.syncHighlight content diffResult s)
    = match diffResult with
      | Some d => if (Preview.activeTab s =? 0)%Z
                  then Preview.Html (Highlighter.highlightMergedContent content (Some d))
                  else Preview.Raw content
      | None => Preview.Raw content
      end).
  { destruct diffResult; reflexivity. }
  rewrite Hbody. clear Hbody. split; [|split].
  - intros markup. destruct diffResult as [d|].
    + destruct (Z.eqb_spec (Preview.activeTab s) 0) as [E|E]; split.
      * intros [= <-]. split; [exact E|]. exists d. auto.
      * intros (_ & d' & [= <-] & ->). reflexivity.
      * discriminate.
      * intros (E0 & _). contradiction.
    + split; [discriminate|]. intros (_ & d & Hd & _). discriminate.
  - intros text. destruct diffResult as [d|].
    + destruct (Z.eqb_spec (Preview.activeTab s) 0) as [E|E]; split.
      * discriminate.
      * intros (_ & [Hd | Hn]); [discriminate | contradiction].
      * intros [= <-]. auto.
      * intros (-> & _). reflexivity.
    + split; [intros [= <-]; auto | intros (-> & _); reflexivity].
  - intros markup d Hb Hd. subst diffResult.
    destruct (Preview.activeTab s =? 0)%Z; [|discriminate].
    injection Hb as <-.
    pose proof (span_tags_count 60 content d (or_introl eq_refl)) as H60.
    pose proof (span_tags_count 62 content d (or_intror eq_refl)) as H62.
    split; [exact H60 | congruence].
Qed.

Lemma applyMergeResult_keeps_steps svc taskId (s : HomePage.State) (w : Api.World) :
  HomePage.activeStep (fst (HomePage.applyMergeResult svc taskId s w))
    = HomePage.activeStep s
  /\ HomePage.mergeGoal (fst (HomePage.applyMergeResult svc taskId s w))
     = HomePage.mergeGoal s
  /\ HomePage.documents (fst (HomePage.applyMergeResult svc taskId s w))
     = HomePage.documents s
  /\ HomePage.diffResult (fst (HomePage.applyMergeResult svc taskId s w))
     = HomePage.diffResult s.
Proof.
  unfold HomePage.applyMergeResult. simpl.
  destruct (Api.mergeResult svc _) as [data|err]; simpl.
  - destruct (HomePage.truthy_id (Api.id data)); simpl; auto.
  - destruct (Api.handleApiError err _); simpl; auto.
Qed.

Lemma step_keeps_filled svc ev (s : HomePage.State) (w : Api.World) :
  Guard.enabled s ev = true ->
  Guard.filled s ->
  Guard.filled (fst (Session.step svc ev (s, w))).
Proof.
  unfold Guard.filled. intros Hen (Hr & Hg & Hd & Hf).
  destruct ev; simpl in Hen |- *;
    repeat (apply andb_true_iff in Hen as [Hen ?]);
    repeat match goal with
           | H : negb _ = true |- _ => apply negb_true_iff in H
           | H : (_ =? _)%Z = true |- _ => apply Z.eqb_eq in H
           | H : (_ <? _)%Z = true |- _ => apply Z.ltb_lt in H
           | H : bool_decide _ = true |- _ => apply bool_decide_eq_true in H
           end.
  - (* Next *)
    unfold Guard.continueDisabled in *.
    repeat match goal with
           | H : (_ || _) = false |- _ => apply orb_false_iff in H as [H ?]
           end.
    assert (Hgoal : HomePage.activeStep s = 0%Z -> is_Some (HomePage.mergeGoal s)).
    { intros E0. rewrite E0 in *. simpl in *.
      match goal with H : negb (bool_decide _) = false |- _ =>
        apply negb_false_iff, bool_decide_eq_true in H; exact H end. }
    assert (Hdocs : HomePage.activeStep s = 1%Z ->
                    (2 <= length (HomePage.documents s))%nat).
    { intros E1. rewrite E1 in *. simpl in *.
      match goal with H : (_ <? _)%nat = false |- _ =>
        apply Nat.ltb_ge in H; exact H end. }
    assert (Hdiff : HomePage.activeStep s = 2%Z -> is_Some (HomePage.diffResult s)).
    { intros E2. rewrite E2 in *. simpl in *.
      match goal with H : negb (bool_decide _) = false |- _ =>
        apply negb_false_iff, bool_decide_eq_true in H; exact H end. }
    (split; [lia|]); (split; [|split]); intros Hs.
    + destruct (Z.eq_dec (HomePage.activeStep s) 0); [auto | apply Hg; lia].
    + destruct (Z.eq_dec (HomePage.activeStep s) 1); [auto | apply Hd; lia].
    + destruct (Z.eq_dec (HomePage.activeStep s) 2); [auto | apply Hf; lia].
  - (* Back *)
    match goal with H : (_ || _) = false |- _ => apply orb_false_iff in H as [H0 ?] end.
    apply Z.eqb_neq in H0.
    (split; [lia|]); (split; [|split]); intros Hs; [apply Hg | apply Hd | apply Hf]; lia.
  - (* GoalSet *)
    match goal with H : HomePage.activeStep s = 0%Z |- _ => rewrite H end.
    (split; [lia|]); (split; [|split]); intros Hs; eauto; lia.
  - (* DocumentsSelected *)
    unfold HomePage.handleDocumentsSelected.
    destruct (Nat.leb_spec 2 (length selectedDocs)); simpl;
      match goal with H : HomePage.activeStep s = 1%Z |- _ => rewrite H in * end;
      (split; [lia|]); (split; [|split]); intros Hs; try lia; try (apply Hg; lia).
  - (* ProceedToMerge *)
    unfold HomePage.handleProceedToMerge.
    match goal with H : HomePage.activeStep s = 2%Z |- _ => rename H into E2 end.
    destruct (Hg ltac:(lia)) as [g Hgoal]. rewrite Hgoal.
    destruct (Nat.ltb_spec (length (HomePage.documents s)) 2) as [Hbad | _].
    { specialize (Hd ltac:(lia)). lia. }
    simpl. rewrite E2, Hgoal.
    (split; [lia|]); (split; [|split]); intros Hs; eauto. apply Hd. lia.
  - (* FinalizeMerge *)
    unfold HomePage.handleFinalizeMerge.
    destruct (HomePage.mergeTaskId s) as [[|c t]|]; simpl; try (split; [lia|]; split; [|split]; auto).
    destruct (applyMergeResult_keeps_steps svc (c :: t) s w) as (-> & -> & -> & ->).
    split; [lia|]; split; [|split]; auto.
  - (* ResetPage *)
    (split; [lia|]); (split; [|split]); intros Hs; lia.
  - (* CloseError *)
    split; [lia|]; split; [|split]; auto.
  - (* CloseSuccess *)
    split; [lia|]; split; [|split]; auto.
Qed.

(** No step is skipped: as long as every event is one the rendered page lets
    through, the page is on one of its four steps, has a goal once past the
    first, at least two documents once past the second, and a diff result
    once on the review step. *)
Theorem page_reaches_steps_in_order :
  forall svc (evs : list Session.Event) (w : Api.World) s' w',
    Guard.run svc evs (HomePage.init, w) = Some (s', w') ->
    Guard.filled s'.
Proof.
  intros svc evs w s' w'.
  assert (Hgen : forall evs (s : HomePage.State) (w0 : Api.World),
    Guard.filled s -> Guard.run svc evs (s, w0) = Some (s', w') -> Guard.filled s').
  { clear evs. induction evs as [|ev evs IH]; intros s w0 Hs Hrun.
    - simpl in Hrun. injection Hrun as <- _. exact Hs.
    - change (Guard.run svc (ev :: evs) (s, w0))
        with (if Guard.enabled s ev
              then Guard.run svc evs (Session.step svc ev (s, w0))
              else None) in Hrun.
      destruct (Guard.enabled s ev) eqn:Hen; [|discriminate].
      pose proof (step_keeps_filled svc ev s w0 Hen Hs) as H1.
      destruct (Session.step svc ev (s, w0)) as [s1 w1].
      apply (IH s1 w1); [exact H1 | exact Hrun]. }
  apply Hgen. unfold Guard.filled. simpl.
  (split; [lia|]); (split; [|split]); intros Hs; lia.
Qed.

Lemma page_reaches_steps_in_order_witness :
  Guard.filled
    (HomePage.handleNext
       (HomePage.handleBack (HomePage.handleGoalSet GoalSetting.defaultGoal HomePage.init))).
Proof.
  apply (page_reaches_steps_in_order Scenario.mergeService
           [Session.GoalSet GoalSetting.defaultGoal; Session.Back; Session.Next]
           Scenario.emptyWorld _ Scenario.emptyWorld).
  vm_compute. reflexivity.
Defined.
